(** * dnsFilterApp: the query path and the blocklist engine

    A shallow embedding of the Go sources
    - package [filter], [internal/filter/engine.go]: the match engine and the
      blocklist ingestion;
    - package [dns]: the request handler of [internal/dns/server.go], the
      response cache [DNSCache] and the round-robin [UpstreamPool];
    - package [config]: the configuration records the core reads;
    together with the properties the specification states about them.

    Conventions.  Go [string]s are Rocq [string]s (sequences of bytes); a Go
    [map[string]bool] is a [gmap string bool] read with the zero value
    [false] for absent keys; unsigned machine integers are [Z] with their
    wrap-around written out; the wall clock, the network and the file system
    are explicit inputs of the functions that consult them. *)

From Stdlib Require Import ZArith String Ascii List Bool Lia.
From stdpp Require Import base option list gmap strings.

Local Open Scope string_scope.
Local Open Scope Z_scope.

(** ** Package [strings] of the Go standard library

    Only the functions the engine calls.  Domain names and configuration
    values are ASCII, so bytes and characters coincide; [ToLower] and
    [TrimSpace] are modelled on ASCII. *)

Module GoStrings.

(** [s[n:]] *)
Fixpoint slice_from (n : nat) (s : string) : string :=
  match n, s with
  | O, _ => s
  | S _, EmptyString => EmptyString
  | S n', String _ s' => slice_from n' s'
  end.

(** [s[:n]] *)
Fixpoint slice_to (n : nat) (s : string) : string :=
  match n, s with
  | O, _ => EmptyString
  | S _, EmptyString => EmptyString
  | S n', String c s' => String c (slice_to n' s')
  end.

Definition lowerByte (c : ascii) : ascii :=
  let n := nat_of_ascii c in
  if ((65 <=? n)%nat && (n <=? 90)%nat)%bool then ascii_of_nat (n + 32) else c.

Fixpoint ToLower (s : string) : string :=
  match s with
  | EmptyString => EmptyString
  | String c s' => String (lowerByte c) (ToLower s')
  end.

(** ASCII white space as [unicode.IsSpace] sees it: TAB, LF, VT, FF, CR and
    the space. *)
Definition isSpace (c : ascii) : bool :=
  let n := nat_of_ascii c in
  (((9 <=? n)%nat && (n <=? 13)%nat) || (n =? 32)%nat)%bool.

Fixpoint TrimLeftSpace (s : string) : string :=
  match s with
  | EmptyString => EmptyString
  | String c s' => if isSpace c then TrimLeftSpace s' else s
  end.

Fixpoint TrimRightSpace (s : string) : string :=
  match s with
  | EmptyString => EmptyString
  | String c s' =>
      match TrimRightSpace s' with
      | EmptyString => if isSpace c then EmptyString else String c EmptyString
      | t => String c t
      end
  end.

Definition TrimSpace (s : string) : string := TrimRightSpace (TrimLeftSpace s).

(** [len(s) >= len(prefix) && s[:len(prefix)] == prefix] *)
Definition HasPrefix (s prefix : string) : bool :=
  ((String.length prefix <=? String.length s)%nat
   && String.eqb (slice_to (String.length prefix) s) prefix)%bool.

(** [len(s) >= len(suffix) && s[len(s)-len(suffix):] == suffix] *)
Definition HasSuffix (s suffix : string) : bool :=
  ((String.length suffix <=? String.length s)%nat
   && String.eqb (slice_from (String.length s - String.length suffix) s) suffix)%bool.

Definition TrimPrefix (s prefix : string) : string :=
  if HasPrefix s prefix then slice_from (String.length prefix) s else s.

Definition TrimSuffix (s suffix : string) : string :=
  if HasSuffix s suffix then slice_to (String.length s - String.length suffix) s else s.

(** [strings.Split(s, sep)] for a one-byte separator: the pieces between
    the separators, always at least one piece. *)
Fixpoint Split (s : string) (sep : ascii) : list string :=
  match s with
  | EmptyString => [EmptyString]
  | String c s' =>
      if Ascii.eqb c sep then EmptyString :: Split s' sep
      else match Split s' sep with
           | piece :: rest => String c piece :: rest
           | [] => [String c EmptyString]
           end
  end.

Fixpoint Join (elems : list string) (sep : string) : string :=
  match elems with
  | [] => EmptyString
  | [x] => x
  | x :: rest => x +:+ sep +:+ Join rest sep
  end.

(** [strings.Contains] *)
Fixpoint Contains (s substr : string) : bool :=
  (HasPrefix s substr
   || match s with
      | EmptyString => false
      | String _ s' => Contains s' substr
      end)%bool.

Fixpoint memByte (c : ascii) (chars : string) : bool :=
  match chars with
  | EmptyString => false
  | String d chars' => (Ascii.eqb c d || memByte c chars')%bool
  end.

(** [strings.IndexAny]: the first index of a byte of [chars]; Go's [-1] is
    [None]. *)
Fixpoint IndexAny (s chars : string) : option nat :=
  match s with
  | EmptyString => None
  | String c s' =>
      if memByte c chars then Some O
      else match IndexAny s' chars with
           | Some i => Some (S i)
           | None => None
           end
  end.

(** [strings.Fields]: the maximal runs of non-space bytes. *)
Fixpoint Fields_go (cur : option string) (s : string) : list string :=
  match s with
  | EmptyString =>
      match cur with Some w => [String.rev w] | None => [] end
  | String c s' =>
      if isSpace c
      then match cur with
           | Some w => String.rev w :: Fields_go None s'
           | None => Fields_go None s'
           end
      else Fields_go (Some (String c (default EmptyString cur))) s'
  end.

Definition Fields (s : string) : list string := Fields_go None s.

(** Byte-wise lexicographic order, Go's [<=] and [>=] on strings. *)
Definition le (a b : string) : bool := String.leb a b.
Definition ge (a b : string) : bool := String.leb b a.

End GoStrings.

(** A Go [map[string]bool] read at a key: the zero value for a missing key. *)
Definition mget (m : gmap string bool) (k : string) : bool :=
  default false (m !! k).

(** [m[k] = true] *)
Definition mset (m : gmap string bool) (k : string) : gmap string bool :=
  <[k := true]> m.


(** Go's [error] values; [nil] is [None]. *)
Inductive error : Type := errorString (msg : string).

(** ** Package [config]: the records the core reads *)

Module config.

Record ScheduleRule := {
  Name : string;
  Days : list string;
  StartTime : string;
  EndTime : string;
  StrictMode : bool
}.

Record ScheduleConfig := {
  Schedule_Enabled : bool;
  Rules : list ScheduleRule
}.

Record FilteringConfig := {
  Filtering_Enabled : bool;
  BlockAction : string;
  RedirectIP : string;
  Schedule : ScheduleConfig
}.

Record BlocklistSource := {
  Source_Name : string;
  URL : string;
  Category : string;
  Source_Enabled : bool
}.

Record BlocklistsConfig := {
  Sources : list BlocklistSource;
  CustomPath : string
}.

Record ServerConfig := {
  UpstreamDNS : list string;
  CacheSize : Z;
  CacheTTL : Z
}.

Record Config := {
  Server : ServerConfig;
  Filtering : FilteringConfig;
  Blocklists : BlocklistsConfig;
  Whitelist_Domains : list string;
  LogQueries : bool
}.

End config.

(** ** Package [time]: what the engine and the cache read off the clock *)

Module time.

Inductive Weekday := Sunday | Monday | Tuesday | Wednesday | Thursday | Friday | Saturday.

Definition Weekday_String (d : Weekday) : string :=
  match d with
  | Sunday => "Sunday" | Monday => "Monday" | Tuesday => "Tuesday"
  | Wednesday => "Wednesday" | Thursday => "Thursday" | Friday => "Friday"
  | Saturday => "Saturday"
  end.

(** An instant: nanoseconds on the monotonic clock, and the local calendar
    fields the schedule reads. *)
Record Time := {
  nanos : Z;
  weekday : Weekday;
  hour : nat;
  minute : nat
}.

Definition digit (n : nat) : ascii := ascii_of_nat (48 + n mod 10).

Definition two_digits (n : nat) : string :=
  String (digit (n / 10)) (String (digit n) EmptyString).

(** [t.Format("15:04")] *)
Definition Format_15_04 (t : Time) : string :=
  two_digits (hour t) +:+ ":" +:+ two_digits (minute t).

End time.

(** ** Package [filter]: the engine *)

Module filter.
Import config.

Record CustomBlocklistEntry := {
  Domain : string;
  Entry_Category : string;
  Note : string;
  Enabled : bool
}.

Record CustomBlocklist := {
  Version : string;
  LastUpdated : string;
  Domains : list CustomBlocklistEntry
}.

Record Engine := {
  cfg : Config;
  blockedDomains : gmap string bool;
  customBlocked : gmap string bool;
  whitelist : gmap string bool
}.

Definition normalizeDomain (domain : string) : string :=
  let domain := GoStrings.ToLower (GoStrings.TrimSpace domain) in
  GoStrings.TrimSuffix domain ".".

(** The keys a [range] over the map visits.  The loops below either stop at
    the first hit or insert every key into a set, so the order in which Go
    happens to visit them does not show in the result. *)
Definition keys (m : gmap string bool) : list string := (map_to_list m).*1.

Definition isWhitelisted (e : Engine) (domain : string) : bool :=
  if mget (whitelist e) domain then true
  else
    existsb (fun whitelistedDomain =>
               if GoStrings.HasPrefix whitelistedDomain "*."
               then
                 let pattern := GoStrings.TrimPrefix whitelistedDomain "*." in
                 GoStrings.HasSuffix domain pattern
               else false)
            (keys (whitelist e)).

Definition ruleDayMatch (rule : ScheduleRule) (currentDay : string) : bool :=
  existsb (fun day => String.eqb (GoStrings.ToLower day) currentDay) (Days rule).

(** The body of the loop over the rules: a rule whose day and window match
    ends the function with [false]. *)
Definition ruleMatches (rule : ScheduleRule) (currentDay currentTime : string) : bool :=
  (ruleDayMatch rule currentDay
   && (GoStrings.ge currentTime (StartTime rule) && GoStrings.le currentTime (EndTime rule)))%bool.

Definition isInAllowedTime (e : Engine) (now : time.Time) : bool :=
  let rules := Rules (Schedule (Filtering (cfg e))) in
  match rules with
  | [] => true
  | _ =>
      let currentDay := GoStrings.ToLower (time.Weekday_String (time.weekday now)) in
      let currentTime := time.Format_15_04 now in
      negb (existsb (fun rule => ruleMatches rule currentDay currentTime) rules)
  end.

(** The subdomain loop: [for i := 1; i < len(parts); i++]. *)
Definition parentBlocked (e : Engine) (parts : list string) : bool :=
  existsb (fun i =>
             let parent := GoStrings.Join (drop i parts) "." in
             (mget (blockedDomains e) parent || mget (customBlocked e) parent)%bool)
          (seq 1 (length parts - 1)).

Definition ShouldBlock (e : Engine) (now : time.Time) (domain clientIP : string) : bool :=
  let domain := normalizeDomain domain in
  if String.eqb domain "" then false
  else if isWhitelisted e domain then false
  else if (Schedule_Enabled (Schedule (Filtering (cfg e)))
           && negb (isInAllowedTime e now)
           && match Rules (Schedule (Filtering (cfg e))) with
              | rule0 :: _ => StrictMode rule0
              | [] => false
              end)%bool
  then true
  else if mget (customBlocked e) domain then true
  else if mget (blockedDomains e) domain then true
  else parentBlocked e (GoStrings.Split domain ".").

Definition parseDomainFromLine (line : string) : string :=
  let hosts :=
    if (GoStrings.HasPrefix line "0.0.0.0" || GoStrings.HasPrefix line "127.0.0.1")%bool
    then match GoStrings.Fields line with
         | _ :: d :: _ =>
             if (String.eqb d "localhost" || String.eqb d "0.0.0.0" || String.eqb d "127.0.0.1")%bool
             then Some ""
             else Some d
         | _ => None
         end
    else None in
  match hosts with
  | Some d => d
  | None =>
      if GoStrings.HasPrefix line "||" then
        let domain := GoStrings.TrimPrefix line "||" in
        let domain := GoStrings.TrimSuffix domain "^" in
        match GoStrings.IndexAny domain "/^?" with
        | Some idx => GoStrings.slice_to idx domain
        | None => domain
        end
      else if (negb (GoStrings.Contains line " ") && GoStrings.Contains line ".")%bool
      then line
      else ""
  end.

(** *** The outside world of the ingestion paths *)

(** What [httpClient.Get] and the scanner over the body deliver: a transport
    error, or a status code with the lines scanned and the scanner's final
    error. *)
Inductive HttpResult :=
| HttpFailed (err : error)
| HttpResponse (StatusCode : Z) (lines : list string) (scanErr : option error).

Inductive FileResult :=
| OpenFailed (err : error)
| FileLines (lines : list string) (scanErr : option error).

Record World := {
  httpGet : string -> HttpResult;
  openFile : string -> FileResult;
  (** [filepath.Glob] *)
  Glob : string -> list string * option error;
  (** [os.ReadFile] followed by [yaml.Unmarshal]; [None] when either fails *)
  readYAML : string -> option CustomBlocklist
}.

(** The scanning loop shared by the two fetchers; [bang] says whether lines
    starting with an exclamation mark are comments too. *)
Definition scanLines (bang : bool) (lines : list string) : list string :=
  flat_map (fun text =>
              let line := GoStrings.TrimSpace text in
              if (String.eqb line "" || GoStrings.HasPrefix line "#"
                  || (bang && GoStrings.HasPrefix line "!"))%bool
              then []
              else
                let domain := parseDomainFromLine line in
                if String.eqb domain "" then [] else [normalizeDomain domain])
           lines.

Definition fetchLocalBlocklist (w : World) (path : string) : list string * option error :=
  match openFile w path with
  | OpenFailed err => ([], Some err)
  | FileLines lines scanErr => (scanLines false lines, scanErr)
  end.

Definition fetchBlocklist (w : World) (url : string) : list string * option error :=
  if GoStrings.HasPrefix url "file://"
  then fetchLocalBlocklist w (GoStrings.TrimPrefix url "file://")
  else
    match httpGet w url with
    | HttpFailed err => ([], Some err)
    | HttpResponse StatusCode lines scanErr =>
        if negb (Z.eqb StatusCode 200) then ([], Some (errorString "HTTP status"))
        else (scanLines true lines, scanErr)
    end.

(** One file's entries, folded into the running result and count. *)
Definition loadEntries (entries : list CustomBlocklistEntry)
    (acc : gmap string bool * Z) : gmap string bool * Z :=
  fold_left (fun '(result, count) entry =>
               if negb (Enabled entry) then (result, count)
               else
                 let domain := normalizeDomain (Domain entry) in
                 if negb (String.eqb domain "") then (mset result domain, count + 1)
                 else (result, count))
            entries acc.

Definition loadCustomYAMLBlocklists (e : Engine) (w : World) : gmap string bool * Z :=
  match Glob w (CustomPath (Blocklists (cfg e))) with
  | (_, Some _) => (∅, 0)
  | ([], None) => (∅, 0)
  | (files, None) =>
      fold_left (fun acc file =>
                   match readYAML w file with
                   | None => acc
                   | Some bl => loadEntries (Domains bl) acc
                   end)
                files (∅, 0)
  end.

(** [for domain := range src { dst[domain] = true }] *)
Definition mergeKeys (src dst : gmap string bool) : gmap string bool :=
  fold_left mset (keys src) dst.

(** The loop over the configured sources: the set built so far and the
    running total. *)
Definition ingestSources (w : World) (sources : list BlocklistSource)
    (acc : gmap string bool * Z) : gmap string bool * Z :=
  fold_left (fun '(newBlocked, totalDomains) source =>
               if negb (Source_Enabled source) then (newBlocked, totalDomains)
               else
                 match fetchBlocklist w (URL source) with
                 | (_, Some _) => (newBlocked, totalDomains)
                 | (domains, None) =>
                     (fold_left mset domains newBlocked,
                      totalDomains + Z.of_nat (length domains))
                 end)
            sources acc.

(** [UpdateBlocklists]: the engine afterwards and the returned error.  The
    database write only logs its failure and is left out. *)
Definition UpdateBlocklists (e : Engine) (w : World) : Engine * option error :=
  let '(newBlocked, totalDomains) :=
    ingestSources w (Sources (Blocklists (cfg e))) (∅, 0) in
  let '(customDomains, customCount) := loadCustomYAMLBlocklists e w in
  let newBlocked := mergeKeys customDomains newBlocked in
  ({| cfg := cfg e;
      blockedDomains := newBlocked;
      customBlocked := customBlocked e;
      whitelist := whitelist e |},
   None).

Definition ReloadCustomBlocklists (e : Engine) (w : World) : Engine * (Z * option error) :=
  let '(customDomains, count) := loadCustomYAMLBlocklists e w in
  ({| cfg := cfg e;
      blockedDomains := blockedDomains e;
      customBlocked := mergeKeys customDomains (customBlocked e);
      whitelist := whitelist e |},
   (count, None)).

Definition AddToWhitelist (e : Engine) (domain : string) : Engine :=
  let domain := normalizeDomain domain in
  {| cfg := cfg e; blockedDomains := blockedDomains e;
     customBlocked := customBlocked e;
     whitelist := mset (whitelist e) domain |}.

Definition RemoveFromWhitelist (e : Engine) (domain : string) : Engine :=
  let domain := normalizeDomain domain in
  {| cfg := cfg e; blockedDomains := blockedDomains e;
     customBlocked := customBlocked e;
     whitelist := delete domain (whitelist e) |}.

Definition AddToCustomBlocklist (e : Engine) (domain : string) : Engine :=
  let domain := normalizeDomain domain in
  {| cfg := cfg e; blockedDomains := blockedDomains e;
     customBlocked := mset (customBlocked e) domain;
     whitelist := whitelist e |}.

Definition RemoveFromCustomBlocklist (e : Engine) (domain : string) : Engine :=
  let domain := normalizeDomain domain in
  {| cfg := cfg e; blockedDomains := blockedDomains e;
     customBlocked := delete domain (customBlocked e);
     whitelist := whitelist e |}.

(** [len(e.blockedDomains) + len(e.customBlocked)] *)
Definition GetBlockedCount (e : Engine) : Z :=
  Z.of_nat (size (blockedDomains e)) + Z.of_nat (size (customBlocked e)).

(** The engine [New] builds before it consults the database: empty sets and
    the configured whitelist. *)
Definition newEngine (c : Config) : Engine :=
  {| cfg := c;
     blockedDomains := ∅;
     customBlocked := ∅;
     whitelist := fold_left (fun wl domain => mset wl (normalizeDomain domain))
                            (Whitelist_Domains c) ∅ |}.

(** [GetWhitelist] and [GetCustomBlocklist]: the keys of the map, in the
    order the map yields them. *)
Definition GetWhitelist (e : Engine) : list string := keys (whitelist e).

Definition GetCustomBlocklist (e : Engine) : list string := keys (customBlocked e).

End filter.

(** ** Package [dns]: messages, the cache, the upstream pool, the handler *)

Module dns.
Import config.

(** *** The part of [github.com/miekg/dns] the server touches *)

Record Question := {
  Name : string;
  Qtype : Z;
  Qclass : Z
}.

Record RR_Header := {
  Hdr_Name : string;
  Rrtype : Z;
  Class : Z;
  Ttl : Z
}.

(** A resource record: its header and its data (for an [A] record the
    address handed to [net.ParseIP]). *)
Record RR := {
  Hdr : RR_Header;
  Rdata : string
}.

Record Msg := {
  Id : Z;
  Response : bool;
  Opcode : Z;
  Authoritative : bool;
  RecursionDesired : bool;
  CheckingDisabled : bool;
  Rcode : Z;
  Msg_Question : list Question;
  Answer : list RR
}.

Definition RcodeSuccess : Z := 0.
Definition RcodeServerFailure : Z := 2.
Definition RcodeNameError : Z := 3.
Definition OpcodeQuery : Z := 0.
Definition TypeA : Z := 1.
Definition TypeAAAA : Z := 28.
Definition ClassINET : Z := 1.

(** [new(dns.Msg)] *)
Definition newMsg : Msg :=
  {| Id := 0; Response := false; Opcode := 0; Authoritative := false;
     RecursionDesired := false; CheckingDisabled := false; Rcode := 0;
     Msg_Question := []; Answer := [] |}.

(** [m.SetReply(request)] *)
Definition SetReply (m request : Msg) : Msg :=
  let isQuery := Z.eqb (Opcode request) OpcodeQuery in
  {| Id := Id request;
     Response := true;
     Opcode := Opcode request;
     Authoritative := Authoritative m;
     RecursionDesired := if isQuery then RecursionDesired request else RecursionDesired m;
     CheckingDisabled := if isQuery then CheckingDisabled request else CheckingDisabled m;
     Rcode := RcodeSuccess;
     Msg_Question := match Msg_Question request with
                     | q :: _ => [q]
                     | [] => Msg_Question m
                     end;
     Answer := Answer m |}.

Definition withRcode (m : Msg) (rcode : Z) : Msg :=
  {| Id := Id m; Response := Response m; Opcode := Opcode m;
     Authoritative := Authoritative m; RecursionDesired := RecursionDesired m;
     CheckingDisabled := CheckingDisabled m; Rcode := rcode;
     Msg_Question := Msg_Question m; Answer := Answer m |}.

Definition withAuthoritative (m : Msg) (b : bool) : Msg :=
  {| Id := Id m; Response := Response m; Opcode := Opcode m;
     Authoritative := b; RecursionDesired := RecursionDesired m;
     CheckingDisabled := CheckingDisabled m; Rcode := Rcode m;
     Msg_Question := Msg_Question m; Answer := Answer m |}.

Definition appendAnswer (m : Msg) (rr : RR) : Msg :=
  {| Id := Id m; Response := Response m; Opcode := Opcode m;
     Authoritative := Authoritative m; RecursionDesired := RecursionDesired m;
     CheckingDisabled := CheckingDisabled m; Rcode := Rcode m;
     Msg_Question := Msg_Question m; Answer := Answer m ++ [rr] |}.

(** [m.SetRcode(request, rcode)] *)
Definition SetRcode (m request : Msg) (rcode : Z) : Msg :=
  withRcode (SetReply m request) rcode.

(** *** The upstream pool *)

Record UpstreamPool := {
  servers : list string;
  index : Z
}.

Definition uint32 (x : Z) : Z := x mod 2 ^ 32.
Definition uint64 (x : Z) : Z := x mod 2 ^ 64.

Definition NewUpstreamPool (servers : list string) : UpstreamPool :=
  {| servers := match servers with [] => ["8.8.8.8:53"] | _ => servers end;
     index := 0 |}.

(** [Get]: the server handed out and the pool afterwards.  The atomic add
    makes concurrent callers see distinct successive values of the index,
    which is what threading the pool through the calls expresses. *)
Definition Get (p : UpstreamPool) : string * UpstreamPool :=
  match servers p with
  | [] => ("8.8.8.8:53", p)
  | [only] => (only, p)
  | _ =>
      let idx := uint32 (index p + 1) in
      (nth (Z.to_nat (idx mod Z.of_nat (length (servers p)))) (servers p) "",
       {| servers := servers p; index := idx |})
  end.

(** [n] calls in a row: the servers handed out, in order. *)
Fixpoint GetN (n : nat) (p : UpstreamPool) : list string * UpstreamPool :=
  match n with
  | O => ([], p)
  | S n' =>
      let '(s, p1) := Get p in
      let '(rest, p2) := GetN n' p1 in
      (s :: rest, p2)
  end.

Definition Add (p : UpstreamPool) (server : string) : UpstreamPool :=
  {| servers := servers p ++ [server]; index := index p |}.

Fixpoint removeFirst (server : string) (l : list string) : list string :=
  match l with
  | [] => []
  | s :: rest => if String.eqb s server then rest else s :: removeFirst server rest
  end.

Definition Remove (p : UpstreamPool) (server : string) : UpstreamPool :=
  {| servers := removeFirst server (servers p); index := index p |}.

(** *** The response cache *)

Record cacheEntry := {
  response : Msg;
  timestamp : Z
}.

Record DNSCache := {
  entries : gmap string cacheEntry;
  maxSize : Z;
  ttl : Z
}.

Definition NewDNSCache (maxSize ttl : Z) : DNSCache :=
  {| entries := ∅; maxSize := maxSize; ttl := ttl |}.

Definition cacheClear (c : DNSCache) : DNSCache :=
  {| entries := ∅; maxSize := maxSize c; ttl := ttl c |}.

Definition cacheSize (c : DNSCache) : Z := Z.of_nat (size (entries c)).

(** The loop of [evictOldest] over the entries in the order the map yields
    them: the running oldest key and time.  Go leaves that order open; among
    entries of equal age the one met first goes. *)
Definition oldestOf (l : list (string * cacheEntry)) : option (string * Z) :=
  fold_left (fun acc '(key, entry) =>
               match acc with
               | None => Some (key, timestamp entry)
               | Some (oldestKey, oldestTime) =>
                   if timestamp entry <? oldestTime
                   then Some (key, timestamp entry)
                   else acc
               end)
            l None.

Definition evictOldest (c : DNSCache) : DNSCache :=
  match oldestOf (map_to_list (entries c)) with
  | Some (oldestKey, _) =>
      if String.eqb oldestKey "" then c
      else {| entries := delete oldestKey (entries c);
              maxSize := maxSize c; ttl := ttl c |}
  | None => c
  end.

(** The sweep of the background cleaner at instant [now]. *)
Definition cleanup (c : DNSCache) (now : Z) : DNSCache :=
  {| entries := filter (fun kv => negb (now - timestamp kv.2 >? ttl c) = true) (entries c);
     maxSize := maxSize c; ttl := ttl c |}.

Section TypeTable.

(** The library's table of type mnemonics, [dns.TypeToString], read with
    the empty string for a type it does not list. *)
Variable TypeToString : Z -> string.

Definition makeKey (domain : string) (qtype : Z) : string :=
  domain +:+ ":" +:+ TypeToString qtype.

(** [Get]; the copy it returns is the stored value, values being
    immutable here. *)
Definition cacheGet (c : DNSCache) (now : Z) (domain : string) (qtype : Z) : option Msg :=
  let key := makeKey domain qtype in
  match entries c !! key with
  | None => None
  | Some entry =>
      if now - timestamp entry >? ttl c then None
      else Some (response entry)
  end.

Definition cacheSet (c : DNSCache) (now : Z) (domain : string) (qtype : Z)
    (response : Msg) : DNSCache :=
  let c1 := if cacheSize c >=? maxSize c then evictOldest c else c in
  let key := makeKey domain qtype in
  {| entries := <[key := {| response := response; timestamp := now |}]> (entries c1);
     maxSize := maxSize c1; ttl := ttl c1 |}.

(** *** The server *)

Record Statistics := {
  TotalQueries : Z;
  BlockedQueries : Z;
  CachedResponses : Z;
  StartTime : Z
}.

Record Server := {
  cfg : Config;
  filter : filter.Engine;
  cache : DNSCache;
  upstreamPool : UpstreamPool;
  stats : Statistics
}.

Definition NewServer (cfg : Config) (filterEngine : filter.Engine) (start : Z) : Server :=
  {| cfg := cfg;
     filter := filterEngine;
     cache := NewDNSCache (CacheSize (config.Server cfg)) (CacheTTL (config.Server cfg) * 1000000000);
     upstreamPool := NewUpstreamPool (UpstreamDNS (config.Server cfg));
     stats := {| TotalQueries := 0; BlockedQueries := 0; CachedResponses := 0;
                 StartTime := start |} |}.

(** What one request meets outside the server: the clock, the peer
    address [getClientIP] reads, and what [client.Exchange] returns for
    the forwarded message at a given upstream. *)
Record Conn := {
  now : time.Time;
  clientIP : string;
  Exchange : Msg -> string -> Msg + error
}.

(** What a request does besides answering. *)
Inductive Event :=
| EvCacheGet (key : string) (hit : bool)
| EvCacheSet (key : string) (response : Msg)
| EvShouldBlock (domain : string) (blocked : bool)
| EvLogBlockedQuery (domain clientIP : string)
| EvExchange (upstream : string).

Definition withCache (s : Server) (c : DNSCache) : Server :=
  {| cfg := cfg s; filter := filter s; cache := c;
     upstreamPool := upstreamPool s; stats := stats s |}.

Definition withPool (s : Server) (p : UpstreamPool) : Server :=
  {| cfg := cfg s; filter := filter s; cache := cache s;
     upstreamPool := p; stats := stats s |}.

Definition withStats (s : Server) (st : Statistics) : Server :=
  {| cfg := cfg s; filter := filter s; cache := cache s;
     upstreamPool := upstreamPool s; stats := st |}.

Definition ClearCache (s : Server) : Server := withCache s (cacheClear (cache s)).

Definition incTotal (st : Statistics) : Statistics :=
  {| TotalQueries := uint64 (TotalQueries st + 1);
     BlockedQueries := BlockedQueries st;
     CachedResponses := CachedResponses st;
     StartTime := StartTime st |}.

Definition incBlocked (st : Statistics) : Statistics :=
  {| TotalQueries := TotalQueries st;
     BlockedQueries := uint64 (BlockedQueries st + 1);
     CachedResponses := CachedResponses st;
     StartTime := StartTime st |}.

Definition incCached (st : Statistics) : Statistics :=
  {| TotalQueries := TotalQueries st;
     BlockedQueries := BlockedQueries st;
     CachedResponses := uint64 (CachedResponses st + 1);
     StartTime := StartTime st |}.

(** The [A] record of the redirect and block-page actions. *)
Definition blockRecord (r : Msg) (address : string) : list RR :=
  match Msg_Question r with
  | q :: _ =>
      if Z.eqb (Qtype q) TypeA
      then [{| Hdr := {| Hdr_Name := Name q; Rrtype := TypeA;
                         Class := ClassINET; Ttl := 300 |};
               Rdata := address |}]
      else []
  | [] => []
  end.

(** Every handler returns the server afterwards, the message written to
    the client, and the events on the way.  A request is handled in one
    piece: the mutexes of the Go code make each counter update and each
    cache operation atomic, and the properties below are about what a
    request does, not about when. *)
Definition handleBlockedDomain (s : Server) (r m : Msg) (domain clientIP : string)
    : Server * Msg * list Event :=
  let s := withStats s (incBlocked (stats s)) in
  let action := BlockAction (Filtering (cfg s)) in
  let m :=
    if String.eqb action "nxdomain" then SetRcode m r RcodeNameError
    else if String.eqb action "redirect"
    then fold_left appendAnswer (blockRecord r (RedirectIP (Filtering (cfg s)))) m
    else if String.eqb action "block_page"
    then fold_left appendAnswer (blockRecord r "127.0.0.1") m
    else m in
  (s, m, [EvLogBlockedQuery domain clientIP]).

Definition forwardToUpstream (s : Server) (conn : Conn) (r m : Msg)
    (domain : string) (qtype : Z) : Server * Msg * list Event :=
  let '(upstream, pool) := Get (upstreamPool s) in
  let s := withPool s pool in
  match Exchange conn r upstream with
  | inr _ => (s, SetRcode m r RcodeServerFailure, [EvExchange upstream])
  | inl response =>
      if (Z.eqb (Rcode response) RcodeSuccess && (0 <? Z.of_nat (length (Answer response))))%bool
      then (withCache s (cacheSet (cache s) (time.nanos (now conn)) domain qtype response),
            response,
            [EvExchange upstream; EvCacheSet (makeKey domain qtype) response])
      else (s, response, [EvExchange upstream])
  end.

Definition handleDNSRequest (s : Server) (conn : Conn) (r : Msg)
    : Server * Msg * list Event :=
  let s := withStats s (incTotal (stats s)) in
  let m := withAuthoritative (SetReply newMsg r) true in
  match Msg_Question r with
  | [] => (s, m, [])
  | question :: _ =>
      let domain := Name question in
      match cacheGet (cache s) (time.nanos (now conn)) domain (Qtype question) with
      | Some cachedResponse =>
          (withStats s (incCached (stats s)),
           SetReply cachedResponse r,
           [EvCacheGet (makeKey domain (Qtype question)) true])
      | None =>
          let get := EvCacheGet (makeKey domain (Qtype question)) false in
          if Filtering_Enabled (Filtering (cfg s))
          then
            if filter.ShouldBlock (filter s) (now conn) domain (clientIP conn)
            then
              let '(s', reply, evs) := handleBlockedDomain s r m domain (clientIP conn) in
              (s', reply, get :: EvShouldBlock domain true :: evs)
            else
              let '(s', reply, evs) := forwardToUpstream s conn r m domain (Qtype question) in
              (s', reply, get :: EvShouldBlock domain false :: evs)
          else
            let '(s', reply, evs) := forwardToUpstream s conn r m domain (Qtype question) in
            (s', reply, get :: evs)
      end
  end.

(** The requests of a run, one after the other: the server at the end and,
    per request, the reply and the events. *)
Fixpoint serve (s : Server) (reqs : list (Conn * Msg)) : Server * list (Msg * list Event) :=
  match reqs with
  | [] => (s, [])
  | (conn, r) :: rest =>
      let '(s1, reply, evs) := handleDNSRequest s conn r in
      let '(s2, outs) := serve s1 rest in
      (s2, (reply, evs) :: outs)
  end.

(** Everything that moves the server from one state to the next: a request,
    the administrator clearing the cache, a sweep of the cleaner, and the
    administrative changes of the filter engine, which leave the cache and
    the counters alone. *)
Inductive step : Server -> Server -> Prop :=
| step_request (s : Server) (conn : Conn) (r : Msg) :
    step s (handleDNSRequest s conn r).1.1
| step_clear (s : Server) :
    step s (ClearCache s)
| step_cleanup (s : Server) (now : Z) :
    step s (withCache s (cleanup (cache s) now))
| step_engine (s : Server) (e : filter.Engine) :
    step s {| cfg := cfg s; filter := e; cache := cache s;
              upstreamPool := upstreamPool s; stats := stats s |}.

End TypeTable.

(** The mnemonics of the record types met in practice, a fragment of the
    library's table, used for concrete runs. *)
Definition commonTypes (qtype : Z) : string :=
  if Z.eqb qtype 1 then "A"
  else if Z.eqb qtype 2 then "NS"
  else if Z.eqb qtype 5 then "CNAME"
  else if Z.eqb qtype 6 then "SOA"
  else if Z.eqb qtype 12 then "PTR"
  else if Z.eqb qtype 15 then "MX"
  else if Z.eqb qtype 16 then "TXT"
  else if Z.eqb qtype 28 then "AAAA"
  else if Z.eqb qtype 33 then "SRV"
  else if Z.eqb qtype 255 then "ANY"
  else "".

(** [GetStats]: the three counters. *)
Definition GetStats (s : Server) : Z * Z * Z :=
  (TotalQueries (stats s), BlockedQueries (stats s), CachedResponses (stats s)).

End dns.

(** ** Package [api]: the administrative calls that reach the core

    The API server and the DNS server hold the same engine; here it is the
    [filter] field of the DNS server.  Each handler returns the server
    afterwards and the HTTP status it answers with. *)

Module api.

Definition StatusOK : Z := 200.
Definition StatusBadRequest : Z := 400.
Definition StatusInternalServerError : Z := 500.

Definition withEngine (s : dns.Server) (e : filter.Engine) : dns.Server :=
  {| dns.cfg := dns.cfg s; dns.filter := e; dns.cache := dns.cache s;
     dns.upstreamPool := dns.upstreamPool s; dns.stats := dns.stats s |}.

(** The JSON body with its required [domain] field: [None] when the body
    does not parse; an empty value fails the [required] binding. *)
Definition boundDomain (body : option string) : option string :=
  match body with
  | Some domain => if String.eqb domain "" then None else Some domain
  | None => None
  end.

Definition addToCustomBlocklist (s : dns.Server) (body : option string) : dns.Server * Z :=
  match boundDomain body with
  | None => (s, StatusBadRequest)
  | Some domain => (withEngine s (filter.AddToCustomBlocklist (dns.filter s) domain), StatusOK)
  end.

Definition removeFromCustomBlocklist (s : dns.Server) (param : string) : dns.Server * Z :=
  (withEngine s (filter.RemoveFromCustomBlocklist (dns.filter s) param), StatusOK).

Definition clearCache (s : dns.Server) : dns.Server * Z :=
  (dns.ClearCache s, StatusOK).

(** [reloadCustomBlocklists]: the reload, then the cache is cleared; the
    answer carries the count. *)
Definition reloadCustomBlocklists (s : dns.Server) (w : filter.World)
    : dns.Server * Z * Z :=
  let '(e, (count, err)) := filter.ReloadCustomBlocklists (dns.filter s) w in
  let s := withEngine s e in
  match err with
  | Some _ => (s, StatusInternalServerError, 0)
  | None => (dns.ClearCache s, StatusOK, count)
  end.

End api.

(** ** Vocabulary of the specification *)

Module spec.
Import config filter.

(** Membership in one of the engine's sets. *)
Definition inSet (m : gmap string bool) (d : string) : Prop := mget m d = true.

(** The labels of a (normalized) name. *)
Definition labels (d : string) : list string := GoStrings.Split d ".".

(** Some suffix of the label list of [d], joined by dots, is in the custom
    set or in the remote set; [i = 0] is the name itself. *)
Definition suffixBlocked (e : Engine) (d : string) : Prop :=
  exists i : nat,
    (i < length (labels d))%nat /\
    (inSet (customBlocked e) (GoStrings.Join (drop i (labels d)) ".")
     \/ inSet (blockedDomains e) (GoStrings.Join (drop i (labels d)) ".")).

Definition scheduleDisabled (e : Engine) : Prop :=
  Schedule_Enabled (Schedule (Filtering (cfg e))) = false.

(** The files the custom glob matches; none when the glob itself fails. *)
Definition matchedFiles (e : Engine) (w : World) : list string :=
  match Glob w (CustomPath (Blocklists (cfg e))) with
  | (files, None) => files
  | (_, Some _) => []
  end.

(** [d] is the non-empty normalized form of an enabled entry of a matched
    file that could be read and parsed. *)
Definition customEntryOf (e : Engine) (w : World) (d : string) : Prop :=
  exists file bl entry,
    In file (matchedFiles e w) /\ readYAML w file = Some bl
    /\ In entry (Domains bl) /\ Enabled entry = true
    /\ d = normalizeDomain (Domain entry) /\ d <> "".

(** The non-empty normalized domains of the enabled entries of one file. *)
Definition entryDomains (entries : list CustomBlocklistEntry) : list string :=
  List.filter (fun d => negb (String.eqb d ""))
    (map (fun entry => normalizeDomain (Domain entry)) (List.filter Enabled entries)).

(** The same entries as a list, one item per entry, in file order. *)
Definition customDomains (e : Engine) (w : World) : list string :=
  flat_map (fun file =>
              match readYAML w file with
              | Some bl => entryDomains (Domains bl)
              | None => []
              end)
           (matchedFiles e w).

(** [d] is in the parsed output of an enabled source whose fetch
    succeeded. *)
Definition fetchedFrom (e : Engine) (w : World) (d : string) : Prop :=
  exists source domains,
    In source (Sources (Blocklists (cfg e))) /\ Source_Enabled source = true
    /\ fetchBlocklist w (URL source) = (domains, None) /\ In d domains.

(** The parsed outputs of the enabled sources whose fetch succeeded, one
    after the other. *)
Definition fetchedDomains (e : Engine) (w : World) : list string :=
  flat_map (fun source =>
              if Source_Enabled source
              then match fetchBlocklist w (URL source) with
                   | (domains, None) => domains
                   | (_, Some _) => []
                   end
              else [])
           (Sources (Blocklists (cfg e))).

(** A list of domains as a set: duplicates collapse. *)
Definition asSet (l : list string) : gset string := list_to_set l.

(** An upstream success worth caching: NOERROR with at least one answer. *)
Definition cacheable (m : dns.Msg) : Prop :=
  dns.Rcode m = dns.RcodeSuccess /\ dns.Answer m <> [].

(** Every stored response is one. *)
Definition cacheOK (c : dns.DNSCache) : Prop :=
  forall key entry, dns.entries c !! key = Some entry -> cacheable (dns.response entry).

(** The reply to a message without a question: the request's header echoed,
    marked authoritative, no question, no answer, NOERROR. *)
Definition emptyReply (r : dns.Msg) : dns.Msg :=
  {| dns.Id := dns.Id r; dns.Response := true; dns.Opcode := dns.Opcode r;
     dns.Authoritative := true;
     dns.RecursionDesired :=
       if Z.eqb (dns.Opcode r) dns.OpcodeQuery then dns.RecursionDesired r else false;
     dns.CheckingDisabled :=
       if Z.eqb (dns.Opcode r) dns.OpcodeQuery then dns.CheckingDisabled r else false;
     dns.Rcode := dns.RcodeSuccess;
     dns.Msg_Question := []; dns.Answer := [] |}.

(** The requests of a run that got as far as the cache lookup. *)
Definition reachedCache (outs : list (dns.Msg * list dns.Event)) : nat :=
  length (List.filter (fun out => match out.2 with
                                  | dns.EvCacheGet _ _ :: _ => true
                                  | _ => false
                                  end) outs).

(** The requests of a run that carry at least one question. *)
Definition withQuestion (reqs : list (dns.Conn * dns.Msg)) : nat :=
  length (List.filter (fun req => match dns.Msg_Question req.2 with
                                  | [] => false
                                  | _ :: _ => true
                                  end) reqs).

(** The cache key of a question taken as it arrived: the name byte for
    byte, a colon, the mnemonic of the type. *)
Definition rawKey (TypeToString : Z -> string) (question : dns.Question) : string :=
  dns.Name question +:+ ":" +:+ TypeToString (dns.Qtype question).

(** The upstream's answer is passed on; a failed exchange is answered with
    the server's own SERVFAIL. *)
Definition forwardedReply (r : dns.Msg) (answer : dns.Msg + error) : dns.Msg :=
  match answer with
  | inl response => response
  | inr _ =>
      dns.SetRcode (dns.withAuthoritative (dns.SetReply dns.newMsg r) true) r
        dns.RcodeServerFailure
  end.

(** No entry under the empty key, and no more entries than the limit (one
    entry when the limit is below one). *)
Definition cacheBounded (c : dns.DNSCache) : Prop :=
  dns.entries c !! "" = None
  /\ Z.of_nat (size (dns.entries c)) <= Z.max (dns.maxSize c) 1.

(** How many of the calls in [outputs] handed out [server]. *)
Definition timesReturned (server : string) (outputs : list string) : nat :=
  count_occ String.string_dec outputs server.

(** The slot the [t]-th next call reads, [t >= 1]. *)
Definition slotAt (p : dns.UpstreamPool) (t : nat) : nat :=
  Z.to_nat (dns.uint32 (dns.index p + Z.of_nat t) mod Z.of_nat (length (dns.servers p))).

(** The 32-bit index does not wrap during the next [n] calls, or wrapping is
    harmless because the number of servers divides 2^32. *)
Definition wrapHarmless (p : dns.UpstreamPool) (n : nat) : Prop :=
  (0 <= dns.index p /\ dns.index p + Z.of_nat n < 2 ^ 32)
  \/ (Z.of_nat (length (dns.servers p)) | 2 ^ 32).

End spec.

(** ** Concrete configurations and states used in the examples *)

Module examples.
Import config.

Definition monday_noon : time.Time :=
  {| time.nanos := 0; time.weekday := time.Monday; time.hour := 12; time.minute := 0 |}.

Definition monday_0900 : time.Time :=
  {| time.nanos := 0; time.weekday := time.Monday; time.hour := 9; time.minute := 0 |}.

Definition monday_2100 : time.Time :=
  {| time.nanos := 0; time.weekday := time.Monday; time.hour := 21; time.minute := 0 |}.

Definition mkConfig (rules : ScheduleConfig) (sources : list BlocklistSource)
    (upstreams whitelist : list string) : Config :=
  {| Server := {| UpstreamDNS := upstreams; CacheSize := 10000; CacheTTL := 3600 |};
     Filtering := {| Filtering_Enabled := true; BlockAction := "nxdomain";
                     RedirectIP := "0.0.0.0"; Schedule := rules |};
     Blocklists := {| Sources := sources; CustomPath := "./configs/custom*.yaml" |};
     Whitelist_Domains := whitelist;
     LogQueries := false |}.

Definition noSchedule : ScheduleConfig := {| Schedule_Enabled := false; Rules := [] |}.

(** Filtering on, schedule off, nothing else configured. *)
Definition plain : Config := mkConfig noSchedule [] ["1.1.1.1:53"] [].

(** The engine after the administrator adds the root name ["."] to the
    custom blocklist: its normalized form is the empty string. *)
Definition rootBlocked : filter.Engine :=
  filter.AddToCustomBlocklist (filter.newEngine plain) ".".

(** Scenario "subdomain block": blocklist = { doubleclick.net }. *)
Definition doubleclick : filter.Engine :=
  {| filter.cfg := plain;
     filter.blockedDomains := mset ∅ "doubleclick.net";
     filter.customBlocked := ∅;
     filter.whitelist := ∅ |}.

(** Scenario "whitelist wins": blocklist = { example.com },
    whitelist = { *.example.com }. *)
Definition wildcardConfig : Config :=
  mkConfig noSchedule [] ["1.1.1.1:53"] ["*.example.com"].

Definition wildcard : filter.Engine :=
  {| filter.cfg := wildcardConfig;
     filter.blockedDomains := mset ∅ "example.com";
     filter.customBlocked := ∅;
     filter.whitelist := filter.whitelist (filter.newEngine wildcardConfig) |}.

(** The two rules of the usage guide's schedule example. *)
Definition schoolHours : ScheduleRule :=
  {| Name := "School Hours";
     Days := ["monday"; "tuesday"; "wednesday"; "thursday"; "friday"];
     StartTime := "08:00"; EndTime := "15:00"; StrictMode := true |}.

Definition eveningRestriction : ScheduleRule :=
  {| Name := "Evening Restriction";
     Days := ["monday"; "tuesday"; "wednesday"; "thursday"; "sunday"];
     StartTime := "20:00"; EndTime := "22:00"; StrictMode := false |}.

Definition scheduled (rules : list ScheduleRule) : filter.Engine :=
  filter.newEngine
    (mkConfig {| Schedule_Enabled := true; Rules := rules |} [] ["1.1.1.1:53"] []).

(** The rule of [rules] whose window the instant falls in, as the loop of
    [isInAllowedTime] finds it. *)
Definition matchingRule (rules : list ScheduleRule) (now : time.Time) : option ScheduleRule :=
  find (fun rule =>
          filter.ruleMatches rule
            (GoStrings.ToLower (time.Weekday_String (time.weekday now)))
            (time.Format_15_04 now))
       rules.

(** A world with one custom file and one local list, nothing reachable over
    HTTP. *)
Definition customFile : string := "./configs/custom-blocklist.yaml".

Definition entry (domain : string) (enabled : bool) : filter.CustomBlocklistEntry :=
  {| filter.Domain := domain; filter.Entry_Category := "custom";
     filter.Note := "Blocked via CLI"; filter.Enabled := enabled |}.

Definition world (yaml : option filter.CustomBlocklist) (listLines : option (list string))
    : filter.World :=
  {| filter.httpGet := fun _ => filter.HttpFailed (errorString "no such host");
     filter.openFile := fun path =>
       match listLines with
       | Some lines =>
           if String.eqb path "/etc/dns-filter/ads.txt"
           then filter.FileLines lines None
           else filter.OpenFailed (errorString "no such file")
       | None => filter.OpenFailed (errorString "no such file")
       end;
     filter.Glob := fun pattern =>
       match yaml with
       | Some _ =>
           if String.eqb pattern "./configs/custom*.yaml" then ([customFile], None)
           else ([], None)
       | None => ([], None)
       end;
     filter.readYAML := fun file =>
       if String.eqb file customFile then yaml else None |}.

(** The custom file before and after the user disables [old.example]. *)
Definition yamlBefore : filter.CustomBlocklist :=
  {| filter.Version := "1.0"; filter.LastUpdated := "2026-02-20";
     filter.Domains := [entry "Old.Example." true] |}.

Definition yamlAfter : filter.CustomBlocklist :=
  {| filter.Version := "1.0"; filter.LastUpdated := "2026-02-21";
     filter.Domains := [entry "old.example" false; entry "new.example" true] |}.

Definition afterFirstReload : filter.Engine :=
  (filter.ReloadCustomBlocklists (filter.newEngine plain) (world (Some yamlBefore) None)).1.

(** One enabled local source and one enabled remote source. *)
Definition localSource : BlocklistSource :=
  {| Source_Name := "Local ads"; URL := "file:///etc/dns-filter/ads.txt";
     Category := "ads"; Source_Enabled := true |}.

Definition remoteSource : BlocklistSource :=
  {| Source_Name := "Remote ads"; URL := "https://lists.example.net/hosts.txt";
     Category := "ads"; Source_Enabled := true |}.

Definition withSources : Config :=
  mkConfig noSchedule [remoteSource; localSource] ["1.1.1.1:53"] [].

Definition adsLines : list string :=
  ["# ad servers"; "0.0.0.0 ads.example"; "||ads.example^"; "tracker.example"].

(** The administrator has blocked [ads.example] by hand; the local list
    names it as well. *)
Definition adsBlockedByHand : filter.Engine :=
  filter.AddToCustomBlocklist (filter.newEngine withSources) "ads.example".

(** A query for one name and type, and a message without any question. *)
Definition query (name : string) (qtype : Z) : dns.Msg :=
  {| dns.Id := 4242; dns.Response := false; dns.Opcode := dns.OpcodeQuery;
     dns.Authoritative := false; dns.RecursionDesired := true;
     dns.CheckingDisabled := false; dns.Rcode := dns.RcodeSuccess;
     dns.Msg_Question := [{| dns.Name := name; dns.Qtype := qtype;
                             dns.Qclass := dns.ClassINET |}];
     dns.Answer := [] |}.

Definition noQuestion : dns.Msg :=
  {| dns.Id := 7; dns.Response := false; dns.Opcode := dns.OpcodeQuery;
     dns.Authoritative := false; dns.RecursionDesired := true;
     dns.CheckingDisabled := false; dns.Rcode := dns.RcodeSuccess;
     dns.Msg_Question := []; dns.Answer := [] |}.

(** An upstream that answers every query with one record. *)
Definition upstreamAnswer (r : dns.Msg) : dns.Msg :=
  dns.appendAnswer (dns.SetReply dns.newMsg r)
    {| dns.Hdr := {| dns.Hdr_Name := match dns.Msg_Question r with
                                     | q :: _ => dns.Name q
                                     | [] => ""
                                     end;
                     dns.Rrtype := dns.TypeA; dns.Class := dns.ClassINET; dns.Ttl := 60 |};
       dns.Rdata := "93.184.216.34" |}.

Definition client : dns.Conn :=
  {| dns.now := monday_noon; dns.clientIP := "192.168.1.10";
     dns.Exchange := fun r _ => inl (upstreamAnswer r) |}.

Definition freshServer : dns.Server :=
  dns.NewServer plain (filter.newEngine plain) 0.

(** The server after it has answered, and cached, [A example.com.] *)
Definition warmServer : dns.Server :=
  (dns.handleDNSRequest dns.commonTypes freshServer client (query "example.com." dns.TypeA)).1.1.

Definition threeUpstreams : dns.UpstreamPool :=
  dns.NewUpstreamPool ["1.1.1.1:53"; "8.8.8.8:53"; "9.9.9.9:53"].

(** Three upstreams, two calls short of the point where the 32-bit index
    wraps. *)
Definition nearWrap : dns.UpstreamPool :=
  {| dns.servers := ["1.1.1.1:53"; "8.8.8.8:53"; "9.9.9.9:53"];
     dns.index := 2 ^ 32 - 2 |}.

(** A server whose engine blocks [doubleclick.net], nothing cached yet. *)
Definition blockingServer : dns.Server := dns.NewServer plain doubleclick 0.

(** A rule meant to run over midnight, and an instant inside the intended
    window. *)
Definition nightRule : ScheduleRule :=
  {| Name := "Night"; Days := ["monday"; "tuesday"; "wednesday"; "thursday"; "friday"];
     StartTime := "22:00"; EndTime := "06:00"; StrictMode := true |}.

Definition monday_2300 : time.Time :=
  {| time.nanos := 0; time.weekday := time.Monday; time.hour := 23; time.minute := 0 |}.

End examples.

(** * Properties *)

(** ** Strings *)

Lemma Split_nonempty (s : string) (sep : ascii) : GoStrings.Split s sep <> [].
Proof.
  destruct s as [|c s]; simpl; [discriminate|].
  destruct (Ascii.eqb c sep); [discriminate|].
  destruct (GoStrings.Split s sep); discriminate.
Qed.

Lemma Join_cons (x y : string) (rest : list string) (sep : string) :
  GoStrings.Join (x :: y :: rest) sep = x +:+ sep +:+ GoStrings.Join (y :: rest) sep.
Proof. reflexivity. Qed.

(** Joining the labels of a name gives the name back. *)
Lemma Join_Split (s : string) : GoStrings.Join (GoStrings.Split s ".") "." = s.
Proof.
  induction s as [|c s IH]; [reflexivity|].
  cbn [GoStrings.Split].
  pose proof (Split_nonempty s ".") as Hne.
  destruct (Ascii.eqb_spec c "."%char) as [->|Hc].
  - destruct (GoStrings.Split s ".") as [|p rest] eqn:E; [congruence|].
    rewrite Join_cons, IH. reflexivity.
  - destruct (GoStrings.Split s ".") as [|p rest] eqn:E; [congruence|].
    destruct rest as [|q rest].
    + simpl in *. congruence.
    + rewrite Join_cons. rewrite Join_cons in IH. rewrite <- IH. reflexivity.
Qed.

Lemma existsb_seq_exists (f : nat -> bool) (a n : nat) :
  existsb f (seq a n) = true <-> exists i, (a <= i < a + n)%nat /\ f i = true.
Proof.
  rewrite existsb_exists. split.
  - intros (i & Hin & Hf). apply in_seq in Hin. eauto.
  - intros (i & Hi & Hf). exists i. split; [apply in_seq; lia | exact Hf].
Qed.

(** The helpers on the inputs the documentation shows. *)
Example normalizeDomain_example :
  filter.normalizeDomain "  WWW.Example.COM. " = "www.example.com".
Proof. reflexivity. Qed.

Example parseDomainFromLine_examples :
  filter.parseDomainFromLine "0.0.0.0 ads.example.com" = "ads.example.com"
  /\ filter.parseDomainFromLine "127.0.0.1 localhost" = ""
  /\ filter.parseDomainFromLine "||ads.example.com^$third-party" = "ads.example.com"
  /\ filter.parseDomainFromLine "tracker.example" = "tracker.example"
  /\ filter.parseDomainFromLine "not a domain" = "".
Proof. repeat split; reflexivity. Qed.

Example scanLines_example :
  filter.scanLines true ["# hosts"; "! adblock comment"; ""; " 0.0.0.0  Ads.Example.com ";
                         "||cdn.example.net/path"; "."]
  = ["ads.example.com"; "cdn.example.net"; ""].
Proof. reflexivity. Qed.

Example Format_15_04_example :
  time.Format_15_04 examples.monday_0900 = "09:00"
  /\ time.Format_15_04 examples.monday_2100 = "21:00".
Proof. split; reflexivity. Qed.

(** The keys a loop over a map visits are the map's domain. *)
Lemma elem_of_keys (m : gmap string bool) (d : string) :
  d ∈ filter.keys m <-> d ∈ dom m.
Proof.
  unfold filter.keys. rewrite elem_of_dom, list_elem_of_fmap. split.
  - intros ([k v] & -> & H). apply elem_of_map_to_list in H. eauto.
  - intros [v H]. exists (d, v). split; [reflexivity|].
    apply elem_of_map_to_list. exact H.
Qed.

(** ** The decision function *)

Section ShouldBlock.
Import config filter spec.

Variable e : Engine.
Variable now : time.Time.

Lemma parentBlocked_iff (d : string) :
  parentBlocked e (labels d) = true <->
  exists i, (1 <= i < length (labels d))%nat /\
    (inSet (customBlocked e) (GoStrings.Join (drop i (labels d)) ".")
     \/ inSet (blockedDomains e) (GoStrings.Join (drop i (labels d)) ".")).
Proof.
  unfold parentBlocked. rewrite existsb_seq_exists.
  split; intros (i & Hi & H); exists i; (split; [lia|]).
  - apply orb_true_iff in H. unfold inSet. tauto.
  - apply orb_true_iff. unfold inSet in H. tauto.
Qed.

(** The three lookups of [ShouldBlock] together are the suffix test of the
    specification. *)
Lemma lookups_iff (d : string) :
  (mget (customBlocked e) d = true \/ mget (blockedDomains e) d = true
   \/ parentBlocked e (labels d) = true)
  <-> suffixBlocked e d.
Proof.
  rewrite parentBlocked_iff. unfold suffixBlocked.
  assert (H0 : GoStrings.Join (drop 0 (labels d)) "." = d)
    by (rewrite drop_0; apply Join_Split).
  assert (Hlen : (0 < length (labels d))%nat).
  { pose proof (Split_nonempty d ".") as Hne. unfold labels.
    destruct (GoStrings.Split d "."); [congruence | simpl; lia]. }
  split.
  - intros [H | [H | (i & Hi & H)]].
    + exists 0%nat. rewrite H0. unfold inSet. auto.
    + exists 0%nat. rewrite H0. unfold inSet. auto.
    + exists i. split; [lia | exact H].
  - intros (i & Hi & H). destruct i as [|i].
    + rewrite H0 in H. unfold inSet in H. tauto.
    + right; right. exists (S i). split; [lia | exact H].
Qed.

Lemma ShouldBlock_unfold (N client : string) :
  scheduleDisabled e ->
  ShouldBlock e now N client =
  let d := normalizeDomain N in
  if String.eqb d "" then false
  else if isWhitelisted e d then false
  else (mget (customBlocked e) d || mget (blockedDomains e) d
        || parentBlocked e (labels d))%bool.
Proof.
  intros Hs. unfold ShouldBlock, scheduleDisabled in *. rewrite Hs. cbn [andb].
  cbv zeta. unfold labels.
  destruct (String.eqb _ ""); [reflexivity|].
  destruct (isWhitelisted _ _); [reflexivity|].
  destruct (mget (customBlocked e) _); [reflexivity|].
  destruct (mget (blockedDomains e) _); reflexivity.
Qed.

(** A whitelist match vetoes every block decision. *)
Lemma whitelist_wins (N client : string) :
  isWhitelisted e (normalizeDomain N) = true -> ShouldBlock e now N client = false.
Proof.
  intros Hw. unfold ShouldBlock. cbv zeta. rewrite Hw.
  destruct (String.eqb _ ""); reflexivity.
Qed.

Lemma HasSuffix_refl (s : string) : GoStrings.HasSuffix s s = true.
Proof.
  unfold GoStrings.HasSuffix. rewrite Nat.leb_refl, Nat.sub_diag. simpl.
  destruct s; apply String.eqb_refl.
Qed.

(** An entry ["*." ++ suffix] whitelists every name that ends with [suffix]
    as a string, [suffix] itself included. *)
Lemma wildcard_entry_whitelists (suffix d : string) :
  is_Some (whitelist e !! String "*" (String "." suffix)) ->
  GoStrings.HasSuffix d suffix = true ->
  isWhitelisted e d = true.
Proof.
  intros Hkey Hsuf. unfold isWhitelisted.
  destruct (mget (whitelist e) d); [reflexivity|].
  apply existsb_exists. exists (String "*" (String "." suffix)). split.
  - apply list_elem_of_In, elem_of_keys, elem_of_dom. exact Hkey.
  - assert (Hp : GoStrings.HasPrefix (String "*" (String "." suffix)) "*." = true).
    { unfold GoStrings.HasPrefix. simpl. reflexivity. }
    unfold GoStrings.TrimPrefix. rewrite Hp. simpl. exact Hsuf.
Qed.

(** Inside a rule's window, for a name that is neither empty nor
    whitelisted: the answer is the strict flag of the first rule of the list,
    or else the ordinary lookups. *)
Lemma ShouldBlock_restricted (N client : string) :
  Schedule_Enabled (Schedule (Filtering (cfg e))) = true ->
  isInAllowedTime e now = false ->
  normalizeDomain N <> "" ->
  isWhitelisted e (normalizeDomain N) = false ->
  ShouldBlock e now N client = true <->
  (exists rule0 rest,
      Rules (Schedule (Filtering (cfg e))) = rule0 :: rest /\ StrictMode rule0 = true)
  \/ suffixBlocked e (normalizeDomain N).
Proof.
  intros Hen Hin Hne Hw. rewrite <- lookups_iff.
  unfold ShouldBlock. cbv zeta. rewrite Hw, Hen, Hin.
  apply String.eqb_neq in Hne. rewrite Hne. cbn [andb negb].
  destruct (Rules (Schedule (Filtering (cfg e)))) as [|rule0 rest].
  - unfold labels.
    destruct (mget (customBlocked e) _); [intuition|].
    destruct (mget (blockedDomains e) _); [intuition|].
    split; [tauto|]. intros [(? & ? & H & _) | [H | [H | H]]]; congruence.
  - destruct (StrictMode rule0) eqn:Hstrict.
    + split; [intros _; left; eauto | reflexivity].
    + unfold labels.
      destruct (mget (customBlocked e) _); [intuition|].
      destruct (mget (blockedDomains e) _); [intuition|].
      split; [tauto|]. intros [(? & ? & H & Hs) | [H | [H | H]]]; congruence.
Qed.

End ShouldBlock.

(** C1 (as amended).  With the schedule disabled, [ShouldBlock] answers true
    exactly when the normalized name is not empty, is not whitelisted, and
    some suffix of its label list (the name itself included) is in the custom
    set or in the remote set.  The empty name is never blocked, whatever the
    sets hold. *)
Theorem ShouldBlock_iff_suffix (e : filter.Engine) (now : time.Time) (N client : string) :
  spec.scheduleDisabled e ->
  (filter.ShouldBlock e now N client = true <->
     filter.normalizeDomain N <> ""
     /\ filter.isWhitelisted e (filter.normalizeDomain N) = false
     /\ spec.suffixBlocked e (filter.normalizeDomain N))
  /\ filter.ShouldBlock e now "" client = false.
Proof.
  intros Hs. split; [|reflexivity].
  rewrite (ShouldBlock_unfold e now N client Hs). cbv zeta.
  rewrite <- lookups_iff.
  destruct (String.eqb_spec (filter.normalizeDomain N) "") as [Heq|Hne].
  - split; [discriminate | intros (H & _); congruence].
  - destruct (filter.isWhitelisted e _).
    + split; [discriminate | intros (_ & H & _); discriminate].
    + rewrite !orb_true_iff. split.
      * intros H. repeat split; [assumption | tauto].
      * intros (_ & _ & H). tauto.
Qed.

(** The iff holds at a name blocked through its parent. *)
Lemma ShouldBlock_iff_suffix_witness :
  (filter.ShouldBlock examples.doubleclick examples.monday_noon
     "Tracker.Ads.DoubleClick.net." "192.168.1.10" = true <->
     filter.normalizeDomain "Tracker.Ads.DoubleClick.net." <> ""
     /\ filter.isWhitelisted examples.doubleclick
          (filter.normalizeDomain "Tracker.Ads.DoubleClick.net.") = false
     /\ spec.suffixBlocked examples.doubleclick
          (filter.normalizeDomain "Tracker.Ads.DoubleClick.net."))
  /\ filter.ShouldBlock examples.doubleclick examples.monday_noon "" "192.168.1.10" = false.
Proof.
  apply (ShouldBlock_iff_suffix examples.doubleclick examples.monday_noon
           "Tracker.Ads.DoubleClick.net." "192.168.1.10").
  reflexivity.
Defined.

Example subdomain_block :
  filter.ShouldBlock examples.doubleclick examples.monday_noon
    "tracker.ads.doubleclick.net." "192.168.1.10" = true.
Proof. vm_compute. reflexivity. Qed.

(** C1 (as stated) fails at the root name once the empty string is in the
    custom set: the name is not whitelisted and its only suffix, the empty
    string, is in the custom set, yet the guard on empty names answers
    false. *)
Lemma ShouldBlock_root_counterexample :
  ~ (filter.ShouldBlock examples.rootBlocked examples.monday_noon "." "192.168.1.10" = true <->
       filter.isWhitelisted examples.rootBlocked (filter.normalizeDomain ".") = false
       /\ spec.suffixBlocked examples.rootBlocked (filter.normalizeDomain ".")).
Proof.
  intros [_ H].
  assert (Hb : filter.ShouldBlock examples.rootBlocked examples.monday_noon "." "192.168.1.10" = false)
    by (vm_compute; reflexivity).
  rewrite Hb in H. enough (false = true) by discriminate. apply H. split.
  - vm_compute. reflexivity.
  - exists 0%nat. split; [vm_compute; lia|]. left. vm_compute. reflexivity.
Qed.

(** C2 (as amended).  With blocklist = { example.com } and whitelist =
    { *.example.com }, neither [www.example.com] nor [example.com] is
    blocked: the pattern left after stripping the two bytes of the wildcard
    prefix is [example.com], and [example.com] ends with it. *)
Theorem wildcard_whitelists_apex (now : time.Time) (client : string) :
  filter.ShouldBlock examples.wildcard now "www.example.com" client = false
  /\ filter.ShouldBlock examples.wildcard now "example.com" client = false
  /\ GoStrings.TrimPrefix "*.example.com" "*." = "example.com"
  /\ filter.isWhitelisted examples.wildcard "example.com" = true.
Proof. repeat split; vm_compute; reflexivity. Qed.

(** C2 (as stated) fails: [example.com] is not blocked. *)
Lemma wildcard_apex_counterexample :
  ~ (filter.ShouldBlock examples.wildcard examples.monday_noon "www.example.com" "192.168.1.10" = false
     /\ filter.ShouldBlock examples.wildcard examples.monday_noon "example.com" "192.168.1.10" = true).
Proof. intros [_ H]. vm_compute in H. discriminate. Qed.

(** C3 (the code at the failing inputs).  The strict decision is read off the
    first rule of the list, not off the rule whose window matched.  With the
    usage guide's two rules, on a Monday at 21:00 the matching rule is the
    non-strict "Evening Restriction", yet a name on no list is blocked; with
    the two rules in the other order, on a Monday at 09:00 the matching rule
    is the strict "School Hours", yet the same name is not blocked. *)
Theorem strict_mode_read_from_first_rule :
  (examples.matchingRule [examples.schoolHours; examples.eveningRestriction] examples.monday_2100
     = Some examples.eveningRestriction
   /\ config.StrictMode examples.eveningRestriction = false
   /\ filter.ShouldBlock (examples.scheduled [examples.schoolHours; examples.eveningRestriction])
        examples.monday_2100 "example.org" "192.168.1.10" = true)
  /\
  (examples.matchingRule [examples.eveningRestriction; examples.schoolHours] examples.monday_0900
     = Some examples.schoolHours
   /\ config.StrictMode examples.schoolHours = true
   /\ filter.ShouldBlock (examples.scheduled [examples.eveningRestriction; examples.schoolHours])
        examples.monday_0900 "example.org" "192.168.1.10" = false).
Proof. repeat split; vm_compute; reflexivity. Qed.

(** ** Ingestion *)

Section Ingestion.
Import config filter spec.

Lemma lookup_fold_mset (l : list string) (m : gmap string bool) (d : string) :
  fold_left mset l m !! d = if decide (d ∈ l) then Some true else m !! d.
Proof.
  revert m. induction l as [|k l IH]; intros m; simpl.
  - destruct (decide (d ∈ [])) as [H|_]; [inversion H | reflexivity].
  - rewrite IH. unfold mset.
    destruct (decide (d ∈ l)) as [Hl|Hl].
    + rewrite decide_True by (right; exact Hl). reflexivity.
    + destruct (decide (k = d)) as [->|Hk].
      * rewrite lookup_insert_eq, decide_True by left. reflexivity.
      * rewrite lookup_insert_ne by exact Hk.
        rewrite decide_False; [reflexivity|].
        intros H. apply elem_of_cons in H. destruct H; congruence.
Qed.

Lemma mget_fold_mset (l : list string) (m : gmap string bool) (d : string) :
  mget (fold_left mset l m) d = true <-> In d l \/ mget m d = true.
Proof.
  unfold mget. rewrite lookup_fold_mset, <- list_elem_of_In.
  destruct (decide (d ∈ l)); simpl; tauto.
Qed.

Lemma dom_fold_mset (l : list string) (m : gmap string bool) :
  dom (fold_left mset l m) = asSet l ∪ dom m.
Proof.
  apply set_eq. intros d. rewrite elem_of_union, !elem_of_dom.
  unfold asSet. rewrite elem_of_list_to_set, lookup_fold_mset.
  destruct (decide (d ∈ l)) as [H|H]; split; eauto; intros [?|?]; tauto.
Qed.

Lemma lookup_mergeKeys (src dst : gmap string bool) (d : string) :
  mergeKeys src dst !! d = if decide (d ∈ dom src) then Some true else dst !! d.
Proof.
  unfold mergeKeys. rewrite lookup_fold_mset.
  destruct (decide (d ∈ keys src)) as [H|H]; rewrite elem_of_keys in H.
  - rewrite decide_True by exact H. reflexivity.
  - rewrite decide_False by exact H. reflexivity.
Qed.

Lemma dom_mergeKeys (src dst : gmap string bool) :
  dom (mergeKeys src dst) = dom src ∪ dom dst.
Proof.
  unfold mergeKeys. rewrite dom_fold_mset. f_equal.
  apply set_eq. intros d. unfold asSet.
  rewrite elem_of_list_to_set. apply elem_of_keys.
Qed.

Lemma loadEntries_eq (entries : list CustomBlocklistEntry) (result : gmap string bool) (count : Z) :
  loadEntries entries (result, count) =
  (fold_left mset (entryDomains entries) result,
   count + Z.of_nat (length (entryDomains entries))).
Proof.
  unfold loadEntries, entryDomains.
  revert result count. induction entries as [|entry entries IH]; intros result count.
  - simpl. f_equal. lia.
  - cbn [fold_left List.filter].
    destruct (Enabled entry); cbn [negb map List.filter].
    + destruct (String.eqb (normalizeDomain (Domain entry)) ""); cbn [negb].
      * apply IH.
      * rewrite IH. cbn [fold_left length]. f_equal. lia.
    + apply IH.
Qed.

Lemma loadFiles_eq (w : World) (files : list string) (result : gmap string bool) (count : Z) :
  let loaded :=
    flat_map (fun file => match readYAML w file with
                          | Some bl => entryDomains (Domains bl)
                          | None => []
                          end) files in
  fold_left (fun acc file =>
               match readYAML w file with
               | None => acc
               | Some bl => loadEntries (Domains bl) acc
               end)
            files (result, count)
  = (fold_left mset loaded result, count + Z.of_nat (length loaded)).
Proof.
  cbv zeta. revert result count.
  induction files as [|file files IH]; intros result count.
  - simpl. f_equal. lia.
  - cbn [fold_left flat_map]. destruct (readYAML w file) as [bl|].
    + rewrite loadEntries_eq, IH, fold_left_app, length_app. f_equal. lia.
    + rewrite IH. reflexivity.
Qed.

Lemma loadCustomYAMLBlocklists_eq (e : Engine) (w : World) :
  loadCustomYAMLBlocklists e w =
  (fold_left mset (customDomains e w) ∅, Z.of_nat (length (customDomains e w))).
Proof.
  unfold loadCustomYAMLBlocklists, customDomains, matchedFiles.
  destruct (Glob w _) as [files [err|]]; destruct files as [|file files];
    try reflexivity.
  rewrite loadFiles_eq. reflexivity.
Qed.

Lemma In_customDomains (e : Engine) (w : World) (d : string) :
  In d (customDomains e w) <-> customEntryOf e w d.
Proof.
  unfold customDomains, customEntryOf, entryDomains. rewrite in_flat_map. split.
  - intros (file & Hfile & Hd). destruct (readYAML w file) as [bl|] eqn:Hbl; [|destruct Hd].
    apply filter_In in Hd. destruct Hd as [Hd Hne].
    apply in_map_iff in Hd. destruct Hd as (entry & <- & Hentry).
    apply filter_In in Hentry. destruct Hentry as [Hentry Hen].
    exists file, bl, entry. repeat split; try assumption.
    intros Heq. rewrite Heq in Hne. discriminate.
  - intros (file & bl & entry & Hfile & Hbl & Hentry & Hen & -> & Hne).
    exists file. split; [exact Hfile|]. rewrite Hbl.
    apply filter_In. split.
    + apply in_map_iff. exists entry. split; [reflexivity|].
      apply filter_In. split; assumption.
    + apply negb_true_iff. apply String.eqb_neq. exact Hne.
Qed.

Lemma ingestSources_eq (w : World) (sources : list BlocklistSource)
    (newBlocked : gmap string bool) (total : Z) :
  let fetched :=
    flat_map (fun source =>
                if Source_Enabled source
                then match fetchBlocklist w (URL source) with
                     | (domains, None) => domains
                     | (_, Some _) => []
                     end
                else []) sources in
  ingestSources w sources (newBlocked, total) =
  (fold_left mset fetched newBlocked, total + Z.of_nat (length fetched)).
Proof.
  cbv zeta. unfold ingestSources. revert newBlocked total.
  induction sources as [|source sources IH]; intros newBlocked total.
  - simpl. f_equal. lia.
  - cbn [fold_left flat_map]. destruct (Source_Enabled source); cbn [negb].
    + destruct (fetchBlocklist w (URL source)) as [domains [err|]].
      * apply IH.
      * rewrite IH, fold_left_app, length_app. f_equal. lia.
    + apply IH.
Qed.

Lemma In_fetchedDomains (e : Engine) (w : World) (d : string) :
  In d (fetchedDomains e w) <-> fetchedFrom e w d.
Proof.
  unfold fetchedDomains, fetchedFrom. rewrite in_flat_map. split.
  - intros (source & Hsrc & Hd).
    destruct (Source_Enabled source) eqn:Hen; [|destruct Hd].
    destruct (fetchBlocklist w (URL source)) as [domains [err|]] eqn:Hf; [destruct Hd|].
    exists source, domains. auto.
  - intros (source & domains & Hsrc & Hen & Hf & Hd).
    exists source. split; [exact Hsrc|]. rewrite Hen, Hf. exact Hd.
Qed.

(** What [UpdateBlocklists] leaves in the engine. *)
Lemma UpdateBlocklists_eq (e : Engine) (w : World) :
  UpdateBlocklists e w =
  ({| cfg := cfg e;
      blockedDomains :=
        mergeKeys (fold_left mset (customDomains e w) ∅)
                  (fold_left mset (fetchedDomains e w) ∅);
      customBlocked := customBlocked e;
      whitelist := whitelist e |},
   None).
Proof.
  unfold UpdateBlocklists.
  pose proof (ingestSources_eq w (Sources (Blocklists (cfg e))) ∅ 0) as Hi.
  cbv zeta in Hi. rewrite Hi, loadCustomYAMLBlocklists_eq. reflexivity.
Qed.

Lemma ReloadCustomBlocklists_eq (e : Engine) (w : World) :
  ReloadCustomBlocklists e w =
  ({| cfg := cfg e;
      blockedDomains := blockedDomains e;
      customBlocked := mergeKeys (fold_left mset (customDomains e w) ∅) (customBlocked e);
      whitelist := whitelist e |},
   (Z.of_nat (length (customDomains e w)), None)).
Proof.
  unfold ReloadCustomBlocklists. rewrite loadCustomYAMLBlocklists_eq. reflexivity.
Qed.

Lemma mget_mergeKeys_loaded (l : list string) (dst : gmap string bool) (d : string) :
  mget (mergeKeys (fold_left mset l ∅) dst) d = true <-> In d l \/ mget dst d = true.
Proof.
  unfold mget. rewrite lookup_mergeKeys, dom_fold_mset, dom_empty_L.
  unfold asSet. rewrite <- list_elem_of_In.
  destruct (decide (d ∈ list_to_set l ∪ ∅)) as [H|H]; simpl.
  - split; [intros _; left|reflexivity].
    apply elem_of_union in H. destruct H as [H|H].
    + apply elem_of_list_to_set in H. exact H.
    + apply not_elem_of_empty in H. destruct H.
  - split; [tauto|]. intros [Hin|Hm]; [|exact Hm]. exfalso. apply H.
    apply elem_of_union_l, elem_of_list_to_set. exact Hin.
Qed.

End Ingestion.

(** C5 (as amended).  [ReloadCustomBlocklists] merges: afterwards a domain is
    in the custom set exactly when it was there before or is the non-empty
    normalized form of an enabled entry of a matched, readable file.  The
    remote set is untouched and the value returned is the number of such
    entries, with no error. *)
Theorem ReloadCustom_merges (e : filter.Engine) (w : filter.World) :
  (forall d : string,
      spec.inSet (filter.customBlocked (filter.ReloadCustomBlocklists e w).1) d <->
      spec.inSet (filter.customBlocked e) d \/ spec.customEntryOf e w d)
  /\ filter.blockedDomains (filter.ReloadCustomBlocklists e w).1 = filter.blockedDomains e
  /\ (filter.ReloadCustomBlocklists e w).2
     = (Z.of_nat (length (spec.customDomains e w)), None).
Proof.
  rewrite ReloadCustomBlocklists_eq. cbn [fst snd filter.customBlocked filter.blockedDomains].
  repeat split; try (intros H).
  - apply mget_mergeKeys_loaded in H. rewrite In_customDomains in H. tauto.
  - apply mget_mergeKeys_loaded. rewrite In_customDomains. tauto.
Qed.

(** C5 (as stated) fails: an entry loaded by an earlier reload and then
    disabled in the file is still in the custom set after the next reload. *)
Lemma ReloadCustom_keeps_disabled_counterexample :
  ~ (spec.inSet
       (filter.customBlocked
          (filter.ReloadCustomBlocklists examples.afterFirstReload
             (examples.world (Some examples.yamlAfter) None)).1)
       "old.example"
     <-> spec.customEntryOf examples.afterFirstReload
           (examples.world (Some examples.yamlAfter) None) "old.example").
Proof.
  intros [H _].
  assert (Hin : spec.inSet
       (filter.customBlocked
          (filter.ReloadCustomBlocklists examples.afterFirstReload
             (examples.world (Some examples.yamlAfter) None)).1)
       "old.example") by (vm_compute; reflexivity).
  apply H in Hin. apply In_customDomains in Hin. vm_compute in Hin.
  destruct Hin as [Hin|[]]. discriminate.
Qed.

(** C6 (as amended).  After [UpdateBlocklists] the reported count is the size
    of the remote set, which is the de-duplicated union of the fetched
    sources' outputs and the custom files' domains, plus the size of the
    custom set; the two sizes are added, not merged. *)
Theorem GetBlockedCount_after_update (e : filter.Engine) (w : filter.World) :
  filter.GetBlockedCount (filter.UpdateBlocklists e w).1
  = Z.of_nat (size (spec.asSet (spec.fetchedDomains e w) ∪ spec.asSet (spec.customDomains e w)))
    + Z.of_nat (size (filter.customBlocked e)).
Proof.
  rewrite UpdateBlocklists_eq. unfold filter.GetBlockedCount.
  cbn [fst filter.blockedDomains filter.customBlocked].
  rewrite <- (size_dom (filter.mergeKeys _ _)).
  rewrite dom_mergeKeys, !dom_fold_mset, dom_empty_L, !(right_id_L ∅ (∪)).
  rewrite (comm_L (∪)). reflexivity.
Qed.

(** C6 (as stated) fails: [ads.example] is in the remote set and in the
    custom set and is counted twice. *)
Lemma GetBlockedCount_double_count_counterexample :
  let w := examples.world None (Some examples.adsLines) in
  let e' := (filter.UpdateBlocklists examples.adsBlockedByHand w).1 in
  spec.fetchedDomains examples.adsBlockedByHand w
    = ["ads.example"; "ads.example"; "tracker.example"]
  /\ filter.GetBlockedCount e' = 3
  /\ size (spec.asSet (spec.fetchedDomains examples.adsBlockedByHand w)
           ∪ dom (filter.customBlocked e')) = 2%nat
  /\ filter.GetBlockedCount e'
     <> Z.of_nat (size (spec.asSet (spec.fetchedDomains examples.adsBlockedByHand w)
                        ∪ dom (filter.customBlocked e'))).
Proof.
  cbv zeta. repeat apply conj; try (vm_compute; reflexivity).
  vm_compute. discriminate.
Qed.

(** C8 (as amended).  [UpdateBlocklists] never reports an error.  The remote
    set it installs holds exactly the domains of the enabled sources whose
    fetch succeeded and of the custom files: a failing source contributes
    nothing and stops nothing. *)
Theorem UpdateBlocklists_returns_nil (e : filter.Engine) (w : filter.World) :
  (filter.UpdateBlocklists e w).2 = None
  /\ forall d : string,
       spec.inSet (filter.blockedDomains (filter.UpdateBlocklists e w).1) d <->
       spec.fetchedFrom e w d \/ spec.customEntryOf e w d.
Proof.
  rewrite UpdateBlocklists_eq. cbn [fst snd filter.blockedDomains].
  split; [reflexivity|]. intros d. unfold spec.inSet.
  rewrite mget_mergeKeys_loaded, mget_fold_mset, In_customDomains, In_fetchedDomains.
  unfold mget. rewrite lookup_empty. simpl. intuition discriminate.
Qed.

(** C8 (as stated) fails: with every source failing and no custom file, no
    data is produced and the update still returns [nil]. *)
Lemma UpdateBlocklists_no_data_counterexample :
  spec.fetchedDomains (filter.newEngine examples.withSources) (examples.world None None) = []
  /\ spec.customDomains (filter.newEngine examples.withSources) (examples.world None None) = []
  /\ ~ (exists err,
          (filter.UpdateBlocklists (filter.newEngine examples.withSources)
             (examples.world None None)).2 = Some err).
Proof.
  repeat split; try (vm_compute; reflexivity).
  intros [err H]. vm_compute in H. discriminate.
Qed.

(** One source fails, the other is ingested, and the update succeeds. *)
Example UpdateBlocklists_partial :
  let r := filter.UpdateBlocklists (filter.newEngine examples.withSources)
             (examples.world None (Some examples.adsLines)) in
  r.2 = None
  /\ filter.fetchBlocklist (examples.world None (Some examples.adsLines))
       (config.URL examples.remoteSource) = ([], Some (errorString "no such host"))
  /\ mget (filter.blockedDomains r.1) "ads.example" = true
  /\ mget (filter.blockedDomains r.1) "tracker.example" = true.
Proof. repeat split; vm_compute; reflexivity. Qed.

(** ** The upstream pool *)

Section RoundRobin.
Import dns spec.

Lemma Get_many (p : UpstreamPool) :
  (2 <= length (servers p))%nat ->
  Get p = (nth (slotAt p 1) (servers p) "",
           {| servers := servers p; index := uint32 (index p + 1) |}).
Proof.
  intros HN. unfold Get, slotAt.
  destruct (servers p) as [|a [|b l]] eqn:E; simpl in HN; try lia.
  reflexivity.
Qed.

Lemma uint32_succ (i : Z) (t : nat) :
  uint32 (uint32 (i + 1) + Z.of_nat t) = uint32 (i + Z.of_nat (S t)).
Proof.
  unfold uint32. rewrite Z.add_mod_idemp_l by lia. f_equal. lia.
Qed.

(** The outputs of [n] calls in closed form, and the pool afterwards. *)
Lemma GetN_many (n : nat) (p : UpstreamPool) :
  (2 <= length (servers p))%nat ->
  (GetN n p).1 = map (fun t => nth (slotAt p t) (servers p) "") (seq 1 n)
  /\ servers (GetN n p).2 = servers p
  /\ index (GetN n p).2 = match n with
                           | O => index p
                           | S _ => uint32 (index p + Z.of_nat n)
                           end.
Proof.
  revert p. induction n as [|n IH]; intros p HN.
  - simpl. repeat split.
  - cbn [GetN]. rewrite (Get_many p HN).
    set (p1 := {| servers := servers p; index := uint32 (index p + 1) |}).
    specialize (IH p1 HN). destruct IH as (Hout & Hsrv & Hidx).
    destruct (GetN n p1) as [rest p2]. cbn [fst snd] in *.
    repeat split.
    + cbn [seq map]. f_equal. rewrite Hout, <- (seq_shift n 1), map_map.
      apply map_ext. intros t. unfold slotAt. cbn [servers index p1].
      rewrite uint32_succ. reflexivity.
    + exact Hsrv.
    + rewrite Hidx. destruct n as [|n].
      * reflexivity.
      * cbn [index p1]. apply uint32_succ.
Qed.

Lemma slotAt_plain (p : UpstreamPool) (n t : nat) :
  (1 <= length (servers p))%nat -> wrapHarmless p n -> (t <= n)%nat ->
  slotAt p t = Z.to_nat ((index p + Z.of_nat t) mod Z.of_nat (length (servers p))).
Proof.
  intros HN [[H0 Hlt] | Hdiv] Ht; unfold slotAt, uint32.
  - rewrite (Z.mod_small (index p + Z.of_nat t)) by lia. reflexivity.
  - rewrite Z.mod_mod_divide by exact Hdiv. reflexivity.
Qed.

Lemma count_occ_rotate (l : list string) (r : nat) (s : string) :
  count_occ String.string_dec (rotate r l) s = count_occ String.string_dec l s.
Proof.
  unfold rotate. rewrite count_occ_app, Nat.add_comm, <- count_occ_app, take_drop.
  reflexivity.
Qed.

(** [N] consecutive slots read the servers once around. *)
Lemma block_is_rotation (l : list string) (c : Z) (a : nat) :
  (1 <= length l)%nat -> 0 <= c ->
  map (fun t => nth (Z.to_nat ((c + Z.of_nat t) mod Z.of_nat (length l))) l "")
      (seq a (length l))
  = rotate (Z.to_nat ((c + Z.of_nat a) mod Z.of_nat (length l))) l.
Proof.
  intros HN Hc. apply list_eq. intros i.
  destruct (decide (i < length l)%nat) as [Hi|Hi].
  - rewrite lookup_rotate_r by exact Hi.
    rewrite list_lookup_fmap, lookup_seq_lt by exact Hi. cbn [fmap option_fmap option_map].
    unfold rotate_nat_add.
    assert (Hpos : 0 < Z.of_nat (length l)) by lia.
    assert (Heq : (Z.of_nat (Z.to_nat ((c + Z.of_nat a) mod Z.of_nat (length l))) + Z.of_nat i)
                    mod Z.of_nat (length l)
                  = (c + Z.of_nat (a + i)) mod Z.of_nat (length l)).
    { rewrite Z2Nat.id by (apply Z.mod_pos_bound; lia).
      rewrite Z.add_mod_idemp_l by lia. f_equal. lia. }
    rewrite Heq.
    assert (Hlt : (Z.to_nat ((c + Z.of_nat (a + i)) mod Z.of_nat (length l)) < length l)%nat).
    { pose proof (Z.mod_pos_bound (c + Z.of_nat (a + i)) (Z.of_nat (length l)) Hpos). lia. }
    destruct (lookup_lt_is_Some_2 l _ Hlt) as [x Hx].
    rewrite Hx. f_equal. apply nth_lookup_Some with (d := ""). exact Hx.
  - rewrite !lookup_ge_None_2; [reflexivity | |].
    + rewrite length_rotate. lia.
    + rewrite length_fmap, length_seq. lia.
Qed.

Lemma count_blocks (l : list string) (c : Z) (k a : nat) (s : string) :
  (1 <= length l)%nat -> 0 <= c ->
  count_occ String.string_dec
    (map (fun t => nth (Z.to_nat ((c + Z.of_nat t) mod Z.of_nat (length l))) l "")
         (seq a (length l * k)))
    s
  = (k * count_occ String.string_dec l s)%nat.
Proof.
  intros HN Hc. revert a. induction k as [|k IH]; intros a.
  - rewrite Nat.mul_0_r. reflexivity.
  - replace (length l * S k)%nat with (length l + length l * k)%nat by lia.
    rewrite seq_app, map_app, count_occ_app, IH.
    rewrite (block_is_rotation l c a HN Hc), count_occ_rotate. lia.
Qed.

Lemma GetN_single (only : string) (i : Z) (n : nat) :
  (GetN n {| servers := [only]; index := i |}).1 = repeat only n.
Proof.
  induction n as [|n IH]; [reflexivity|].
  cbn [GetN Get servers]. destruct (GetN n _) as [rest p2]. cbn [fst] in *.
  rewrite IH. reflexivity.
Qed.

Lemma count_occ_repeat_string (x s : string) (n : nat) :
  count_occ String.string_dec (repeat x n) s
  = (n * count_occ String.string_dec [x] s)%nat.
Proof.
  induction n as [|n IH]; [reflexivity|].
  cbn [repeat count_occ] in *. destruct (String.string_dec x s); lia.
Qed.

End RoundRobin.

(** C9 (as amended).  For a pool of [N >= 1] servers, over [N * k]
    consecutive calls during which the 32-bit index does not wrap (or with
    [N] a divisor of 2^32), every server is handed out [k] times for each
    place it holds in the list, hence exactly [k] times when the servers are
    distinct; and each call with [N >= 2] returns
    [servers[(index + 1 as a uint32) mod N]] and stores the incremented
    index. *)
Theorem round_robin_fair (p : dns.UpstreamPool) (k : nat) :
  (1 <= length (dns.servers p))%nat ->
  spec.wrapHarmless p (length (dns.servers p) * k) ->
  (forall s : string,
      spec.timesReturned s (dns.GetN (length (dns.servers p) * k) p).1
      = (k * count_occ String.string_dec (dns.servers p) s)%nat)
  /\ (List.NoDup (dns.servers p) ->
      forall s : string, In s (dns.servers p) ->
        spec.timesReturned s (dns.GetN (length (dns.servers p) * k) p).1 = k)
  /\ ((2 <= length (dns.servers p))%nat ->
      dns.Get p
      = (nth (Z.to_nat (dns.uint32 (dns.index p + 1) mod Z.of_nat (length (dns.servers p))))
             (dns.servers p) "",
         {| dns.servers := dns.servers p; dns.index := dns.uint32 (dns.index p + 1) |})).
Proof.
  intros HN Hwrap.
  assert (Hcount : forall s : string,
      spec.timesReturned s (dns.GetN (length (dns.servers p) * k) p).1
      = (k * count_occ String.string_dec (dns.servers p) s)%nat).
  { intros s. unfold spec.timesReturned.
    destruct (decide (length (dns.servers p) = 1%nat)) as [H1|H1].
    - destruct p as [srv i]. cbn [dns.servers] in *.
      destruct srv as [|only [|? ?]]; simpl in H1; try lia.
      simpl length. rewrite Nat.mul_1_l, GetN_single. apply count_occ_repeat_string.
    - assert (H2 : (2 <= length (dns.servers p))%nat) by lia.
      destruct (GetN_many (length (dns.servers p) * k) p H2) as (Hout & _ & _).
      rewrite Hout.
      destruct Hwrap as [[H0 Hlt] | Hdiv].
      + rewrite <- (count_blocks (dns.servers p) (dns.index p) k 1 s HN H0).
        f_equal. apply map_ext_in. intros t Ht. apply in_seq in Ht.
        rewrite (slotAt_plain p (length (dns.servers p) * k) t HN); [reflexivity | | lia].
        left. split; assumption.
      + (* dividing case: shift the index into the non-negative range *)
        set (N := Z.of_nat (length (dns.servers p))) in *.
        rewrite <- (count_blocks (dns.servers p) (dns.index p mod N) k 1 s HN)
          by (apply Z.mod_pos_bound; lia).
        f_equal. apply map_ext_in. intros t Ht. apply in_seq in Ht.
        rewrite (slotAt_plain p (length (dns.servers p) * k) t HN); [| right; exact Hdiv | lia].
        fold N. rewrite Z.add_mod_idemp_l by lia. reflexivity. }
  split; [exact Hcount|]. split.
  - intros Hnd s Hin. rewrite Hcount.
    assert (count_occ String.string_dec (dns.servers p) s = 1%nat) as ->.
    { apply (proj1 (List.NoDup_count_occ' String.string_dec (dns.servers p))); assumption. }
    lia.
  - intros H2. rewrite (Get_many p H2). reflexivity.
Qed.

(** Two rounds over three upstreams from a fresh pool. *)
Lemma round_robin_fair_witness :
  (forall s : string,
      spec.timesReturned s
        (dns.GetN (length (dns.servers examples.threeUpstreams) * 2) examples.threeUpstreams).1
      = (2 * count_occ String.string_dec (dns.servers examples.threeUpstreams) s)%nat)
  /\ (List.NoDup (dns.servers examples.threeUpstreams) ->
      forall s : string, In s (dns.servers examples.threeUpstreams) ->
        spec.timesReturned s
          (dns.GetN (length (dns.servers examples.threeUpstreams) * 2) examples.threeUpstreams).1
        = 2%nat)
  /\ ((2 <= length (dns.servers examples.threeUpstreams))%nat ->
      dns.Get examples.threeUpstreams
      = (nth (Z.to_nat (dns.uint32 (dns.index examples.threeUpstreams + 1)
                        mod Z.of_nat (length (dns.servers examples.threeUpstreams))))
             (dns.servers examples.threeUpstreams) "",
         {| dns.servers := dns.servers examples.threeUpstreams;
            dns.index := dns.uint32 (dns.index examples.threeUpstreams + 1) |})).
Proof.
  apply (round_robin_fair examples.threeUpstreams 2).
  - simpl. lia.
  - left. simpl. lia.
Defined.

Example round_robin_two_rounds :
  (dns.GetN 6 examples.threeUpstreams).1
  = ["8.8.8.8:53"; "9.9.9.9:53"; "1.1.1.1:53"; "8.8.8.8:53"; "9.9.9.9:53"; "1.1.1.1:53"].
Proof. vm_compute. reflexivity. Qed.

(** The pool two calls short of the wrap is the fresh pool after 2^32 - 2
    calls. *)
Lemma nearWrap_reachable :
  (dns.GetN (Z.to_nat (2 ^ 32 - 2)) examples.threeUpstreams).2 = examples.nearWrap.
Proof.
  assert (H2 : (2 <= length (dns.servers examples.threeUpstreams))%nat) by (simpl; lia).
  destruct (GetN_many (Z.to_nat (2 ^ 32 - 2)) examples.threeUpstreams H2) as (_ & Hsrv & Hidx).
  destruct (dns.GetN (Z.to_nat (2 ^ 32 - 2)) examples.threeUpstreams) as [out [srv i]].
  cbn [snd dns.servers dns.index] in *. subst srv.
  unfold examples.nearWrap. f_equal.
  remember (Z.to_nat (2 ^ 32 - 2)) as n eqn:Hn.
  assert (Hz : Z.of_nat n = 2 ^ 32 - 2) by (subst n; apply Z2Nat.id; lia).
  destruct n as [|n]; [simpl in Hz; lia|].
  rewrite Hidx, Hz. reflexivity.
Qed.

(** C9 (as stated) fails across the wrap of the 32-bit index: the three calls
    that follow hand out the first server twice and the third not at all. *)
Lemma round_robin_wrap_counterexample :
  (dns.GetN (3 * 1) examples.nearWrap).1 = ["1.1.1.1:53"; "1.1.1.1:53"; "8.8.8.8:53"]
  /\ ~ (forall s : string, In s (dns.servers examples.nearWrap) ->
          spec.timesReturned s (dns.GetN (3 * 1) examples.nearWrap).1 = 1%nat).
Proof.
  split; [vm_compute; reflexivity|].
  intros H. specialize (H "9.9.9.9:53").
  assert (Hin : In "9.9.9.9:53" (dns.servers examples.nearWrap)) by (simpl; tauto).
  apply H in Hin. vm_compute in Hin. discriminate.
Qed.

(** ** The request handler *)

Section Handler.
Import config dns spec.

Variable TypeToString : Z -> string.

(** Split a handler into its paths. *)
Ltac handler_paths :=
  unfold handleDNSRequest, forwardToUpstream, handleBlockedDomain in *; cbv zeta in *;
  repeat match goal with
         | |- context [match ?x with _ => _ end] => destruct x eqn:?
         | H : context [match ?x with _ => _ end] |- _ => destruct x eqn:?
         | H : (_, _) = (_, _) |- _ => inversion H; subst; clear H
         end;
  cbn [fst snd stats cache upstreamPool filter cfg withStats withCache withPool
       incTotal incBlocked incCached TotalQueries BlockedQueries CachedResponses] in *.

Lemma handle_total (s : Server) (conn : Conn) (r : Msg) :
  TotalQueries (stats (handleDNSRequest TypeToString s conn r).1.1)
  = uint64 (TotalQueries (stats s) + 1).
Proof. handler_paths; reflexivity. Qed.

(** A message without a question is answered and nothing else happens. *)
Lemma handle_no_question (s : Server) (conn : Conn) (r : Msg) :
  Msg_Question r = [] ->
  handleDNSRequest TypeToString s conn r
  = (withStats s (incTotal (stats s)), emptyReply r, []).
Proof.
  intros Hq. unfold handleDNSRequest. rewrite Hq. cbv zeta.
  unfold SetReply, withAuthoritative, emptyReply, newMsg. rewrite Hq. reflexivity.
Qed.

(** Every insertion is the upstream's reply to this request, a success with
    an answer, under the key of the first question as received. *)
Lemma handle_insertions (s : Server) (conn : Conn) (r : Msg) (key : string) (m : Msg) :
  In (EvCacheSet key m) (handleDNSRequest TypeToString s conn r).2 ->
  exists question rest,
    Msg_Question r = question :: rest
    /\ key = makeKey TypeToString (Name question) (Qtype question)
    /\ Exchange conn r (Get (upstreamPool s)).1 = inl m
    /\ cacheable m.
Proof.
  intros Hin. handler_paths; simpl in Hin;
    repeat match goal with
           | H : _ \/ _ |- _ => destruct H
           | H : False |- _ => destruct H
           | H : _ = EvCacheSet _ _ |- _ => inversion H; subst; clear H
           end.
  all: eexists _, _; split; [reflexivity|]; split; [reflexivity|].
  all: match goal with H : Get _ = _ |- _ => rewrite H end; cbn [fst]; split; [assumption|].
  all: match goal with
       | H : (_ && _)%bool = true |- _ =>
           apply andb_true_iff in H; destruct H as [Hr Ha]
       end.
  all: split; [apply Z.eqb_eq; exact Hr|].
  all: intros Hnil; rewrite Hnil in Ha; simpl in Ha; discriminate.
Qed.

(** The cache changes only through a recorded insertion. *)
Lemma handle_cache_change (s : Server) (conn : Conn) (r : Msg) :
  cache (handleDNSRequest TypeToString s conn r).1.1 = cache s
  \/ exists question rest m,
       Msg_Question r = question :: rest
       /\ In (EvCacheSet (makeKey TypeToString (Name question) (Qtype question)) m)
             (handleDNSRequest TypeToString s conn r).2
       /\ cache (handleDNSRequest TypeToString s conn r).1.1
          = cacheSet TypeToString (cache s) (time.nanos (now conn))
              (Name question) (Qtype question) m.
Proof.
  handler_paths; try (left; reflexivity).
  all: right; eexists _, _, _; split; [reflexivity|]; split; [|reflexivity].
  all: simpl; tauto.
Qed.

(** Every lookup and every insertion of a request uses the key of the first
    question's name as it arrived. *)
Lemma handle_keys (s : Server) (conn : Conn) (r : Msg) (ev : Event) :
  In ev (handleDNSRequest TypeToString s conn r).2 ->
  forall key,
    (exists hit, ev = EvCacheGet key hit) \/ (exists m, ev = EvCacheSet key m) ->
    exists question rest,
      Msg_Question r = question :: rest
      /\ key = makeKey TypeToString (Name question) (Qtype question).
Proof.
  intros Hin key Hev. handler_paths; simpl in Hin;
    repeat match goal with
           | H : _ \/ _ |- _ => destruct H
           | H : False |- _ => destruct H
           | H : exists _, _ |- _ => destruct H
           end; subst; try discriminate.
  all: match goal with H : _ = _ |- _ => inversion H; subst; clear H end.
  all: eexists _, _; split; reflexivity.
Qed.

(** A blocked request leaves the cache as it was. *)
Lemma handle_blocked_cache (s : Server) (conn : Conn) (r : Msg) (domain : string) :
  In (EvShouldBlock domain true) (handleDNSRequest TypeToString s conn r).2 ->
  cache (handleDNSRequest TypeToString s conn r).1.1 = cache s
  /\ forall key m, ~ In (EvCacheSet key m) (handleDNSRequest TypeToString s conn r).2.
Proof.
  intros Hin. handler_paths; simpl in Hin;
    repeat match goal with
           | H : _ \/ _ |- _ => destruct H
           | H : False |- _ => destruct H
           end; try discriminate.
  all: split; [reflexivity|]. all: intros key m' Hset; simpl in Hset.
  all: repeat match goal with
              | H : _ \/ _ |- _ => destruct H
              | H : False |- _ => destruct H
              end; discriminate.
Qed.

(** So does a request whose upstream exchange fails; the reply is SERVFAIL. *)
Lemma handle_servfail_cache (s : Server) (conn : Conn) (r : Msg) (err : error) :
  Exchange conn r (Get (upstreamPool s)).1 = inr err ->
  In (EvExchange (Get (upstreamPool s)).1) (handleDNSRequest TypeToString s conn r).2 ->
  cache (handleDNSRequest TypeToString s conn r).1.1 = cache s
  /\ Rcode (handleDNSRequest TypeToString s conn r).1.2 = RcodeServerFailure
  /\ forall key m, ~ In (EvCacheSet key m) (handleDNSRequest TypeToString s conn r).2.
Proof.
  intros Herr Hin. handler_paths; simpl in Hin;
    repeat match goal with
           | H : _ \/ _ |- _ => destruct H
           | H : False |- _ => destruct H
           end; try discriminate.
  all: match goal with H : Get _ = _ |- _ => rewrite H in Herr end; cbn [fst] in Herr.
  all: try congruence.
  all: repeat split; try reflexivity.
  all: intros key m' Hset; simpl in Hset.
  all: repeat match goal with
              | H : _ \/ _ |- _ => destruct H
              | H : False |- _ => destruct H
              end; discriminate.
Qed.

End Handler.

(** ** The cache *)

Section Cache.
Import dns spec.

Variable TypeToString : Z -> string.

Lemma evictOldest_lookup (c : DNSCache) (key : string) (entry : cacheEntry) :
  entries (evictOldest c) !! key = Some entry -> entries c !! key = Some entry.
Proof.
  unfold evictOldest. destruct (oldestOf _) as [[oldestKey t]|]; [|auto].
  destruct (String.eqb oldestKey ""); [auto|]. cbn [entries].
  intros H. apply lookup_delete_Some in H. tauto.
Qed.

Lemma cacheSet_OK (c : DNSCache) (now : Z) (domain : string) (qtype : Z) (m : Msg) :
  cacheOK c -> cacheable m -> cacheOK (cacheSet TypeToString c now domain qtype m).
Proof.
  intros Hc Hm key entry. unfold cacheSet. cbv zeta. cbn [entries].
  intros H. apply lookup_insert_Some in H. destruct H as [[_ <-] | [_ H]].
  - exact Hm.
  - destruct (cacheSize c >=? maxSize c).
    + apply evictOldest_lookup in H. eapply Hc; eassumption.
    + eapply Hc; eassumption.
Qed.

Lemma cleanup_OK (c : DNSCache) (now : Z) : cacheOK c -> cacheOK (cleanup c now).
Proof.
  intros Hc key entry. unfold cleanup. cbn [entries].
  intros H. apply map_lookup_filter_Some in H. destruct H as [H _].
  eapply Hc; eassumption.
Qed.

Lemma cacheClear_OK (c : DNSCache) : cacheOK (cacheClear c).
Proof. intros key entry H. cbn in H. rewrite lookup_empty in H. discriminate. Qed.

Lemma NewDNSCache_OK (maxSize ttl : Z) : cacheOK (NewDNSCache maxSize ttl).
Proof. intros key entry H. cbn in H. rewrite lookup_empty in H. discriminate. Qed.

Lemma handle_OK (s : Server) (conn : Conn) (r : Msg) :
  cacheOK (cache s) -> cacheOK (cache (handleDNSRequest TypeToString s conn r).1.1).
Proof.
  intros Hc.
  destruct (handle_cache_change TypeToString s conn r)
    as [-> | (question & rest & m & _ & Hin & ->)]; [exact Hc|].
  apply cacheSet_OK; [exact Hc|].
  destruct (handle_insertions TypeToString s conn r _ _ Hin) as (? & ? & _ & _ & _ & Hm).
  exact Hm.
Qed.

Lemma step_OK (s s' : Server) :
  step TypeToString s s' -> cacheOK (cache s) -> cacheOK (cache s').
Proof.
  intros Hstep Hc. destruct Hstep; cbn [cache ClearCache withCache].
  - apply handle_OK; exact Hc.
  - apply cacheClear_OK.
  - apply cleanup_OK; exact Hc.
  - exact Hc.
Qed.

Lemma reachable_OK (s s' : Server) :
  rtc (step TypeToString) s s' -> cacheOK (cache s) -> cacheOK (cache s').
Proof.
  induction 1 as [|s1 s2 s3 Hstep _ IH]; [auto|].
  intros Hc. apply IH. eapply step_OK; eassumption.
Qed.

End Cache.

(** C4.  Whatever the sequence of requests, cache clears and cleaner sweeps,
    every response in the cache, and every response a request inserts, is the
    upstream's reply with rcode NOERROR and a non-empty answer section.  A
    blocked request (whatever the block action) and a request whose upstream
    exchange fails insert nothing and leave the cache as it was. *)
Theorem cache_holds_only_upstream_successes (TypeToString : Z -> string) :
  (forall (s : dns.Server) (conn : dns.Conn) (r : dns.Msg) (key : string) (m : dns.Msg),
      In (dns.EvCacheSet key m) (dns.handleDNSRequest TypeToString s conn r).2 ->
      dns.Exchange conn r (dns.Get (dns.upstreamPool s)).1 = inl m /\ spec.cacheable m)
  /\ (forall (s : dns.Server) (conn : dns.Conn) (r : dns.Msg),
         dns.cache (dns.handleDNSRequest TypeToString s conn r).1.1 = dns.cache s
         \/ exists question rest m,
              dns.Msg_Question r = question :: rest
              /\ In (dns.EvCacheSet
                       (dns.makeKey TypeToString (dns.Name question) (dns.Qtype question)) m)
                    (dns.handleDNSRequest TypeToString s conn r).2
              /\ dns.cache (dns.handleDNSRequest TypeToString s conn r).1.1
                 = dns.cacheSet TypeToString (dns.cache s) (time.nanos (dns.now conn))
                     (dns.Name question) (dns.Qtype question) m)
  /\ (forall (s : dns.Server) (conn : dns.Conn) (r : dns.Msg) (domain : string),
         In (dns.EvShouldBlock domain true) (dns.handleDNSRequest TypeToString s conn r).2 ->
         dns.cache (dns.handleDNSRequest TypeToString s conn r).1.1 = dns.cache s
         /\ forall key m,
              ~ In (dns.EvCacheSet key m) (dns.handleDNSRequest TypeToString s conn r).2)
  /\ (forall (s : dns.Server) (conn : dns.Conn) (r : dns.Msg) (err : error),
         dns.Exchange conn r (dns.Get (dns.upstreamPool s)).1 = inr err ->
         In (dns.EvExchange (dns.Get (dns.upstreamPool s)).1)
            (dns.handleDNSRequest TypeToString s conn r).2 ->
         dns.cache (dns.handleDNSRequest TypeToString s conn r).1.1 = dns.cache s
         /\ dns.Rcode (dns.handleDNSRequest TypeToString s conn r).1.2 = dns.RcodeServerFailure
         /\ forall key m,
              ~ In (dns.EvCacheSet key m) (dns.handleDNSRequest TypeToString s conn r).2)
  /\ (forall (cfg : config.Config) (e : filter.Engine) (start : Z) (s : dns.Server),
         rtc (dns.step TypeToString) (dns.NewServer cfg e start) s ->
         spec.cacheOK (dns.cache s)).
Proof.
  repeat apply conj.
  - intros s conn r key m Hin.
    destruct (handle_insertions TypeToString s conn r key m Hin) as (? & ? & _ & _ & He & Hm).
    split; assumption.
  - intros s conn r. apply handle_cache_change.
  - apply handle_blocked_cache.
  - apply handle_servfail_cache.
  - intros cfg e start s Hreach. eapply reachable_OK; [exact Hreach|].
    apply NewDNSCache_OK.
Qed.

(** ** Cache keys *)

Lemma length_append (a b : string) :
  String.length (a +:+ b) = (String.length a + String.length b)%nat.
Proof. induction a as [|c a IH]; simpl; [reflexivity | rewrite IH; reflexivity]. Qed.

Lemma append_inv_tail (a b t : string) : a +:+ t = b +:+ t -> a = b.
Proof.
  revert b. induction a as [|c a IH]; intros [|d b] H; simpl in H.
  - reflexivity.
  - apply (f_equal String.length) in H.
    rewrite !length_append in H. simpl in H. rewrite ?length_append in H. lia.
  - apply (f_equal String.length) in H.
    rewrite !length_append in H. simpl in H. rewrite ?length_append in H. lia.
  - injection H as -> H. f_equal. apply IH. exact H.
Qed.

Lemma makeKey_inj (TypeToString : Z -> string) (d1 d2 : string) (qtype : Z) :
  dns.makeKey TypeToString d1 qtype = dns.makeKey TypeToString d2 qtype <-> d1 = d2.
Proof.
  split; [|intros ->; reflexivity].
  unfold dns.makeKey. apply append_inv_tail.
Qed.

Lemma cacheGet_other_name (TypeToString : Z -> string) (c : dns.DNSCache)
    (t t' : Z) (d1 d2 : string) (qtype : Z) (m : dns.Msg) :
  d1 <> d2 ->
  dns.cacheGet TypeToString
    (dns.cacheSet TypeToString (dns.cacheClear c) t d1 qtype m) t' d2 qtype = None.
Proof.
  intros Hne. unfold dns.cacheGet, dns.cacheSet. cbv zeta.
  assert (He : dns.entries (if dns.cacheSize (dns.cacheClear c) >=? dns.maxSize (dns.cacheClear c)
                            then dns.evictOldest (dns.cacheClear c) else dns.cacheClear c) = ∅).
  { destruct (_ >=? _); reflexivity. }
  cbn [dns.entries]. rewrite He, lookup_insert_ne, lookup_empty; [reflexivity|].
  intros Hk. apply makeKey_inj in Hk. contradiction.
Qed.

Lemma cacheGet_cleared (TypeToString : Z -> string) (c : dns.DNSCache) (t : Z)
    (domain : string) (qtype : Z) :
  dns.cacheGet TypeToString (dns.cacheClear c) t domain qtype = None.
Proof. unfold dns.cacheGet, dns.cacheClear. cbn. rewrite lookup_empty. reflexivity. Qed.

Section CacheKeys.
Import config dns spec.

Variable TypeToString : Z -> string.

Lemma evictOldest_ttl (c : DNSCache) :
  ttl (evictOldest c) = ttl c /\ maxSize (evictOldest c) = maxSize c.
Proof.
  unfold evictOldest. destruct (oldestOf _) as [[k t]|]; [|auto].
  destruct (String.eqb k ""); auto.
Qed.

Lemma rawKey_inj (q1 q2 : Question) :
  Qtype q2 = Qtype q1 ->
  rawKey TypeToString q2 = rawKey TypeToString q1 <-> Name q2 = Name q1.
Proof.
  intros Ht. unfold rawKey. rewrite Ht.
  exact (makeKey_inj TypeToString (Name q2) (Name q1) (Qtype q1)).
Qed.

(** [Get] read off the stored entries: a hit needs an entry under the key of
    the name as given, not older than the TTL. *)
Lemma cacheGet_fresh (c : DNSCache) (t : Z) (question : Question) (entry : cacheEntry) :
  entries c !! rawKey TypeToString question = Some entry ->
  t - timestamp entry <= ttl c ->
  cacheGet TypeToString c t (Name question) (Qtype question) = Some (response entry).
Proof.
  intros Hl Hfresh. unfold cacheGet, makeKey. cbv zeta. unfold rawKey in Hl. rewrite Hl.
  destruct (t - timestamp entry >? ttl c) eqn:E; [|reflexivity].
  apply Z.gtb_lt in E. lia.
Qed.

Lemma cacheGet_stale (c : DNSCache) (t : Z) (question : Question) :
  (forall entry, entries c !! rawKey TypeToString question = Some entry ->
                 ttl c < t - timestamp entry) ->
  cacheGet TypeToString c t (Name question) (Qtype question) = None.
Proof.
  intros H. unfold cacheGet, makeKey. cbv zeta. unfold rawKey in H.
  destruct (entries c !! (Name question +:+ ":" +:+ TypeToString (Qtype question)))
    as [entry|] eqn:Hl; [|reflexivity].
  specialize (H entry eq_refl).
  destruct (t - timestamp entry >? ttl c) eqn:E; [reflexivity|].
  rewrite Z.gtb_ltb in E. apply Z.ltb_ge in E. lia.
Qed.

(** A fresh entry under the key of the name as it arrived answers the
    request. *)
Lemma handle_fresh_entry (s : Server) (conn : Conn) (r : Msg) (question : Question)
    (rest : list Question) (entry : cacheEntry) :
  Msg_Question r = question :: rest ->
  entries (cache s) !! rawKey TypeToString question = Some entry ->
  time.nanos (now conn) - timestamp entry <= ttl (cache s) ->
  handleDNSRequest TypeToString s conn r
  = (withStats s (incCached (incTotal (stats s))), SetReply (response entry) r,
     [EvCacheGet (rawKey TypeToString question) true]).
Proof.
  intros Hq Hl Hfresh. unfold handleDNSRequest. cbv zeta. rewrite Hq.
  cbn [cache withStats]. rewrite (cacheGet_fresh _ _ _ _ Hl Hfresh). reflexivity.
Qed.

(** Without one the request is handled as on a server whose cache is empty,
    whatever the cache holds under other keys. *)
Lemma handle_miss (s : Server) (conn : Conn) (r : Msg) (question : Question)
    (rest : list Question) :
  Msg_Question r = question :: rest ->
  cacheGet TypeToString (cache s) (time.nanos (now conn)) (Name question) (Qtype question)
  = None ->
  (handleDNSRequest TypeToString s conn r).1.2
  = (handleDNSRequest TypeToString (ClearCache s) conn r).1.2
  /\ stats (handleDNSRequest TypeToString s conn r).1.1
     = stats (handleDNSRequest TypeToString (ClearCache s) conn r).1.1
  /\ upstreamPool (handleDNSRequest TypeToString s conn r).1.1
     = upstreamPool (handleDNSRequest TypeToString (ClearCache s) conn r).1.1
  /\ CachedResponses (stats (handleDNSRequest TypeToString s conn r).1.1)
     = CachedResponses (stats s).
Proof.
  intros Hq Hget. unfold handleDNSRequest. cbv zeta. rewrite Hq.
  cbn [cache withStats ClearCache withCache cfg filter stats upstreamPool].
  rewrite Hget, cacheGet_cleared.
  unfold handleBlockedDomain, forwardToUpstream. cbv zeta.
  cbn [cache withStats ClearCache withCache cfg filter stats upstreamPool].
  destruct (Filtering_Enabled (Filtering (cfg s)));
    [destruct (filter.ShouldBlock (filter s) (now conn) (Name question) (clientIP conn))|].
  all: try (cbn; repeat split; fail).
  all: destruct (Get (upstreamPool s)) as [upstream pool];
       destruct (Exchange conn r upstream) as [response|err];
       [destruct (Z.eqb (Rcode response) RcodeSuccess
                  && (0 <? Z.of_nat (length (Answer response))))%bool|];
       cbn; repeat split.
Qed.

(** The forward path: what a request does that is neither answered from the
    cache nor blocked. *)
Lemma handle_forward (s : Server) (conn : Conn) (r : Msg) (question : Question)
    (rest : list Question) :
  Msg_Question r = question :: rest ->
  cacheGet TypeToString (cache s) (time.nanos (now conn)) (Name question) (Qtype question)
  = None ->
  (Filtering_Enabled (Filtering (cfg s))
   && filter.ShouldBlock (filter s) (now conn) (Name question) (clientIP conn))%bool = false ->
  (handleDNSRequest TypeToString s conn r).1.2
  = forwardedReply r (Exchange conn r (Get (upstreamPool s)).1)
  /\ upstreamPool (handleDNSRequest TypeToString s conn r).1.1 = (Get (upstreamPool s)).2
  /\ stats (handleDNSRequest TypeToString s conn r).1.1 = incTotal (stats s)
  /\ cache (handleDNSRequest TypeToString s conn r).1.1
     = match Exchange conn r (Get (upstreamPool s)).1 with
       | inl response =>
           if (Z.eqb (Rcode response) RcodeSuccess
               && (0 <? Z.of_nat (length (Answer response))))%bool
           then cacheSet TypeToString (cache s) (time.nanos (now conn))
                  (Name question) (Qtype question) response
           else cache s
       | inr _ => cache s
       end
  /\ List.filter (fun ev => match ev with EvExchange _ => true | _ => false end)
       (handleDNSRequest TypeToString s conn r).2
     = [EvExchange (Get (upstreamPool s)).1].
Proof.
  intros Hq Hget Hpass. unfold handleDNSRequest. cbv zeta. rewrite Hq.
  cbn [cache withStats cfg filter stats upstreamPool]. rewrite Hget.
  unfold forwardToUpstream, forwardedReply. cbv zeta.
  cbn [cache withStats cfg filter stats upstreamPool].
  destruct (Filtering_Enabled (Filtering (cfg s)));
    [cbn [andb] in Hpass; rewrite Hpass|].
  all: destruct (Get (upstreamPool s)) as [upstream pool]; cbn [fst snd];
       destruct (Exchange conn r upstream) as [response|err];
       [destruct (Z.eqb (Rcode response) RcodeSuccess
                  && (0 <? Z.of_nat (length (Answer response))))%bool|];
       cbn; repeat split.
Qed.

Lemma cacheable_test (response : Msg) :
  cacheable response ->
  (Z.eqb (Rcode response) RcodeSuccess && (0 <? Z.of_nat (length (Answer response))))%bool
  = true.
Proof.
  intros [Hr Ha]. apply andb_true_iff. split; [apply Z.eqb_eq; exact Hr|].
  apply Z.ltb_lt. destruct (Answer response); [contradiction | cbn [length]; lia].
Qed.

(** A forwarded success is stored under the key of the name as it arrived. *)
Lemma handle_stores_raw (s : Server) (conn : Conn) (r : Msg) (question : Question)
    (rest : list Question) (response : Msg) :
  Msg_Question r = question :: rest ->
  cacheGet TypeToString (cache s) (time.nanos (now conn)) (Name question) (Qtype question)
  = None ->
  (Filtering_Enabled (Filtering (cfg s))
   && filter.ShouldBlock (filter s) (now conn) (Name question) (clientIP conn))%bool = false ->
  Exchange conn r (Get (upstreamPool s)).1 = inl response ->
  cacheable response ->
  entries (cache (handleDNSRequest TypeToString s conn r).1.1) !! rawKey TypeToString question
  = Some {| response := response; timestamp := time.nanos (now conn) |}
  /\ ttl (cache (handleDNSRequest TypeToString s conn r).1.1) = ttl (cache s).
Proof.
  intros Hq Hget Hpass Hex Hok.
  destruct (handle_forward s conn r question rest Hq Hget Hpass) as (_ & _ & _ & Hc & _).
  rewrite Hc, Hex, (cacheable_test _ Hok). unfold cacheSet, makeKey, rawKey. cbv zeta.
  cbn [entries ttl]. rewrite lookup_insert_eq. split; [reflexivity|].
  destruct (cacheSize (cache s) >=? maxSize (cache s)); [|reflexivity].
  apply evictOldest_ttl.
Qed.

(** No request puts anything under another key: an entry found after the
    request was there before, or sits under the key of the name as it arrived
    and holds the upstream's answer to this request. *)
Lemma handle_new_entries (s : Server) (conn : Conn) (r : Msg) (key : string)
    (entry : cacheEntry) :
  entries (cache (handleDNSRequest TypeToString s conn r).1.1) !! key = Some entry ->
  entries (cache s) !! key = Some entry
  \/ exists question rest,
       Msg_Question r = question :: rest
       /\ key = rawKey TypeToString question
       /\ Exchange conn r (Get (upstreamPool s)).1 = inl (response entry)
       /\ timestamp entry = time.nanos (now conn).
Proof.
  intros Hl.
  destruct (handle_cache_change TypeToString s conn r)
    as [Hc | (question & rest & m & Hq & Hin & Hc)]; rewrite Hc in Hl; [left; exact Hl|].
  unfold cacheSet in Hl. cbv zeta in Hl. cbn [entries] in Hl.
  apply lookup_insert_Some in Hl. destruct Hl as [[<- <-] | [_ Hl]].
  - right. exists question, rest.
    destruct (handle_insertions TypeToString s conn r _ _ Hin) as (q' & rest' & _ & _ & Hex & _).
    repeat split; [exact Hq | exact Hex].
  - left. destruct (cacheSize (cache s) >=? maxSize (cache s));
      [apply (evictOldest_lookup TypeToString) in Hl|]; exact Hl.
Qed.

Lemma handle_ttl (s : Server) (conn : Conn) (r : Msg) :
  ttl (cache (handleDNSRequest TypeToString s conn r).1.1) = ttl (cache s).
Proof.
  destruct (handle_cache_change TypeToString s conn r)
    as [-> | (question & rest & m & _ & _ & ->)]; [reflexivity|].
  unfold cacheSet. cbv zeta. cbn [ttl].
  destruct (cacheSize (cache s) >=? maxSize (cache s)); [|reflexivity].
  apply evictOldest_ttl.
Qed.

(** Two requests for one record type, the first forwarded and stored: the
    second is answered from that entry when it spells the name the same way,
    and finds nothing of it when it spells the name differently. *)
Lemma second_request (s : Server) (conn1 conn2 : Conn) (r1 r2 : Msg) (q1 q2 : Question)
    (rest1 rest2 : list Question) (response : Msg) :
  Msg_Question r1 = q1 :: rest1 ->
  Msg_Question r2 = q2 :: rest2 ->
  Qtype q2 = Qtype q1 ->
  (forall entry, entries (cache s) !! rawKey TypeToString q1 = Some entry ->
                 ttl (cache s) < time.nanos (now conn1) - timestamp entry) ->
  (Filtering_Enabled (Filtering (cfg s))
   && filter.ShouldBlock (filter s) (now conn1) (Name q1) (clientIP conn1))%bool = false ->
  Exchange conn1 r1 (Get (upstreamPool s)).1 = inl response ->
  cacheable response ->
  time.nanos (now conn2) - time.nanos (now conn1) <= ttl (cache s) ->
  (Name q2 = Name q1 ->
   handleDNSRequest TypeToString (handleDNSRequest TypeToString s conn1 r1).1.1 conn2 r2
   = (withStats (handleDNSRequest TypeToString s conn1 r1).1.1
        (incCached (incTotal (stats (handleDNSRequest TypeToString s conn1 r1).1.1))),
      SetReply response r2,
      [EvCacheGet (rawKey TypeToString q2) true]))
  /\ (Name q2 <> Name q1 ->
      (forall entry, entries (cache s) !! rawKey TypeToString q2 = Some entry ->
                     ttl (cache s) < time.nanos (now conn2) - timestamp entry) ->
      CachedResponses
        (stats (handleDNSRequest TypeToString
                  (handleDNSRequest TypeToString s conn1 r1).1.1 conn2 r2).1.1)
      = CachedResponses (stats (handleDNSRequest TypeToString s conn1 r1).1.1)
      /\ (handleDNSRequest TypeToString
            (handleDNSRequest TypeToString s conn1 r1).1.1 conn2 r2).1.2
         = (handleDNSRequest TypeToString
              (ClearCache (handleDNSRequest TypeToString s conn1 r1).1.1) conn2 r2).1.2).
Proof.
  intros Hq1 Hq2 Ht Hstale Hpass Hex Hok Hage.
  pose proof (handle_stores_raw s conn1 r1 q1 rest1 response Hq1
                (cacheGet_stale _ _ _ Hstale) Hpass Hex Hok) as [Hstored Httl].
  split.
  - intros Hname. apply (proj2 (rawKey_inj q1 q2 Ht)) in Hname.
    rewrite <- Hname in Hstored.
    rewrite (handle_fresh_entry _ conn2 r2 q2 rest2 _ Hq2 Hstored); [reflexivity|].
    rewrite Httl. cbn [timestamp]. exact Hage.
  - intros Hname Hstale2.
    assert (Hmiss : cacheGet TypeToString (cache (handleDNSRequest TypeToString s conn1 r1).1.1)
                      (time.nanos (now conn2)) (Name q2) (Qtype q2) = None).
    { apply cacheGet_stale. intros entry Hl. rewrite Httl.
      apply handle_new_entries in Hl. destruct Hl as [Hl | (q & rest & Hq & Hkey & _)].
      - apply Hstale2. exact Hl.
      - exfalso. apply Hname. rewrite Hq1 in Hq. injection Hq as <- _.
        apply (rawKey_inj q1 q2 Ht). exact Hkey. }
    destruct (handle_miss _ conn2 r2 q2 rest2 Hq2 Hmiss) as (Hreply & _ & _ & Hcached).
    split; [exact Hcached | exact Hreply].
Qed.

End CacheKeys.

(** C7 (as amended).  The handler reads and writes the cache under the first
    question's name exactly as it arrived, followed by a colon and the type's
    mnemonic.  A fresh entry under that key answers the request; without one
    the request is handled as with an empty cache, whatever is stored under
    other keys; a forwarded success is stored under that key, and no request
    puts anything under another.  For one record type two names have the same
    key only when they are the same string, so the answer stored for one
    spelling is served to the same spelling and is not found under another:
    names that differ in letter case or in a trailing dot use different
    entries. *)
Theorem cache_key_is_raw_name (TypeToString : Z -> string) :
  (forall (s : dns.Server) (conn : dns.Conn) (r : dns.Msg) (ev : dns.Event) (key : string),
      In ev (dns.handleDNSRequest TypeToString s conn r).2 ->
      (exists hit, ev = dns.EvCacheGet key hit) \/ (exists m, ev = dns.EvCacheSet key m) ->
      exists question rest,
        dns.Msg_Question r = question :: rest
        /\ key = dns.Name question +:+ ":" +:+ TypeToString (dns.Qtype question))
  /\ (forall (d1 d2 : string) (qtype : Z),
         dns.makeKey TypeToString d1 qtype = dns.makeKey TypeToString d2 qtype <-> d1 = d2)
  /\ (forall (c : dns.DNSCache) (t t' : Z) (d1 d2 : string) (qtype : Z) (m : dns.Msg),
         d1 <> d2 ->
         dns.cacheGet TypeToString
           (dns.cacheSet TypeToString (dns.cacheClear c) t d1 qtype m) t' d2 qtype = None)
  /\ (forall (s : dns.Server) (conn : dns.Conn) (r : dns.Msg) (question : dns.Question)
             (rest : list dns.Question) (entry : dns.cacheEntry),
         dns.Msg_Question r = question :: rest ->
         dns.entries (dns.cache s) !! spec.rawKey TypeToString question = Some entry ->
         time.nanos (dns.now conn) - dns.timestamp entry <= dns.ttl (dns.cache s) ->
         dns.handleDNSRequest TypeToString s conn r
         = (dns.withStats s (dns.incCached (dns.incTotal (dns.stats s))),
            dns.SetReply (dns.response entry) r,
            [dns.EvCacheGet (spec.rawKey TypeToString question) true]))
  /\ (forall (s : dns.Server) (conn : dns.Conn) (r : dns.Msg) (question : dns.Question)
             (rest : list dns.Question),
         dns.Msg_Question r = question :: rest ->
         (forall entry,
             dns.entries (dns.cache s) !! spec.rawKey TypeToString question = Some entry ->
             dns.ttl (dns.cache s) < time.nanos (dns.now conn) - dns.timestamp entry) ->
         dns.CachedResponses (dns.stats (dns.handleDNSRequest TypeToString s conn r).1.1)
         = dns.CachedResponses (dns.stats s)
         /\ (dns.handleDNSRequest TypeToString s conn r).1.2
            = (dns.handleDNSRequest TypeToString (dns.ClearCache s) conn r).1.2)
  /\ (forall (s : dns.Server) (conn : dns.Conn) (r : dns.Msg) (question : dns.Question)
             (rest : list dns.Question) (response : dns.Msg),
         dns.Msg_Question r = question :: rest ->
         (forall entry,
             dns.entries (dns.cache s) !! spec.rawKey TypeToString question = Some entry ->
             dns.ttl (dns.cache s) < time.nanos (dns.now conn) - dns.timestamp entry) ->
         (config.Filtering_Enabled (config.Filtering (dns.cfg s))
          && filter.ShouldBlock (dns.filter s) (dns.now conn) (dns.Name question)
               (dns.clientIP conn))%bool = false ->
         dns.Exchange conn r (dns.Get (dns.upstreamPool s)).1 = inl response ->
         spec.cacheable response ->
         dns.entries (dns.cache (dns.handleDNSRequest TypeToString s conn r).1.1)
           !! spec.rawKey TypeToString question
         = Some {| dns.response := response; dns.timestamp := time.nanos (dns.now conn) |})
  /\ (forall (s : dns.Server) (conn : dns.Conn) (r : dns.Msg) (key : string)
             (entry : dns.cacheEntry),
         dns.entries (dns.cache (dns.handleDNSRequest TypeToString s conn r).1.1) !! key
         = Some entry ->
         dns.entries (dns.cache s) !! key = Some entry
         \/ exists question rest,
              dns.Msg_Question r = question :: rest
              /\ key = spec.rawKey TypeToString question
              /\ dns.Exchange conn r (dns.Get (dns.upstreamPool s)).1
                 = inl (dns.response entry)
              /\ dns.timestamp entry = time.nanos (dns.now conn))
  /\ (forall (s : dns.Server) (conn1 conn2 : dns.Conn) (r1 r2 : dns.Msg)
             (q1 q2 : dns.Question) (rest1 rest2 : list dns.Question) (response : dns.Msg),
         dns.Msg_Question r1 = q1 :: rest1 ->
         dns.Msg_Question r2 = q2 :: rest2 ->
         dns.Qtype q2 = dns.Qtype q1 ->
         (forall entry,
             dns.entries (dns.cache s) !! spec.rawKey TypeToString q1 = Some entry ->
             dns.ttl (dns.cache s) < time.nanos (dns.now conn1) - dns.timestamp entry) ->
         (config.Filtering_Enabled (config.Filtering (dns.cfg s))
          && filter.ShouldBlock (dns.filter s) (dns.now conn1) (dns.Name q1)
               (dns.clientIP conn1))%bool = false ->
         dns.Exchange conn1 r1 (dns.Get (dns.upstreamPool s)).1 = inl response ->
         spec.cacheable response ->
         time.nanos (dns.now conn2) - time.nanos (dns.now conn1) <= dns.ttl (dns.cache s) ->
         (dns.Name q2 = dns.Name q1 ->
          dns.handleDNSRequest TypeToString
            (dns.handleDNSRequest TypeToString s conn1 r1).1.1 conn2 r2
          = (dns.withStats (dns.handleDNSRequest TypeToString s conn1 r1).1.1
               (dns.incCached
                  (dns.incTotal (dns.stats (dns.handleDNSRequest TypeToString s conn1 r1).1.1))),
             dns.SetReply response r2,
             [dns.EvCacheGet (spec.rawKey TypeToString q2) true]))
         /\ (dns.Name q2 <> dns.Name q1 ->
             (forall entry,
                 dns.entries (dns.cache s) !! spec.rawKey TypeToString q2 = Some entry ->
                 dns.ttl (dns.cache s) < time.nanos (dns.now conn2) - dns.timestamp entry) ->
             dns.CachedResponses
               (dns.stats (dns.handleDNSRequest TypeToString
                             (dns.handleDNSRequest TypeToString s conn1 r1).1.1 conn2 r2).1.1)
             = dns.CachedResponses (dns.stats (dns.handleDNSRequest TypeToString s conn1 r1).1.1)
             /\ (dns.handleDNSRequest TypeToString
                   (dns.handleDNSRequest TypeToString s conn1 r1).1.1 conn2 r2).1.2
                = (dns.handleDNSRequest TypeToString
                     (dns.ClearCache (dns.handleDNSRequest TypeToString s conn1 r1).1.1)
                     conn2 r2).1.2)).
Proof.
  repeat apply conj.
  - intros s conn r ev key Hin Hev. exact (handle_keys TypeToString s conn r ev Hin key Hev).
  - apply makeKey_inj.
  - apply cacheGet_other_name.
  - apply handle_fresh_entry.
  - intros s conn r question rest Hq Hstale.
    destruct (handle_miss TypeToString s conn r question rest Hq
                (cacheGet_stale TypeToString _ _ _ Hstale)) as (Hreply & _ & _ & Hcached).
    split; [exact Hcached | exact Hreply].
  - intros s conn r question rest response Hq Hstale Hpass Hex Hok.
    exact (proj1 (handle_stores_raw TypeToString s conn r question rest response Hq
                    (cacheGet_stale TypeToString _ _ _ Hstale) Hpass Hex Hok)).
  - apply handle_new_entries.
  - apply second_request.
Qed.

(** C7 (as stated) fails: after [A example.com.] has been answered and
    cached, the same question spelled [Example.COM.] has the same normalized
    name, misses the cache, goes upstream again and is stored as a second
    entry. *)
Lemma cache_key_case_counterexample :
  filter.normalizeDomain "Example.COM." = filter.normalizeDomain "example.com."
  /\ dns.cacheSize (dns.cache examples.warmServer) = 1
  /\ (dns.handleDNSRequest dns.commonTypes examples.warmServer examples.client
        (examples.query "Example.COM." dns.TypeA)).2
     = [dns.EvCacheGet "Example.COM.:A" false;
        dns.EvShouldBlock "Example.COM." false;
        dns.EvExchange "1.1.1.1:53";
        dns.EvCacheSet "Example.COM.:A"
          (examples.upstreamAnswer (examples.query "Example.COM." dns.TypeA))]
  /\ dns.cacheSize
       (dns.cache (dns.handleDNSRequest dns.commonTypes examples.warmServer examples.client
                     (examples.query "Example.COM." dns.TypeA)).1.1) = 2.
Proof. repeat split; vm_compute; reflexivity. Qed.

(** The same spelling is served from the cache. *)
Example cache_hit_same_spelling :
  (dns.handleDNSRequest dns.commonTypes examples.warmServer examples.client
     (examples.query "example.com." dns.TypeA)).2
  = [dns.EvCacheGet "example.com.:A" true].
Proof. vm_compute. reflexivity. Qed.

(** Seen in the counters and the replies: the other spelling is counted as a
    miss and answered by the upstream, the same spelling is counted as a hit
    and answered with the stored response. *)
Example spelling_decides_cache_hit :
  dns.GetStats (dns.handleDNSRequest dns.commonTypes examples.warmServer examples.client
                  (examples.query "Example.COM." dns.TypeA)).1.1 = (2, 0, 0)
  /\ (dns.handleDNSRequest dns.commonTypes examples.warmServer examples.client
        (examples.query "Example.COM." dns.TypeA)).1.2
     = examples.upstreamAnswer (examples.query "Example.COM." dns.TypeA)
  /\ dns.GetStats (dns.handleDNSRequest dns.commonTypes examples.warmServer examples.client
                     (examples.query "example.com." dns.TypeA)).1.1 = (2, 0, 1)
  /\ (dns.handleDNSRequest dns.commonTypes examples.warmServer examples.client
        (examples.query "example.com." dns.TypeA)).1.2
     = dns.SetReply (examples.upstreamAnswer (examples.query "example.com." dns.TypeA))
         (examples.query "example.com." dns.TypeA).
Proof. repeat split; vm_compute; reflexivity. Qed.

(** ** Counters *)

Section Counters.
Import dns spec.

Variable TypeToString : Z -> string.

(** A request with a question starts with the cache lookup; one without has
    no event at all. *)
Lemma handle_first_event (s : Server) (conn : Conn) (r : Msg) :
  match Msg_Question r with
  | [] => (handleDNSRequest TypeToString s conn r).2 = []
  | _ :: _ => exists key hit rest,
      (handleDNSRequest TypeToString s conn r).2 = EvCacheGet key hit :: rest
  end.
Proof.
  unfold handleDNSRequest, forwardToUpstream, handleBlockedDomain. cbv zeta.
  repeat match goal with
         | |- context [match ?x with _ => _ end] => destruct x eqn:?
         end; cbn [snd]; eauto.
Qed.

Lemma serve_counts (reqs : list (Conn * Msg)) (s : Server) :
  0 <= TotalQueries (stats s) ->
  TotalQueries (stats s) + Z.of_nat (length reqs) < 2 ^ 64 ->
  TotalQueries (stats (serve TypeToString s reqs).1)
  = TotalQueries (stats s) + Z.of_nat (length reqs)
  /\ length (serve TypeToString s reqs).2 = length reqs
  /\ reachedCache (serve TypeToString s reqs).2 = withQuestion reqs.
Proof.
  revert s. induction reqs as [|[conn r] reqs IH]; intros s H0 Hlt.
  - simpl. repeat split. lia.
  - cbn [serve].
    pose proof (handle_total TypeToString s conn r) as Ht.
    pose proof (handle_first_event s conn r) as Hev.
    destruct (handleDNSRequest TypeToString s conn r) as [[s1 reply] evs].
    cbn [fst snd] in Ht, Hev.
    assert (Ht1 : TotalQueries (stats s1) = TotalQueries (stats s) + 1).
    { rewrite Ht. unfold uint64. apply Z.mod_small. cbn [length] in Hlt. lia. }
    specialize (IH s1). destruct (serve TypeToString s1 reqs) as [s2 outs].
    cbn [fst snd length] in *.
    destruct IH as (IH1 & IH2 & IH3); [lia | lia |].
    repeat split.
    + lia.
    + lia.
    + unfold reachedCache, withQuestion in *. cbn [List.filter fst snd].
      destruct (Msg_Question r).
      * rewrite Hev. exact IH3.
      * destruct Hev as (key & hit & rest & ->). cbn [length]. lia.
Qed.

End Counters.

(** C10.  Every message the handler receives adds one to the total-queries
    counter (an unsigned 64-bit addition), the messages without a question
    included: those are answered with the empty reply and touch nothing else
    -- no cache lookup, no filter decision, no upstream exchange, no other
    counter.  From a fresh server the counter is the number of messages
    received, which is at least, and with question-less messages more than,
    the number of requests that reached the cache lookup. *)
Theorem every_message_counted (TypeToString : Z -> string) :
  (forall (s : dns.Server) (conn : dns.Conn) (r : dns.Msg),
      dns.TotalQueries (dns.stats (dns.handleDNSRequest TypeToString s conn r).1.1)
      = dns.uint64 (dns.TotalQueries (dns.stats s) + 1))
  /\ (forall (s : dns.Server) (conn : dns.Conn) (r : dns.Msg),
         0 <= dns.TotalQueries (dns.stats s) < 2 ^ 64 - 1 ->
         dns.TotalQueries (dns.stats (dns.handleDNSRequest TypeToString s conn r).1.1)
         = dns.TotalQueries (dns.stats s) + 1)
  /\ (forall (s : dns.Server) (conn : dns.Conn) (r : dns.Msg),
         dns.Msg_Question r = [] ->
         dns.handleDNSRequest TypeToString s conn r
         = ({| dns.cfg := dns.cfg s; dns.filter := dns.filter s; dns.cache := dns.cache s;
               dns.upstreamPool := dns.upstreamPool s;
               dns.stats :=
                 {| dns.TotalQueries := dns.uint64 (dns.TotalQueries (dns.stats s) + 1);
                    dns.BlockedQueries := dns.BlockedQueries (dns.stats s);
                    dns.CachedResponses := dns.CachedResponses (dns.stats s);
                    dns.StartTime := dns.StartTime (dns.stats s) |} |},
            spec.emptyReply r, []))
  /\ (forall (cfg : config.Config) (e : filter.Engine) (start : Z)
             (reqs : list (dns.Conn * dns.Msg)),
         Z.of_nat (length reqs) < 2 ^ 64 ->
         dns.TotalQueries (dns.stats (dns.serve TypeToString (dns.NewServer cfg e start) reqs).1)
         = Z.of_nat (length reqs)
         /\ spec.reachedCache (dns.serve TypeToString (dns.NewServer cfg e start) reqs).2
            = spec.withQuestion reqs
         /\ (spec.withQuestion reqs <= length reqs)%nat).
Proof.
  repeat apply conj.
  - apply handle_total.
  - intros s conn r H. rewrite handle_total. unfold dns.uint64. apply Z.mod_small. lia.
  - intros s conn r Hq. rewrite (handle_no_question TypeToString s conn r Hq). reflexivity.
  - intros cfg e start reqs Hlt.
    destruct (serve_counts TypeToString reqs (dns.NewServer cfg e start))
      as (H1 & _ & H3); cbn; try lia.
    repeat split.
    + rewrite H1. cbn. lia.
    + exact H3.
    + unfold spec.withQuestion. apply List.filter_length_le.
Qed.

(** A run of three messages, one of them without a question: three are
    counted, two reached the cache lookup. *)
Example total_exceeds_processed :
  let out := dns.serve dns.commonTypes examples.freshServer
               [(examples.client, examples.query "example.com." dns.TypeA);
                (examples.client, examples.noQuestion);
                (examples.client, examples.query "example.com." dns.TypeA)] in
  dns.TotalQueries (dns.stats out.1) = 3
  /\ dns.CachedResponses (dns.stats out.1) = 1
  /\ spec.reachedCache out.2 = 2%nat
  /\ nth 1 (map fst out.2) dns.newMsg = spec.emptyReply examples.noQuestion.
Proof. repeat split; vm_compute; reflexivity. Qed.

(** * Further properties of the code *)

(** ** Strings: slices, prefixes and suffixes *)

Lemma append_cons (c : ascii) (a b : string) : String c a +:+ b = String c (a +:+ b).
Proof. reflexivity. Qed.

Lemma slice_to_app (p t : string) : GoStrings.slice_to (String.length p) (p +:+ t) = p.
Proof.
  induction p as [|c p IH]; [destruct t; reflexivity|].
  change (String c p +:+ t) with (String c (p +:+ t)).
  cbn [String.length GoStrings.slice_to]. rewrite IH. reflexivity.
Qed.

Lemma slice_from_app (p t : string) : GoStrings.slice_from (String.length p) (p +:+ t) = t.
Proof.
  induction p as [|c p IH]; [reflexivity|].
  change (String c p +:+ t) with (String c (p +:+ t)).
  cbn [String.length GoStrings.slice_from]. exact IH.
Qed.

Lemma slice_to_from (n : nat) (s : string) :
  GoStrings.slice_to n s +:+ GoStrings.slice_from n s = s.
Proof.
  revert s. induction n as [|n IH]; intros [|c s]; try reflexivity.
  cbn [GoStrings.slice_to GoStrings.slice_from].
  change (String c (GoStrings.slice_to n s) +:+ GoStrings.slice_from n s)
    with (String c (GoStrings.slice_to n s +:+ GoStrings.slice_from n s)).
  rewrite IH. reflexivity.
Qed.

Lemma length_slice_to (n : nat) (s : string) :
  (n <= String.length s)%nat -> String.length (GoStrings.slice_to n s) = n.
Proof.
  revert s. induction n as [|n IH]; intros [|c s] H; simpl in *; try lia.
  rewrite IH; lia.
Qed.

Lemma HasPrefix_iff (s p : string) :
  GoStrings.HasPrefix s p = true <-> exists t, s = p +:+ t.
Proof.
  unfold GoStrings.HasPrefix. rewrite andb_true_iff, Nat.leb_le, String.eqb_eq. split.
  - intros [_ H]. exists (GoStrings.slice_from (String.length p) s).
    rewrite <- H at 1. symmetry. apply slice_to_from.
  - intros [t ->]. rewrite length_append, slice_to_app. split; [lia | reflexivity].
Qed.

Lemma HasSuffix_iff (s suffix : string) :
  GoStrings.HasSuffix s suffix = true <-> exists p, s = p +:+ suffix.
Proof.
  unfold GoStrings.HasSuffix. rewrite andb_true_iff, Nat.leb_le, String.eqb_eq. split.
  - intros [_ H]. exists (GoStrings.slice_to (String.length s - String.length suffix) s).
    rewrite <- H at 2. symmetry. apply slice_to_from.
  - intros [p ->]. rewrite length_append.
    replace (String.length p + String.length suffix - String.length suffix)%nat
      with (String.length p) by lia.
    rewrite slice_from_app. split; [lia | reflexivity].
Qed.

Lemma TrimPrefix_app (p t : string) : GoStrings.TrimPrefix (p +:+ t) p = t.
Proof.
  unfold GoStrings.TrimPrefix.
  assert (H : GoStrings.HasPrefix (p +:+ t) p = true) by (apply HasPrefix_iff; eauto).
  rewrite H. apply slice_from_app.
Qed.

(** X1.  A name is whitelisted exactly when the whitelist holds it literally,
    or holds an entry ["*." ++ suffix] such that the name ends with [suffix]
    as a string: the test looks at bytes, not at labels, so the entry
    [*.example.com] also covers [example.com] and [notexample.com]. *)
Theorem isWhitelisted_iff (e : filter.Engine) (d : string) :
  filter.isWhitelisted e d = true <->
  mget (filter.whitelist e) d = true
  \/ exists suffix pre,
       is_Some (filter.whitelist e !! ("*." +:+ suffix)) /\ d = pre +:+ suffix.
Proof.
  split.
  - unfold filter.isWhitelisted. destruct (mget (filter.whitelist e) d); [auto|].
    intros H. right. apply existsb_exists in H. destruct H as (w & Hin & Hw).
    destruct (GoStrings.HasPrefix w "*.") eqn:Hp; [|discriminate].
    apply HasPrefix_iff in Hp. destruct Hp as [suffix ->].
    rewrite TrimPrefix_app in Hw. apply HasSuffix_iff in Hw. destruct Hw as [pre ->].
    exists suffix, pre. split; [|reflexivity].
    apply elem_of_dom, elem_of_keys, list_elem_of_In. exact Hin.
  - intros [H | (suffix & pre & Hkey & ->)].
    + unfold filter.isWhitelisted. rewrite H. reflexivity.
    + apply (wildcard_entry_whitelists e suffix); [exact Hkey|].
      apply HasSuffix_iff. eauto.
Qed.

Example wildcard_covers_lookalike :
  filter.isWhitelisted examples.wildcard "notexample.com" = true.
Proof. vm_compute. reflexivity. Qed.

(** ** The engine: mutators and the hierarchical match *)

(** Whatever the schedule says, a name that is not empty, not whitelisted and
    has a blocked suffix is blocked. *)
Lemma suffixBlocked_blocks (e : filter.Engine) (now : time.Time) (N client : string) :
  filter.normalizeDomain N <> "" ->
  filter.isWhitelisted e (filter.normalizeDomain N) = false ->
  spec.suffixBlocked e (filter.normalizeDomain N) ->
  filter.ShouldBlock e now N client = true.
Proof.
  intros Hne Hw Hs. apply lookups_iff in Hs.
  unfold filter.ShouldBlock. cbv zeta. apply String.eqb_neq in Hne. rewrite Hne, Hw.
  destruct (_ && _ && _)%bool; [reflexivity|].
  unfold spec.labels in Hs.
  destruct (mget (filter.customBlocked e) _); [reflexivity|].
  destruct (mget (filter.blockedDomains e) _); [reflexivity|].
  destruct Hs as [H | [H | H]]; congruence.
Qed.

Lemma Split_app (a b : string) :
  GoStrings.Split (a +:+ String "." b) "." = (GoStrings.Split a "." ++ GoStrings.Split b ".")%list.
Proof.
  induction a as [|c a IH]; [reflexivity|].
  change (String c a +:+ String "." b) with (String c (a +:+ String "." b)).
  cbn [GoStrings.Split]. rewrite IH.
  pose proof (Split_nonempty a ".") as Hne.
  destruct (Ascii.eqb c "."); [reflexivity|].
  destruct (GoStrings.Split a ".") as [|piece rest]; [congruence | reflexivity].
Qed.

(** A name [pre.d] has [d] among the suffixes of its label list. *)
Lemma suffix_of_subdomain (e : filter.Engine) (pre d : string) :
  spec.inSet (filter.customBlocked e) d \/ spec.inSet (filter.blockedDomains e) d ->
  spec.suffixBlocked e (pre +:+ "." +:+ d).
Proof.
  intros H. exists (length (GoStrings.Split pre ".")).
  unfold spec.labels. change ("." +:+ d) with (String "." d).
  rewrite Split_app, length_app, drop_app_length, Join_Split.
  split; [|exact H].
  pose proof (Split_nonempty d ".") as Hne.
  destruct (GoStrings.Split d "."); [congruence | simpl; lia].
Qed.

Lemma subdomain_nonempty (pre d : string) : pre +:+ "." +:+ d <> "".
Proof.
  intros H. apply (f_equal String.length) in H.
  rewrite !length_append in H. simpl in H. lia.
Qed.

(** X2.  After [AddToWhitelist(D)], every name with the same normalized form
    as [D] is let through, whatever the block lists and the schedule say. *)
Theorem AddToWhitelist_unblocks (e : filter.Engine) (now : time.Time) (D N client : string) :
  filter.normalizeDomain N = filter.normalizeDomain D ->
  filter.ShouldBlock (filter.AddToWhitelist e D) now N client = false.
Proof.
  intros Heq. apply whitelist_wins. rewrite Heq.
  unfold filter.isWhitelisted, filter.AddToWhitelist. cbn [filter.whitelist].
  unfold mget, mset. rewrite lookup_insert_eq. reflexivity.
Qed.

Lemma AddToWhitelist_unblocks_witness :
  filter.ShouldBlock (filter.AddToWhitelist examples.doubleclick "DoubleClick.net.")
    examples.monday_noon "doubleclick.net" "192.168.1.10" = false.
Proof.
  apply (AddToWhitelist_unblocks examples.doubleclick examples.monday_noon
           "DoubleClick.net." "doubleclick.net" "192.168.1.10").
  reflexivity.
Defined.

(** X3.  A blocked parent blocks its subdomains: when [d] is in the custom or
    the remote set, every name that normalizes to [pre.d] is blocked unless it
    is whitelisted, with or without a schedule. *)
Theorem parent_blocks_subdomains (e : filter.Engine) (now : time.Time)
    (N client pre d : string) :
  filter.normalizeDomain N = pre +:+ "." +:+ d ->
  spec.inSet (filter.customBlocked e) d \/ spec.inSet (filter.blockedDomains e) d ->
  filter.isWhitelisted e (filter.normalizeDomain N) = false ->
  filter.ShouldBlock e now N client = true.
Proof.
  intros Heq Hin Hw. apply suffixBlocked_blocks; [| exact Hw |]; rewrite Heq.
  - apply subdomain_nonempty.
  - apply suffix_of_subdomain. exact Hin.
Qed.

Lemma parent_blocks_subdomains_witness :
  filter.ShouldBlock examples.doubleclick examples.monday_noon
    "Tracker.Ads.DoubleClick.net." "192.168.1.10" = true.
Proof.
  apply (parent_blocks_subdomains examples.doubleclick examples.monday_noon
           "Tracker.Ads.DoubleClick.net." "192.168.1.10" "tracker.ads" "doubleclick.net").
  - reflexivity.
  - right. vm_compute. reflexivity.
  - vm_compute. reflexivity.
Defined.

(** X4.  After [AddToCustomBlocklist(D)] with a non-empty normalized [D],
    the name itself and every dot-separated subdomain of it are blocked at
    once, unless whitelisted. *)
Theorem AddToCustomBlocklist_blocks (e : filter.Engine) (now : time.Time)
    (D N client : string) :
  filter.normalizeDomain D <> "" ->
  filter.normalizeDomain N = filter.normalizeDomain D
  \/ (exists pre, filter.normalizeDomain N = pre +:+ "." +:+ filter.normalizeDomain D) ->
  filter.isWhitelisted e (filter.normalizeDomain N) = false ->
  filter.ShouldBlock (filter.AddToCustomBlocklist e D) now N client = true.
Proof.
  intros Hne Hname Hw.
  assert (Hin : spec.inSet (filter.customBlocked (filter.AddToCustomBlocklist e D))
                  (filter.normalizeDomain D)).
  { unfold spec.inSet, filter.AddToCustomBlocklist, mget, mset. cbn [filter.customBlocked].
    rewrite lookup_insert_eq. reflexivity. }
  apply suffixBlocked_blocks.
  - destruct Hname as [-> | [pre ->]]; [exact Hne | apply subdomain_nonempty].
  - exact Hw.
  - destruct Hname as [-> | [pre ->]].
    + apply lookups_iff. left. exact Hin.
    + apply suffix_of_subdomain. left. exact Hin.
Qed.

Lemma AddToCustomBlocklist_blocks_witness :
  filter.ShouldBlock (filter.AddToCustomBlocklist (filter.newEngine examples.plain) "Foo.Test.")
    examples.monday_noon "www.foo.test." "192.168.1.10" = true.
Proof.
  apply (AddToCustomBlocklist_blocks (filter.newEngine examples.plain) examples.monday_noon
           "Foo.Test." "www.foo.test." "192.168.1.10").
  - vm_compute. discriminate.
  - right. exists "www". reflexivity.
  - vm_compute. reflexivity.
Defined.

(** X5.  Adding the same domain twice, to the custom blocklist or to the
    whitelist, leaves the engine as adding it once. *)
Theorem Add_idempotent (e : filter.Engine) (d : string) :
  filter.AddToCustomBlocklist (filter.AddToCustomBlocklist e d) d
  = filter.AddToCustomBlocklist e d
  /\ filter.AddToWhitelist (filter.AddToWhitelist e d) d = filter.AddToWhitelist e d.
Proof.
  unfold filter.AddToCustomBlocklist, filter.AddToWhitelist, mset.
  cbn [filter.cfg filter.blockedDomains filter.customBlocked filter.whitelist].
  rewrite !insert_insert_eq. split; reflexivity.
Qed.

(** X6.  Removing a custom domain that was added and was not there before
    gives the engine back; removing a domain that is not in the custom set
    changes nothing. *)
Theorem Remove_after_Add (e : filter.Engine) (d : string) :
  filter.customBlocked e !! filter.normalizeDomain d = None ->
  filter.RemoveFromCustomBlocklist (filter.AddToCustomBlocklist e d) d = e
  /\ filter.RemoveFromCustomBlocklist e d = e.
Proof.
  intros Hnone. destruct e as [c b cu w].
  unfold filter.RemoveFromCustomBlocklist, filter.AddToCustomBlocklist, mset.
  cbn [filter.cfg filter.blockedDomains filter.customBlocked filter.whitelist] in *.
  rewrite delete_insert_eq, delete_id by exact Hnone. split; reflexivity.
Qed.

Lemma Remove_after_Add_witness :
  filter.RemoveFromCustomBlocklist
    (filter.AddToCustomBlocklist examples.doubleclick "ads.example") "ads.example"
  = examples.doubleclick
  /\ filter.RemoveFromCustomBlocklist examples.doubleclick "ads.example" = examples.doubleclick.
Proof.
  apply (Remove_after_Add examples.doubleclick "ads.example").
  vm_compute. reflexivity.
Defined.

(** X7.  [RemoveFromCustomBlocklist] only touches the custom set: a name whose
    normalized form (or a parent of it) is in the remote set stays blocked
    after any removal. *)
Theorem Remove_keeps_remote_block (e : filter.Engine) (now : time.Time)
    (D N client : string) :
  filter.normalizeDomain N <> "" ->
  filter.isWhitelisted e (filter.normalizeDomain N) = false ->
  (exists i : nat,
      (i < length (spec.labels (filter.normalizeDomain N)))%nat
      /\ spec.inSet (filter.blockedDomains e)
           (GoStrings.Join (drop i (spec.labels (filter.normalizeDomain N))) ".")) ->
  filter.ShouldBlock (filter.RemoveFromCustomBlocklist e D) now N client = true.
Proof.
  intros Hne Hw (i & Hi & Hin). apply suffixBlocked_blocks; [exact Hne | exact Hw |].
  exists i. split; [exact Hi|]. right. exact Hin.
Qed.

Lemma Remove_keeps_remote_block_witness :
  filter.ShouldBlock (filter.RemoveFromCustomBlocklist examples.doubleclick "doubleclick.net")
    examples.monday_noon "doubleclick.net" "192.168.1.10" = true.
Proof.
  apply (Remove_keeps_remote_block examples.doubleclick examples.monday_noon
           "doubleclick.net" "doubleclick.net" "192.168.1.10").
  - vm_compute. discriminate.
  - vm_compute. reflexivity.
  - exists 0%nat. split; [vm_compute; lia | vm_compute; reflexivity].
Defined.

(** ** Normalization and letter case *)

Lemma isSpace_lowerByte (c : ascii) : GoStrings.isSpace (GoStrings.lowerByte c) = GoStrings.isSpace c.
Proof. destruct c as [[] [] [] [] [] [] [] []]; vm_compute; reflexivity. Qed.

Lemma lowerByte_idem (c : ascii) : GoStrings.lowerByte (GoStrings.lowerByte c) = GoStrings.lowerByte c.
Proof. destruct c as [[] [] [] [] [] [] [] []]; vm_compute; reflexivity. Qed.

Lemma ToLower_idem (s : string) : GoStrings.ToLower (GoStrings.ToLower s) = GoStrings.ToLower s.
Proof.
  induction s as [|c s IH]; [reflexivity|].
  cbn [GoStrings.ToLower]. rewrite lowerByte_idem, IH. reflexivity.
Qed.

Lemma TrimLeftSpace_ToLower (s : string) :
  GoStrings.TrimLeftSpace (GoStrings.ToLower s) = GoStrings.ToLower (GoStrings.TrimLeftSpace s).
Proof.
  induction s as [|c s IH]; [reflexivity|].
  cbn [GoStrings.ToLower GoStrings.TrimLeftSpace]. rewrite isSpace_lowerByte.
  destruct (GoStrings.isSpace c); [exact IH | reflexivity].
Qed.

Lemma TrimRightSpace_ToLower (s : string) :
  GoStrings.TrimRightSpace (GoStrings.ToLower s) = GoStrings.ToLower (GoStrings.TrimRightSpace s).
Proof.
  induction s as [|c s IH]; [reflexivity|].
  cbn [GoStrings.ToLower GoStrings.TrimRightSpace]. rewrite IH, isSpace_lowerByte.
  destruct (GoStrings.TrimRightSpace s) as [|a t]; cbn [GoStrings.ToLower].
  - destruct (GoStrings.isSpace c); reflexivity.
  - reflexivity.
Qed.

Lemma normalizeDomain_ToLower (N : string) :
  filter.normalizeDomain (GoStrings.ToLower N) = filter.normalizeDomain N.
Proof.
  unfold filter.normalizeDomain, GoStrings.TrimSpace.
  rewrite TrimLeftSpace_ToLower, TrimRightSpace_ToLower, ToLower_idem. reflexivity.
Qed.

(** X8.  The decision does not depend on the letter case of the queried name
    nor on the client address: a name and its lower-case form get the same
    answer for any two clients. *)
Theorem ShouldBlock_ignores_case_and_client (e : filter.Engine) (now : time.Time)
    (N client1 client2 : string) :
  filter.ShouldBlock e now (GoStrings.ToLower N) client1 = filter.ShouldBlock e now N client2.
Proof. unfold filter.ShouldBlock. rewrite normalizeDomain_ToLower. reflexivity. Qed.

(** ** The schedule *)

Lemma leb_trans (a b c : string) :
  String.leb a b = true -> String.leb b c = true -> String.leb a c = true.
Proof.
  intros H1 H2. apply Is_true_true.
  change (String.le a c). transitivity b; apply Is_true_true; assumption.
Qed.

(** X9.  A rule whose start time is after its end time (a window meant to
    run over midnight, such as 22:00 to 06:00) matches at no time of any day,
    so a schedule made of such rules never restricts. *)
Theorem overnight_rule_never_matches (e : filter.Engine) (now : time.Time) :
  (forall rule, In rule (config.Rules (config.Schedule (config.Filtering (filter.cfg e)))) ->
                String.leb (config.StartTime rule) (config.EndTime rule) = false) ->
  (forall rule day t,
      In rule (config.Rules (config.Schedule (config.Filtering (filter.cfg e)))) ->
      filter.ruleMatches rule day t = false)
  /\ filter.isInAllowedTime e now = true.
Proof.
  intros Hover.
  assert (Hno : forall rule day t,
             In rule (config.Rules (config.Schedule (config.Filtering (filter.cfg e)))) ->
             filter.ruleMatches rule day t = false).
  { intros rule day t Hin. specialize (Hover rule Hin).
    unfold filter.ruleMatches, GoStrings.ge, GoStrings.le.
    destruct (filter.ruleDayMatch rule day); [|reflexivity]. cbn [andb].
    destruct (String.leb (config.StartTime rule) t) eqn:H1; [|reflexivity].
    destruct (String.leb t (config.EndTime rule)) eqn:H2; [|reflexivity].
    rewrite (leb_trans _ _ _ H1 H2) in Hover. discriminate. }
  split; [exact Hno|].
  unfold filter.isInAllowedTime. cbv zeta.
  destruct (config.Rules _) as [|rule0 rest] eqn:E; [reflexivity|].
  apply negb_true_iff. apply not_true_is_false. intros H.
  apply existsb_exists in H. destruct H as (rule & Hin & Hm).
  rewrite Hno in Hm by exact Hin. discriminate.
Qed.

Lemma overnight_rule_never_matches_witness :
  (forall rule day t,
      In rule (config.Rules (config.Schedule (config.Filtering
                 (filter.cfg (examples.scheduled [examples.nightRule]))))) ->
      filter.ruleMatches rule day t = false)
  /\ filter.isInAllowedTime (examples.scheduled [examples.nightRule]) examples.monday_2300 = true.
Proof.
  apply (overnight_rule_never_matches (examples.scheduled [examples.nightRule])
           examples.monday_2300).
  intros rule [<- | []]. reflexivity.
Defined.

Lemma isInAllowedTime_false_iff (e : filter.Engine) (now : time.Time) :
  filter.isInAllowedTime e now = false <->
  exists rule,
    In rule (config.Rules (config.Schedule (config.Filtering (filter.cfg e))))
    /\ filter.ruleMatches rule
         (GoStrings.ToLower (time.Weekday_String (time.weekday now)))
         (time.Format_15_04 now) = true.
Proof.
  unfold filter.isInAllowedTime. cbv zeta.
  destruct (config.Rules _) as [|rule0 rest] eqn:E.
  - split; [discriminate | intros (rule & [] & _)].
  - rewrite negb_false_iff, existsb_exists. reflexivity.
Qed.

(** X10.  With the schedule enabled, a name that is neither empty nor
    whitelisted is blocked exactly when the instant lies in the window of some
    rule and the first rule of the list is strict, or else when the ordinary
    lookups block it; outside every window the schedule changes nothing.  An
    instant lies in a window when some rule lists the weekday (compared in
    lower case) and has start <= HH:MM <= end as strings. *)
Theorem ShouldBlock_with_schedule (e : filter.Engine) (now : time.Time) (N client : string) :
  config.Schedule_Enabled (config.Schedule (config.Filtering (filter.cfg e))) = true ->
  filter.normalizeDomain N <> "" ->
  filter.isWhitelisted e (filter.normalizeDomain N) = false ->
  filter.ShouldBlock e now N client = true <->
  ((exists rule,
       In rule (config.Rules (config.Schedule (config.Filtering (filter.cfg e))))
       /\ filter.ruleDayMatch rule
            (GoStrings.ToLower (time.Weekday_String (time.weekday now))) = true
       /\ String.leb (config.StartTime rule) (time.Format_15_04 now) = true
       /\ String.leb (time.Format_15_04 now) (config.EndTime rule) = true)
   /\ exists rule0 rest,
        config.Rules (config.Schedule (config.Filtering (filter.cfg e))) = rule0 :: rest
        /\ config.StrictMode rule0 = true)
  \/ spec.suffixBlocked e (filter.normalizeDomain N).
Proof.
  intros Hen Hne Hw.
  assert (Hwin : filter.isInAllowedTime e now = false <->
                 exists rule,
                   In rule (config.Rules (config.Schedule (config.Filtering (filter.cfg e))))
                   /\ filter.ruleDayMatch rule
                        (GoStrings.ToLower (time.Weekday_String (time.weekday now))) = true
                   /\ String.leb (config.StartTime rule) (time.Format_15_04 now) = true
                   /\ String.leb (time.Format_15_04 now) (config.EndTime rule) = true).
  { rewrite isInAllowedTime_false_iff. unfold filter.ruleMatches, GoStrings.ge, GoStrings.le.
    split; intros (rule & Hin & H); exists rule; (split; [exact Hin|]).
    - apply andb_true_iff in H. destruct H as [H1 H2].
      apply andb_true_iff in H2. tauto.
    - destruct H as (H1 & H2 & H3). rewrite H1, H2, H3. reflexivity. }
  destruct (filter.isInAllowedTime e now) eqn:Ha.
  - (* outside every window *)
    assert (Hplain : filter.ShouldBlock e now N client = true <->
                     spec.suffixBlocked e (filter.normalizeDomain N)).
    { rewrite <- lookups_iff. unfold filter.ShouldBlock. cbv zeta.
      apply String.eqb_neq in Hne. rewrite Hne, Hw, Hen, Ha. cbn [andb negb].
      unfold spec.labels.
      destruct (mget (filter.customBlocked e) _); [intuition|].
      destruct (mget (filter.blockedDomains e) _); [intuition|].
      split; [tauto|]. intros [H | [H | H]]; congruence. }
    rewrite Hplain. split; [tauto|]. intros [[Hr _] | H]; [|exact H].
    apply Hwin in Hr. discriminate.
  - rewrite (ShouldBlock_restricted e now N client Hen Ha Hne Hw).
    assert (Hr := proj1 Hwin eq_refl). tauto.
Qed.

Lemma ShouldBlock_with_schedule_witness :
  filter.ShouldBlock (examples.scheduled [examples.schoolHours; examples.eveningRestriction])
    examples.monday_2100 "example.org" "192.168.1.10" = true <->
  ((exists rule,
       In rule (config.Rules (config.Schedule (config.Filtering
                  (filter.cfg (examples.scheduled
                                 [examples.schoolHours; examples.eveningRestriction])))))
       /\ filter.ruleDayMatch rule
            (GoStrings.ToLower (time.Weekday_String (time.weekday examples.monday_2100))) = true
       /\ String.leb (config.StartTime rule) (time.Format_15_04 examples.monday_2100) = true
       /\ String.leb (time.Format_15_04 examples.monday_2100) (config.EndTime rule) = true)
   /\ exists rule0 rest,
        config.Rules (config.Schedule (config.Filtering
            (filter.cfg (examples.scheduled
                           [examples.schoolHours; examples.eveningRestriction]))))
        = rule0 :: rest
        /\ config.StrictMode rule0 = true)
  \/ spec.suffixBlocked (examples.scheduled [examples.schoolHours; examples.eveningRestriction])
       (filter.normalizeDomain "example.org").
Proof.
  apply (ShouldBlock_with_schedule
           (examples.scheduled [examples.schoolHours; examples.eveningRestriction])
           examples.monday_2100 "example.org" "192.168.1.10").
  - reflexivity.
  - vm_compute. discriminate.
  - vm_compute. reflexivity.
Defined.

(** ** Ingestion, continued *)

Lemma mergeKeys_idem (src dst : gmap string bool) :
  filter.mergeKeys src (filter.mergeKeys src dst) = filter.mergeKeys src dst.
Proof.
  apply map_eq. intros d. rewrite !lookup_mergeKeys.
  destruct (decide (d ∈ dom src)); reflexivity.
Qed.

(** X11.  Reloading the custom files twice from the same files gives the same
    engine and the same count as reloading once. *)
Theorem ReloadCustomBlocklists_idempotent (e : filter.Engine) (w : filter.World) :
  filter.ReloadCustomBlocklists (filter.ReloadCustomBlocklists e w).1 w
  = filter.ReloadCustomBlocklists e w.
Proof.
  rewrite (ReloadCustomBlocklists_eq e w). cbn [fst].
  rewrite ReloadCustomBlocklists_eq. unfold spec.customDomains, spec.matchedFiles.
  cbn [filter.cfg filter.blockedDomains filter.customBlocked filter.whitelist].
  rewrite mergeKeys_idem. reflexivity.
Qed.

(** X12.  [UpdateBlocklists] replaces the remote set: what it installs does
    not depend on the remote set it finds, it leaves the custom set and the
    whitelist alone, and running it again on the same sources changes
    nothing. *)
Theorem UpdateBlocklists_replaces (e : filter.Engine) (w : filter.World)
    (old : gmap string bool) :
  filter.blockedDomains
    (filter.UpdateBlocklists
       {| filter.cfg := filter.cfg e; filter.blockedDomains := old;
          filter.customBlocked := filter.customBlocked e;
          filter.whitelist := filter.whitelist e |} w).1
  = filter.blockedDomains (filter.UpdateBlocklists e w).1
  /\ filter.customBlocked (filter.UpdateBlocklists e w).1 = filter.customBlocked e
  /\ filter.whitelist (filter.UpdateBlocklists e w).1 = filter.whitelist e
  /\ filter.UpdateBlocklists (filter.UpdateBlocklists e w).1 w = filter.UpdateBlocklists e w.
Proof.
  rewrite (UpdateBlocklists_eq e w). cbn [fst].
  rewrite !UpdateBlocklists_eq. unfold spec.customDomains, spec.fetchedDomains, spec.matchedFiles.
  cbn [fst filter.cfg filter.blockedDomains filter.customBlocked filter.whitelist].
  repeat split.
Qed.

Lemma size_asSet_le (l : list string) : (size (spec.asSet l) <= length l)%nat.
Proof.
  unfold spec.asSet. induction l as [|x l IH].
  { change (list_to_set [] : gset string) with (∅ : gset string).
    rewrite size_empty. simpl. lia. }
  change (list_to_set (x :: l) : gset string) with ({[x]} ∪ list_to_set l : gset string).
  cbn [length].
  destruct (decide (x ∈ (list_to_set l : gset string))) as [Hin|Hin].
  - replace ({[x]} ∪ list_to_set l : gset string) with (list_to_set l : gset string); [lia|].
    apply set_eq. intros y. rewrite elem_of_union, elem_of_singleton.
    split; [auto | intros [->|H]; assumption].
  - rewrite size_union, size_singleton; [lia|].
    intros y Hy1 Hy2. apply elem_of_singleton in Hy1. subst. contradiction.
Qed.

(** X13.  The custom files never bring in the empty domain, so a reload
    leaves the empty string in or out of the custom set as it was; and the
    count a reload returns is at least the number of distinct domains it
    loaded (entries that repeat a domain are counted each time). *)
Theorem ReloadCustomBlocklists_count_and_empty (e : filter.Engine) (w : filter.World) :
  mget (filter.customBlocked (filter.ReloadCustomBlocklists e w).1) ""
  = mget (filter.customBlocked e) ""
  /\ ~ In "" (spec.customDomains e w)
  /\ Z.of_nat (size (spec.asSet (spec.customDomains e w)))
     <= (filter.ReloadCustomBlocklists e w).2.1.
Proof.
  assert (Hno : ~ In "" (spec.customDomains e w)).
  { intros H. apply In_customDomains in H.
    destruct H as (? & ? & ? & _ & _ & _ & _ & _ & Hne). congruence. }
  rewrite ReloadCustomBlocklists_eq. cbn [fst snd filter.customBlocked].
  repeat split.
  - unfold mget. rewrite lookup_mergeKeys, dom_fold_mset, dom_empty_L.
    rewrite decide_False; [reflexivity|].
    rewrite elem_of_union. unfold spec.asSet. rewrite elem_of_list_to_set, list_elem_of_In.
    intros [H | H]; [contradiction | apply not_elem_of_empty in H; exact H].
  - exact Hno.
  - pose proof (size_asSet_le (spec.customDomains e w)). lia.
Qed.

Example reload_counts_repeats :
  let w := examples.world
             (Some {| filter.Version := "1.0"; filter.LastUpdated := "";
                      filter.Domains := [examples.entry "a.example" true;
                                         examples.entry "A.Example." true] |}) None in
  (filter.ReloadCustomBlocklists (filter.newEngine examples.plain) w).2 = (2, None)
  /\ size (filter.customBlocked (filter.ReloadCustomBlocklists (filter.newEngine examples.plain) w).1)
     = 1%nat.
Proof. split; vm_compute; reflexivity. Qed.

(** *** Parsing *)

Lemma IndexAny_slice_to (s chars : string) (i : nat) :
  GoStrings.IndexAny s chars = Some i ->
  GoStrings.IndexAny (GoStrings.slice_to i s) chars = None.
Proof.
  revert i. induction s as [|c s IH]; intros i H; [discriminate|].
  cbn [GoStrings.IndexAny] in H. destruct (GoStrings.memByte c chars) eqn:Hc.
  - injection H as <-. reflexivity.
  - destruct (GoStrings.IndexAny s chars) as [j|] eqn:Hj; [|discriminate].
    injection H as <-. cbn [GoStrings.slice_to GoStrings.IndexAny].
    rewrite Hc, (IH j eq_refl). reflexivity.
Qed.

(** X14.  For an AdBlock line (one that starts with two bars) the parsed
    domain contains no slash, caret or question mark: the rule's path, its
    separator and its options never reach the block list. *)
Theorem adblock_domain_is_clean (line : string) :
  GoStrings.HasPrefix line "||" = true ->
  GoStrings.IndexAny (filter.parseDomainFromLine line) "/^?" = None.
Proof.
  intros Hp. pose proof Hp as Hp'. apply HasPrefix_iff in Hp'. destruct Hp' as [t ->].
  unfold filter.parseDomainFromLine.
  assert (H0 : GoStrings.HasPrefix ("||" +:+ t) "0.0.0.0" = false).
  { unfold GoStrings.HasPrefix. apply andb_false_iff. right. reflexivity. }
  assert (H1 : GoStrings.HasPrefix ("||" +:+ t) "127.0.0.1" = false).
  { unfold GoStrings.HasPrefix. apply andb_false_iff. right. reflexivity. }
  rewrite H0, H1, Hp. cbn [orb]. cbv zeta.
  set (domain := GoStrings.TrimSuffix (GoStrings.TrimPrefix ("||" +:+ t) "||") "^").
  destruct (GoStrings.IndexAny domain "/^?") as [idx|] eqn:Hi.
  - apply IndexAny_slice_to. exact Hi.
  - exact Hi.
Qed.

Lemma adblock_domain_is_clean_witness :
  GoStrings.IndexAny (filter.parseDomainFromLine "||ads.example.com^$third-party") "/^?" = None.
Proof.
  apply (adblock_domain_is_clean "||ads.example.com^$third-party"). reflexivity.
Defined.

Lemma ToLower_slice_to (n : nat) (s : string) :
  GoStrings.ToLower (GoStrings.slice_to n s) = GoStrings.slice_to n (GoStrings.ToLower s).
Proof.
  revert s. induction n as [|n IH]; intros [|c s]; try reflexivity.
  cbn [GoStrings.slice_to GoStrings.ToLower]. rewrite IH. reflexivity.
Qed.

Lemma normalizeDomain_lower (x : string) :
  GoStrings.ToLower (filter.normalizeDomain x) = filter.normalizeDomain x.
Proof.
  unfold filter.normalizeDomain, GoStrings.TrimSuffix.
  destruct (GoStrings.HasSuffix _ ".").
  - rewrite ToLower_slice_to, ToLower_idem. reflexivity.
  - apply ToLower_idem.
Qed.

Lemma scanLines_normalized (bang : bool) (lines : list string) (d : string) :
  In d (filter.scanLines bang lines) -> exists x, d = filter.normalizeDomain x.
Proof.
  unfold filter.scanLines. rewrite in_flat_map. intros (text & _ & H).
  destruct (_ || _ || _)%bool; [destruct H|].
  destruct (String.eqb _ ""); [destruct H|].
  destruct H as [<- | []]. eauto.
Qed.

Lemma fetchBlocklist_normalized (w : filter.World) (url : string) (domains : list string)
    (err : option error) (d : string) :
  filter.fetchBlocklist w url = (domains, err) -> In d domains ->
  exists x, d = filter.normalizeDomain x.
Proof.
  unfold filter.fetchBlocklist, filter.fetchLocalBlocklist. intros H Hin.
  destruct (GoStrings.HasPrefix url "file://").
  - destruct (filter.openFile w _); injection H as <- _; [destruct Hin|].
    eapply scanLines_normalized; eassumption.
  - destruct (filter.httpGet w url) as [|code lines scanErr]; [injection H as <- _; destruct Hin|].
    destruct (negb _); injection H as <- _; [destruct Hin|].
    eapply scanLines_normalized; eassumption.
Qed.

(** X15.  Every domain [UpdateBlocklists] puts into the remote set is in
    lower case, whatever the sources contain: the lookups of [ShouldBlock],
    made on lower-cased names, can reach each of them. *)
Theorem UpdateBlocklists_keys_lower_case (e : filter.Engine) (w : filter.World) (d : string) :
  spec.inSet (filter.blockedDomains (filter.UpdateBlocklists e w).1) d ->
  GoStrings.ToLower d = d.
Proof.
  rewrite UpdateBlocklists_eq. cbn [fst filter.blockedDomains]. unfold spec.inSet.
  rewrite mget_mergeKeys_loaded, mget_fold_mset.
  intros [H | [H | H]].
  - apply In_customDomains in H. destruct H as (_ & _ & entry & _ & _ & _ & _ & -> & _).
    apply normalizeDomain_lower.
  - apply In_fetchedDomains in H. destruct H as (source & domains & _ & _ & Hf & Hin).
    destruct (fetchBlocklist_normalized w _ _ _ d Hf Hin) as [x ->].
    apply normalizeDomain_lower.
  - unfold mget in H. rewrite lookup_empty in H. discriminate.
Qed.

Lemma UpdateBlocklists_keys_lower_case_witness :
  GoStrings.ToLower "ads.example" = "ads.example".
Proof.
  apply (UpdateBlocklists_keys_lower_case (filter.newEngine examples.withSources)
           (examples.world None (Some [" 0.0.0.0  ADS.Example "]))).
  vm_compute. reflexivity.
Defined.

(** ** The cache, continued *)

Section CacheOps.
Import dns spec.

Variable TypeToString : Z -> string.

Lemma makeKey_nonempty (domain : string) (qtype : Z) : makeKey TypeToString domain qtype <> "".
Proof.
  unfold makeKey. intros H. apply (f_equal String.length) in H.
  rewrite !length_append in H. simpl in H. lia.
Qed.

(** The loop of [evictOldest] started on [acc] after the entries [seen]. *)
Lemma oldest_fold (l seen : list (string * cacheEntry)) (acc : option (string * Z)) :
  match acc with
  | None => seen = []
  | Some (k, t) =>
      (exists entry, In (k, entry) seen /\ timestamp entry = t)
      /\ forall k' entry', In (k', entry') seen -> t <= timestamp entry'
  end ->
  match fold_left (fun acc '(key, entry) =>
                     match acc with
                     | None => Some (key, timestamp entry)
                     | Some (oldestKey, oldestTime) =>
                         if timestamp entry <? oldestTime
                         then Some (key, timestamp entry)
                         else acc
                     end) l acc with
  | None => (seen ++ l)%list = []
  | Some (k, t) =>
      (exists entry, In (k, entry) (seen ++ l)%list /\ timestamp entry = t)
      /\ forall k' entry', In (k', entry') (seen ++ l)%list -> t <= timestamp entry'
  end.
Proof.
  revert seen acc. induction l as [|[key entry] l IH]; intros seen acc H.
  - cbn [fold_left]. rewrite app_nil_r. exact H.
  - cbn [fold_left].
    replace (seen ++ (key, entry) :: l)%list with ((seen ++ [(key, entry)]) ++ l)%list
      by (rewrite <- app_assoc; reflexivity).
    apply IH. destruct acc as [[k t]|].
    + destruct H as [(entry0 & Hin & Ht) Hmin].
      destruct (timestamp entry <? t) eqn:Hlt.
      * apply Z.ltb_lt in Hlt. split.
        -- exists entry. split; [apply in_or_app; right; left; reflexivity | reflexivity].
        -- intros k' entry' Hin'. apply in_app_or in Hin'. destruct Hin' as [Hin' | [Heq | []]].
           ++ specialize (Hmin _ _ Hin'). lia.
           ++ injection Heq as _ <-. lia.
      * apply Z.ltb_ge in Hlt. split.
        -- exists entry0. split; [apply in_or_app; left; exact Hin | exact Ht].
        -- intros k' entry' Hin'. apply in_app_or in Hin'. destruct Hin' as [Hin' | [Heq | []]].
           ++ exact (Hmin _ _ Hin').
           ++ injection Heq as _ <-. exact Hlt.
    + subst seen. split.
      * exists entry. split; [left; reflexivity | reflexivity].
      * intros k' entry' [Heq | []]. injection Heq as _ <-. lia.
Qed.

Lemma oldestOf_spec (c : DNSCache) :
  match oldestOf (map_to_list (entries c)) with
  | None => entries c = ∅
  | Some (k, t) =>
      (exists entry, entries c !! k = Some entry /\ timestamp entry = t)
      /\ forall k' entry', entries c !! k' = Some entry' -> t <= timestamp entry'
  end.
Proof.
  pose proof (oldest_fold (map_to_list (entries c)) [] None eq_refl) as H.
  unfold oldestOf. cbn [app] in H.
  destruct (fold_left _ _ None) as [[k t]|].
  - destruct H as [(entry & Hin & Ht) Hmin]. split.
    + exists entry. split; [|exact Ht].
      apply elem_of_map_to_list, list_elem_of_In. exact Hin.
    + intros k' entry' Hl. apply (Hmin k' entry').
      apply list_elem_of_In, elem_of_map_to_list. exact Hl.
  - apply map_to_list_empty_iff. exact H.
Qed.

End CacheOps.

(** X16.  Round trip through the cache: right after [Set], [Get] with the
    same name and type returns the stored response until its age exceeds the
    TTL and nothing afterwards, however full the cache was. *)
Theorem cacheGet_after_cacheSet (TypeToString : Z -> string) (c : dns.DNSCache)
    (t t' : Z) (domain : string) (qtype : Z) (m : dns.Msg) :
  dns.cacheGet TypeToString (dns.cacheSet TypeToString c t domain qtype m) t' domain qtype
  = if t' - t >? dns.ttl c then None else Some m.
Proof.
  unfold dns.cacheGet, dns.cacheSet. cbv zeta. cbn [dns.entries dns.ttl].
  rewrite lookup_insert_eq. cbn [dns.timestamp dns.response].
  destruct (dns.cacheSize c >=? dns.maxSize c); [|reflexivity].
  destruct (evictOldest_ttl c) as [-> _]. reflexivity.
Qed.

(** What eviction does, case by case: on a cache
    that is not empty and has no entry under the empty key, [evictOldest]
    deletes exactly one key, and no entry of the cache is older than the one
    deleted; an empty cache is left as it is. *)
Lemma evictOldest_cases (c : dns.DNSCache) :
  dns.entries c !! "" = None ->
  (dns.entries c = ∅ -> dns.evictOldest c = c)
  /\ (dns.entries c <> ∅ ->
      exists key entry,
        dns.entries c !! key = Some entry
        /\ dns.entries (dns.evictOldest c) = delete key (dns.entries c)
        /\ size (dns.entries (dns.evictOldest c)) = pred (size (dns.entries c))
        /\ forall key' entry',
             dns.entries c !! key' = Some entry' ->
             dns.timestamp entry <= dns.timestamp entry').
Proof.
  intros Hk. pose proof (oldestOf_spec c) as H. unfold dns.evictOldest. split.
  - intros He. rewrite He, map_to_list_empty. reflexivity.
  - intros Hne. destruct (dns.oldestOf _) as [[k t]|]; [|contradiction].
    destruct H as [(entry & Hl & <-) Hmin].
    destruct (String.eqb_spec k "") as [-> | Hkne]; [congruence|].
    exists k, entry. cbn [dns.entries]. repeat split.
    + exact Hl.
    + apply map_size_delete_Some. eauto.
    + exact Hmin.
Qed.

(** X17.  Eviction removes one entry of least insertion time: on a cache
    that is not empty and has no entry under the empty key, [evictOldest]
    deletes exactly one key, and no entry of the cache is older than the one
    deleted; an empty cache is left as it is. *)
Theorem evictOldest_removes_oldest (c : dns.DNSCache) :
  dns.entries c !! "" = None ->
  (dns.entries c = ∅ -> dns.evictOldest c = c)
  /\ (dns.entries c <> ∅ ->
      exists key entry,
        dns.entries c !! key = Some entry
        /\ dns.entries (dns.evictOldest c) = delete key (dns.entries c)
        /\ size (dns.entries (dns.evictOldest c)) = pred (size (dns.entries c))
        /\ forall key' entry',
             dns.entries c !! key' = Some entry' ->
             dns.timestamp entry <= dns.timestamp entry').
Proof. exact (evictOldest_cases c). Qed.

Lemma evictOldest_removes_oldest_witness :
  (dns.entries (dns.cache examples.warmServer) = ∅ ->
   dns.evictOldest (dns.cache examples.warmServer) = dns.cache examples.warmServer)
  /\ (dns.entries (dns.cache examples.warmServer) <> ∅ ->
      exists key entry,
        dns.entries (dns.cache examples.warmServer) !! key = Some entry
        /\ dns.entries (dns.evictOldest (dns.cache examples.warmServer))
           = delete key (dns.entries (dns.cache examples.warmServer))
        /\ size (dns.entries (dns.evictOldest (dns.cache examples.warmServer)))
           = pred (size (dns.entries (dns.cache examples.warmServer)))
        /\ forall key' entry',
             dns.entries (dns.cache examples.warmServer) !! key' = Some entry' ->
             dns.timestamp entry <= dns.timestamp entry').
Proof.
  apply (evictOldest_removes_oldest (dns.cache examples.warmServer)).
  vm_compute. reflexivity.
Defined.

Section CacheBound.
Import dns spec.

Variable TypeToString : Z -> string.

Lemma cacheSet_bounded (c : DNSCache) (t : Z) (domain : string) (qtype : Z) (m : Msg) :
  cacheBounded c ->
  cacheBounded (cacheSet TypeToString c t domain qtype m)
  /\ maxSize (cacheSet TypeToString c t domain qtype m) = maxSize c.
Proof.
  intros [Hk Hsz]. unfold cacheBounded, cacheSet. cbv zeta. cbn [entries maxSize].
  pose proof (makeKey_nonempty TypeToString domain qtype) as Hkey.
  destruct (evictOldest_cases c Hk) as [Hempty Hfull].
  destruct (evictOldest_ttl c) as [_ Hmax].
  rewrite lookup_insert_ne by exact Hkey.
  pose proof (map_size_insert (makeKey TypeToString domain qtype)
                {| response := m; timestamp := t |}) as Hins.
  unfold cacheSize. destruct (Z.of_nat (size (entries c)) >=? maxSize c) eqn:Hge.
  - rewrite Hmax. split; [|reflexivity].
    destruct (decide (entries c = ∅)) as [He | Hne].
    + rewrite (Hempty He). split; [exact Hk|].
      rewrite Hins, He, lookup_empty, map_size_empty. cbn. lia.
    + destruct (Hfull Hne) as (key & entry & Hl & Hdel & Hpred & _).
      split; [rewrite Hdel, lookup_delete_None; auto|].
      rewrite Hins, Hpred.
      assert (Hpos : (0 < size (entries c))%nat).
      { destruct (size (entries c)) eqn:E; [|lia].
        apply map_size_empty_iff in E. contradiction. }
      destruct (entries (evictOldest c) !! makeKey TypeToString domain qtype); unfold id; lia.
  - split; [|reflexivity]. split; [exact Hk|].
    rewrite Hins. rewrite Z.geb_leb in Hge. apply Z.leb_gt in Hge.
    destruct (entries c !! makeKey TypeToString domain qtype); unfold id; lia.
Qed.

Lemma cleanup_bounded (c : DNSCache) (now : Z) :
  cacheBounded c -> cacheBounded (cleanup c now) /\ maxSize (cleanup c now) = maxSize c.
Proof.
  intros [Hk Hsz]. unfold cacheBounded, cleanup. cbn [entries maxSize].
  split; [|reflexivity]. split.
  - apply map_lookup_filter_None. left. exact Hk.
  - pose proof (map_size_filter
                  (fun kv : string * cacheEntry => negb (now - timestamp kv.2 >? ttl c) = true)
                  (entries c)).
    lia.
Qed.

Lemma handle_bounded (s : Server) (conn : Conn) (r : Msg) :
  cacheBounded (cache s) ->
  cacheBounded (cache (handleDNSRequest TypeToString s conn r).1.1)
  /\ maxSize (cache (handleDNSRequest TypeToString s conn r).1.1) = maxSize (cache s).
Proof.
  intros Hb.
  destruct (handle_cache_change TypeToString s conn r)
    as [-> | (question & rest & m & _ & _ & ->)]; [auto|].
  apply cacheSet_bounded. exact Hb.
Qed.

Lemma step_bounded (s s' : Server) :
  step TypeToString s s' -> cacheBounded (cache s) ->
  cacheBounded (cache s') /\ maxSize (cache s') = maxSize (cache s).
Proof.
  intros Hstep Hb. destruct Hstep; cbn [cache ClearCache withCache].
  - apply handle_bounded; exact Hb.
  - unfold cacheBounded, cacheClear. cbn [entries maxSize].
    rewrite lookup_empty, map_size_empty. repeat split. lia.
  - apply cleanup_bounded; exact Hb.
  - auto.
Qed.

Lemma reachable_bounded (s s' : Server) :
  rtc (step TypeToString) s s' -> cacheBounded (cache s) ->
  cacheBounded (cache s') /\ maxSize (cache s') = maxSize (cache s).
Proof.
  induction 1 as [|s1 s2 s3 Hstep _ IH]; [auto|].
  intros Hb. destruct (step_bounded _ _ Hstep Hb) as [Hb2 Hm2].
  destruct (IH Hb2) as [Hb3 Hm3]. split; [exact Hb3 | congruence].
Qed.

Lemma cacheGet_cleanup (c : DNSCache) (now now' : Z) (domain : string) (qtype : Z) :
  now <= now' ->
  cacheGet TypeToString (cleanup c now) now' domain qtype
  = cacheGet TypeToString c now' domain qtype.
Proof.
  intros Hle. unfold cacheGet, cleanup. cbv zeta. cbn [entries ttl].
  destruct (entries c !! makeKey TypeToString domain qtype) as [entry|] eqn:Hl.
  - destruct (now - timestamp entry >? ttl c) eqn:Hold.
    + assert (Hnone : base.filter (fun kv : string * cacheEntry =>
                                negb (now - timestamp kv.2 >? ttl c) = true) (entries c)
                      !! makeKey TypeToString domain qtype = None).
      { apply map_lookup_filter_None. right. intros x Hx. rewrite Hl in Hx.
        injection Hx as <-. cbn [snd]. rewrite Hold. discriminate. }
      rewrite Hnone.
      assert (Hold' : (now' - timestamp entry >? ttl c) = true).
      { apply Z.gtb_lt. apply Z.gtb_lt in Hold. lia. }
      rewrite Hold'. reflexivity.
    + assert (Hsome : base.filter (fun kv : string * cacheEntry =>
                                negb (now - timestamp kv.2 >? ttl c) = true) (entries c)
                      !! makeKey TypeToString domain qtype = Some entry).
      { apply map_lookup_filter_Some. split; [exact Hl|]. cbn [snd]. rewrite Hold. reflexivity. }
      rewrite Hsome. reflexivity.
  - assert (Hnone : base.filter (fun kv : string * cacheEntry =>
                              negb (now - timestamp kv.2 >? ttl c) = true) (entries c)
                    !! makeKey TypeToString domain qtype = None).
    { apply map_lookup_filter_None. left. exact Hl. }
    rewrite Hnone. reflexivity.
Qed.

End CacheBound.

(** X18.  The cache is bounded: in every state the server reaches from its
    start by requests, cache clears, cleaner sweeps and engine changes, the
    cache holds at most [cache_size] entries (at most one when the configured
    size is below one). *)
Theorem cache_size_bounded (TypeToString : Z -> string) (cfg : config.Config)
    (e : filter.Engine) (start : Z) (s : dns.Server) :
  rtc (dns.step TypeToString) (dns.NewServer cfg e start) s ->
  dns.cacheSize (dns.cache s) <= Z.max (config.CacheSize (config.Server cfg)) 1.
Proof.
  intros Hreach.
  assert (H0 : spec.cacheBounded (dns.cache (dns.NewServer cfg e start))).
  { split; [apply lookup_empty|]. cbn [dns.cache dns.NewServer dns.NewDNSCache dns.entries].
    rewrite map_size_empty. lia. }
  destruct (reachable_bounded TypeToString _ _ Hreach H0) as [[_ Hsz] Hmax].
  unfold dns.cacheSize. rewrite Hmax in Hsz. exact Hsz.
Qed.

Lemma cache_size_bounded_witness :
  dns.cacheSize (dns.cache examples.warmServer)
  <= Z.max (config.CacheSize (config.Server examples.plain)) 1.
Proof.
  apply (cache_size_bounded dns.commonTypes examples.plain (filter.newEngine examples.plain) 0
           examples.warmServer).
  apply rtc_once.
  exact (dns.step_request dns.commonTypes examples.freshServer examples.client
           (examples.query "example.com." dns.TypeA)).
Defined.

(** X19.  A sweep of the cleaner cannot be observed through [Get]: at the
    instant of the sweep and at any later one, [Get] answers the same with
    and without the sweep, because what the sweep removes had expired. *)
Theorem cleanup_not_observable (TypeToString : Z -> string) (c : dns.DNSCache)
    (now now' : Z) (domain : string) (qtype : Z) :
  now <= now' ->
  dns.cacheGet TypeToString (dns.cleanup c now) now' domain qtype
  = dns.cacheGet TypeToString c now' domain qtype.
Proof. apply cacheGet_cleanup. Qed.

Lemma cleanup_not_observable_witness :
  dns.cacheGet dns.commonTypes (dns.cleanup (dns.cache examples.warmServer) 4000000000000)
    5000000000000 "example.com." dns.TypeA
  = dns.cacheGet dns.commonTypes (dns.cache examples.warmServer)
      5000000000000 "example.com." dns.TypeA.
Proof.
  apply (cleanup_not_observable dns.commonTypes (dns.cache examples.warmServer)
           4000000000000 5000000000000 "example.com." dns.TypeA).
  lia.
Defined.

(** ** The upstream pool, continued *)

Lemma removeFirst_absent (s : string) (l : list string) :
  ~ In s l -> dns.removeFirst s l = l.
Proof.
  induction l as [|x l IH]; [reflexivity|]. intros Hn. cbn [dns.removeFirst].
  destruct (String.eqb_spec x s) as [-> | Hne].
  - exfalso. apply Hn. left. reflexivity.
  - rewrite IH; [reflexivity|]. intros H. apply Hn. right. exact H.
Qed.

Lemma removeFirst_app_absent (s : string) (l : list string) :
  ~ In s l -> dns.removeFirst s (l ++ [s])%list = l.
Proof.
  induction l as [|x l IH]; intros Hn.
  - cbn. rewrite String.eqb_refl. reflexivity.
  - cbn [app dns.removeFirst]. destruct (String.eqb_spec x s) as [-> | Hne].
    + exfalso. apply Hn. left. reflexivity.
    + rewrite IH; [reflexivity|]. intros H. apply Hn. right. exact H.
Qed.

Lemma count_occ_removeFirst (s s' : string) (l : list string) :
  count_occ String.string_dec (dns.removeFirst s l) s'
  = if String.string_dec s' s
    then pred (count_occ String.string_dec l s)
    else count_occ String.string_dec l s'.
Proof.
  induction l as [|x l IH]; [cbn; destruct (String.string_dec s' s); reflexivity|].
  cbn [dns.removeFirst]. destruct (String.eqb_spec x s) as [-> | Hne].
  - cbn [count_occ]. destruct (String.string_dec s' s) as [-> | Hs].
    + destruct (String.string_dec s s); [reflexivity | contradiction].
    + destruct (String.string_dec s s'); [congruence | reflexivity].
  - cbn [count_occ]. rewrite IH.
    destruct (String.string_dec s' s) as [-> | Hs].
    + destruct (String.string_dec x s); [contradiction | reflexivity].
    + reflexivity.
Qed.

(** X20.  [Get] always hands out one of the pool's servers: the index it
    reads is in range whatever the counter holds and however the pool was
    changed by [Add] and [Remove]; it leaves the server list alone; and only
    on an empty pool, which [NewUpstreamPool] never builds, it answers with
    the fallback 8.8.8.8:53 without touching the counter. *)
Theorem Get_returns_pool_member (p : dns.UpstreamPool) (configured : list string) :
  (dns.servers p <> [] -> In (dns.Get p).1 (dns.servers p))
  /\ (dns.servers p = [] -> dns.Get p = ("8.8.8.8:53", p))
  /\ dns.servers (dns.Get p).2 = dns.servers p
  /\ dns.servers (dns.NewUpstreamPool configured) <> []
  /\ (configured <> [] -> In (dns.Get (dns.NewUpstreamPool configured)).1 configured).
Proof.
  assert (Hin : forall q, dns.servers q <> [] -> In (dns.Get q).1 (dns.servers q)).
  { intros q Hne. unfold dns.Get.
    destruct (dns.servers q) as [|a [|b l]] eqn:E; [congruence | left; reflexivity |].
    cbn [fst]. apply nth_In.
    assert (Hpos : 0 < Z.of_nat (length (a :: b :: l))) by (cbn [length]; lia).
    pose proof (Z.mod_pos_bound (dns.uint32 (dns.index q + 1)) _ Hpos). lia. }
  repeat split.
  - apply Hin.
  - intros He. unfold dns.Get. rewrite He. reflexivity.
  - unfold dns.Get. destruct (dns.servers p) as [|a [|b l]] eqn:E; cbn [snd dns.servers]; congruence.
  - destruct configured; discriminate.
  - intros Hne. specialize (Hin (dns.NewUpstreamPool configured)).
    destruct configured as [|a l]; [congruence|]. apply Hin. discriminate.
Qed.

Lemma removeFirst_split (s : string) (before after : list string) :
  ~ In s before ->
  dns.removeFirst s (before ++ s :: after)%list = (before ++ after)%list.
Proof.
  induction before as [|x before IH]; intros Hn.
  - cbn. rewrite String.eqb_refl. reflexivity.
  - cbn [app dns.removeFirst]. destruct (String.eqb_spec x s) as [-> | Hne].
    + exfalso. apply Hn. left. reflexivity.
    + rewrite IH; [reflexivity|]. intros H. apply Hn. right. exact H.
Qed.

(** X21.  [Remove] takes out the first occurrence of a server and nothing
    else: the servers before it and after it stay, in their order, later
    occurrences of the same server included; hence the server's count drops by
    one (stays zero if it was absent) and the other counts are unchanged.  The
    round-robin index is not touched, removing an absent server leaves the
    pool as it was, and removing a server just added to a pool that did not
    have it gives the pool back. *)
Theorem Remove_first_occurrence (p : dns.UpstreamPool) (s : string) :
  (forall before after : list string,
      dns.servers p = (before ++ s :: after)%list ->
      ~ In s before ->
      dns.servers (dns.Remove p s) = (before ++ after)%list)
  /\ (forall s' : string,
         count_occ String.string_dec (dns.servers (dns.Remove p s)) s'
         = if String.string_dec s' s
           then pred (count_occ String.string_dec (dns.servers p) s)
           else count_occ String.string_dec (dns.servers p) s')
  /\ dns.index (dns.Remove p s) = dns.index p
  /\ (~ In s (dns.servers p) -> dns.Remove p s = p)
  /\ (~ In s (dns.servers p) -> dns.Remove (dns.Add p s) s = p).
Proof.
  destruct p as [srv i]. unfold dns.Remove, dns.Add. cbn [dns.servers dns.index].
  repeat split.
  - intros before after -> Hn. apply removeFirst_split. exact Hn.
  - intros s'. apply count_occ_removeFirst.
  - intros Hn. rewrite removeFirst_absent by exact Hn. reflexivity.
  - intros Hn. rewrite removeFirst_app_absent by exact Hn. reflexivity.
Qed.

(** Of two occurrences the first goes, the second stays where it was. *)
Example remove_keeps_later_occurrence :
  dns.servers (dns.Remove {| dns.servers := ["1.1.1.1:53"; "8.8.8.8:53"; "1.1.1.1:53";
                                              "9.9.9.9:53"];
                             dns.index := 5 |} "1.1.1.1:53")
  = ["8.8.8.8:53"; "1.1.1.1:53"; "9.9.9.9:53"].
Proof. reflexivity. Qed.

Example remove_last_server_falls_back :
  (dns.Get (dns.Remove (dns.NewUpstreamPool ["1.1.1.1:53"]) "1.1.1.1:53")).1 = "8.8.8.8:53".
Proof. reflexivity. Qed.

(** ** The request handler, continued *)

Section HandlerPaths.
Import config dns spec.

Variable TypeToString : Z -> string.

Ltac paths :=
  unfold handleDNSRequest, forwardToUpstream, handleBlockedDomain in *; cbv zeta in *;
  repeat match goal with
         | |- context [match ?x with _ => _ end] => destruct x eqn:?
         | H : context [match ?x with _ => _ end] |- _ => destruct x eqn:?
         | H : (_, _) = (_, _) |- _ => inversion H; subst; clear H
         end;
  cbn [fst snd stats cache upstreamPool filter cfg withStats withCache withPool
       incTotal incBlocked incCached TotalQueries BlockedQueries CachedResponses] in *.

(** The base reply every path starts from. *)
Lemma base_reply (r : Msg) (question : Question) (rest : list Question) :
  Msg_Question r = question :: rest ->
  Id (withAuthoritative (SetReply newMsg r) true) = Id r
  /\ Response (withAuthoritative (SetReply newMsg r) true) = true
  /\ Authoritative (withAuthoritative (SetReply newMsg r) true) = true
  /\ Rcode (withAuthoritative (SetReply newMsg r) true) = RcodeSuccess
  /\ Msg_Question (withAuthoritative (SetReply newMsg r) true) = [question]
  /\ Answer (withAuthoritative (SetReply newMsg r) true) = [].
Proof. intros Hq. unfold withAuthoritative, SetReply. cbn. rewrite Hq. repeat split. Qed.

(** A fresh cache entry answers the request before the filter is asked. *)
Lemma handle_hit (s : Server) (conn : Conn) (r : Msg) (question : Question)
    (rest : list Question) (m : Msg) :
  Msg_Question r = question :: rest ->
  cacheGet TypeToString (cache s) (time.nanos (now conn)) (Name question) (Qtype question)
  = Some m ->
  handleDNSRequest TypeToString s conn r
  = (withStats s (incCached (incTotal (stats s))), SetReply m r,
     [EvCacheGet (makeKey TypeToString (Name question) (Qtype question)) true]).
Proof.
  intros Hq Hget. unfold handleDNSRequest. cbv zeta. rewrite Hq.
  cbn [cache withStats]. rewrite Hget. reflexivity.
Qed.

(** With nothing cached, filtering on and the name blocked, the request takes
    the block path. *)
Lemma handle_block_path (s : Server) (conn : Conn) (r : Msg) (question : Question)
    (rest : list Question) :
  Msg_Question r = question :: rest ->
  cacheGet TypeToString (cache s) (time.nanos (now conn)) (Name question) (Qtype question)
  = None ->
  Filtering_Enabled (Filtering (cfg s)) = true ->
  filter.ShouldBlock (filter s) (now conn) (Name question) (clientIP conn) = true ->
  handleDNSRequest TypeToString s conn r
  = ((handleBlockedDomain (withStats s (incTotal (stats s))) r
        (withAuthoritative (SetReply newMsg r) true) (Name question) (clientIP conn)).1.1,
     (handleBlockedDomain (withStats s (incTotal (stats s))) r
        (withAuthoritative (SetReply newMsg r) true) (Name question) (clientIP conn)).1.2,
     [EvCacheGet (makeKey TypeToString (Name question) (Qtype question)) false;
      EvShouldBlock (Name question) true;
      EvLogBlockedQuery (Name question) (clientIP conn)]).
Proof.
  intros Hq Hget Hen Hb. unfold handleDNSRequest. cbv zeta. rewrite Hq.
  cbn [cache withStats cfg filter]. rewrite Hget, Hen, Hb. reflexivity.
Qed.

Lemma handle_reply (s : Server) (conn : Conn) (r : Msg) :
  (exists upstream, Exchange conn r upstream = inl (handleDNSRequest TypeToString s conn r).1.2)
  \/ (Id (handleDNSRequest TypeToString s conn r).1.2 = Id r
      /\ Response (handleDNSRequest TypeToString s conn r).1.2 = true
      /\ Msg_Question (handleDNSRequest TypeToString s conn r).1.2
         = firstn 1 (Msg_Question r)).
Proof.
  paths; try (left; eexists; eassumption);
    right; unfold SetRcode, withRcode, withAuthoritative, SetReply;
    try match goal with H : Msg_Question r = _ |- _ => rewrite H end;
    cbn; repeat split.
  all: unfold blockRecord;
       match goal with H : Msg_Question _ = _ :: _ |- _ => rewrite H end;
       destruct (Z.eqb _ TypeA); reflexivity.
Qed.

Lemma handle_stats (s : Server) (conn : Conn) (r : Msg) :
  (BlockedQueries (stats (handleDNSRequest TypeToString s conn r).1.1)
   = BlockedQueries (stats s)
   /\ CachedResponses (stats (handleDNSRequest TypeToString s conn r).1.1)
      = CachedResponses (stats s))
  \/ (BlockedQueries (stats (handleDNSRequest TypeToString s conn r).1.1)
      = uint64 (BlockedQueries (stats s) + 1)
      /\ CachedResponses (stats (handleDNSRequest TypeToString s conn r).1.1)
         = CachedResponses (stats s))
  \/ (BlockedQueries (stats (handleDNSRequest TypeToString s conn r).1.1)
      = BlockedQueries (stats s)
      /\ CachedResponses (stats (handleDNSRequest TypeToString s conn r).1.1)
         = uint64 (CachedResponses (stats s) + 1)).
Proof. paths; auto. Qed.

Lemma serve_stats (reqs : list (Conn * Msg)) (s : Server) :
  0 <= BlockedQueries (stats s) -> 0 <= CachedResponses (stats s) ->
  BlockedQueries (stats s) + CachedResponses (stats s) <= TotalQueries (stats s) ->
  TotalQueries (stats s) + Z.of_nat (length reqs) < 2 ^ 64 ->
  0 <= BlockedQueries (stats (serve TypeToString s reqs).1)
  /\ 0 <= CachedResponses (stats (serve TypeToString s reqs).1)
  /\ BlockedQueries (stats (serve TypeToString s reqs).1)
     + CachedResponses (stats (serve TypeToString s reqs).1)
     <= TotalQueries (stats (serve TypeToString s reqs).1)
  /\ TotalQueries (stats (serve TypeToString s reqs).1)
     = TotalQueries (stats s) + Z.of_nat (length reqs).
Proof.
  revert s. induction reqs as [|[conn r] reqs IH]; intros s HB HC Hsum Hlt.
  - cbn. repeat split; lia.
  - cbn [serve].
    pose proof (handle_total TypeToString s conn r) as Ht.
    pose proof (handle_stats s conn r) as Hst.
    destruct (handleDNSRequest TypeToString s conn r) as [[s1 reply] evs].
    cbn [fst snd] in Ht, Hst. cbn [length] in Hlt.
    assert (Ht1 : TotalQueries (stats s1) = TotalQueries (stats s) + 1).
    { rewrite Ht. unfold uint64. apply Z.mod_small. lia. }
    assert (Hs1 : 0 <= BlockedQueries (stats s1) /\ 0 <= CachedResponses (stats s1)
                  /\ BlockedQueries (stats s1) + CachedResponses (stats s1)
                     <= TotalQueries (stats s1)).
    { unfold uint64 in Hst.
      destruct Hst as [[-> ->] | [[-> ->] | [-> ->]]];
        rewrite ?Z.mod_small by lia; lia. }
    specialize (IH s1). destruct (serve TypeToString s1 reqs) as [s2 outs].
    cbn [fst length] in *. destruct IH as (H1 & H2 & H3 & H4); lia.
Qed.

(** At most one exchange per request, with the server [Get] hands out; a
    request without an exchange leaves the pool's counter alone. *)
Lemma handle_exchange (s : Server) (conn : Conn) (r : Msg) :
  (upstreamPool (handleDNSRequest TypeToString s conn r).1.1 = upstreamPool s
   /\ forall upstream, ~ In (EvExchange upstream) (handleDNSRequest TypeToString s conn r).2)
  \/ (upstreamPool (handleDNSRequest TypeToString s conn r).1.1 = (Get (upstreamPool s)).2
      /\ List.filter (fun ev => match ev with EvExchange _ => true | _ => false end)
           (handleDNSRequest TypeToString s conn r).2
         = [EvExchange (Get (upstreamPool s)).1]
      /\ forall domain, ~ In (EvShouldBlock domain true)
                          (handleDNSRequest TypeToString s conn r).2
      /\ forall key, ~ In (EvCacheGet key true) (handleDNSRequest TypeToString s conn r).2).
Proof.
  paths.
  all: try (left; split; [reflexivity|]; intros upstream Hin; simpl in Hin;
            repeat match goal with
                   | H : _ \/ _ |- _ => destruct H
                   | H : False |- _ => destruct H
                   end; discriminate).
  all: right; match goal with H : Get _ = _ |- _ => rewrite H end; cbn [fst snd].
  all: split; [reflexivity|]; split; [reflexivity|].
  all: intros domain; split; [|intros key]; intros Hin; simpl in Hin;
       repeat match goal with
              | H : _ \/ _ |- _ => destruct H
              | H : False |- _ => destruct H
              end; discriminate.
Qed.

(** The upstream is consulted at one point only: the outcome of a request is
    the same under any two behaviours of the network that agree on what the
    server [Get] hands out answers to this request. *)
Lemma handle_one_answer (s : Server) (conn conn' : Conn) (r : Msg) :
  now conn' = now conn ->
  clientIP conn' = clientIP conn ->
  Exchange conn' r (Get (upstreamPool s)).1 = Exchange conn r (Get (upstreamPool s)).1 ->
  handleDNSRequest TypeToString s conn' r = handleDNSRequest TypeToString s conn r.
Proof.
  intros Hnow Hip Hex. unfold handleDNSRequest, forwardToUpstream. cbv zeta.
  rewrite Hnow, Hip. cbn [upstreamPool withStats].
  destruct (Get (upstreamPool s)) as [upstream pool]. cbn [fst] in Hex.
  rewrite Hex. reflexivity.
Qed.

(** A request without a question, answered from the cache or blocked does
    not consult it at all. *)
Lemma handle_without_upstream (s : Server) (conn conn' : Conn) (r : Msg) :
  Msg_Question r = []
  \/ (exists question rest,
         Msg_Question r = question :: rest
         /\ (cacheGet TypeToString (cache s) (time.nanos (now conn))
               (Name question) (Qtype question) <> None
             \/ (Filtering_Enabled (Filtering (cfg s))
                 && filter.ShouldBlock (filter s) (now conn) (Name question)
                      (clientIP conn))%bool = true)) ->
  now conn' = now conn ->
  clientIP conn' = clientIP conn ->
  handleDNSRequest TypeToString s conn' r = handleDNSRequest TypeToString s conn r
  /\ upstreamPool (handleDNSRequest TypeToString s conn r).1.1 = upstreamPool s
  /\ forall upstream, ~ In (EvExchange upstream) (handleDNSRequest TypeToString s conn r).2.
Proof.
  intros Hcase Hnow Hip. unfold handleDNSRequest, handleBlockedDomain. cbv zeta.
  rewrite Hnow, Hip. cbn [upstreamPool withStats cache cfg filter].
  destruct Hcase as [Hq | (question & rest & Hq & Hcase)]; rewrite Hq.
  - repeat split. intros upstream [].
  - destruct (cacheGet TypeToString (cache s) (time.nanos (now conn)) (Name question)
                (Qtype question)) as [m|] eqn:Hget.
    + repeat split. intros upstream [H | []]. discriminate.
    + destruct Hcase as [Hne | Hblock]; [congruence|].
      apply andb_true_iff in Hblock. destruct Hblock as [-> ->].
      repeat split. intros upstream Hin. simpl in Hin.
      repeat match goal with
             | H : _ \/ _ |- _ => destruct H
             | H : False |- _ => destruct H
             end; discriminate.
Qed.

End HandlerPaths.

(** X22.  Every reply either is the upstream's answer to this very request,
    passed on unchanged, or is built by the server and then carries the
    request's transaction id, the response bit, and the request's first
    question only (no question when the request has none). *)
Theorem reply_matches_query (TypeToString : Z -> string) (s : dns.Server)
    (conn : dns.Conn) (r : dns.Msg) :
  (exists upstream,
      dns.Exchange conn r upstream = inl (dns.handleDNSRequest TypeToString s conn r).1.2)
  \/ (dns.Id (dns.handleDNSRequest TypeToString s conn r).1.2 = dns.Id r
      /\ dns.Response (dns.handleDNSRequest TypeToString s conn r).1.2 = true
      /\ dns.Msg_Question (dns.handleDNSRequest TypeToString s conn r).1.2
         = firstn 1 (dns.Msg_Question r)).
Proof. apply handle_reply. Qed.

(** X23.  The counters stay consistent: after any run of fewer than 2^64
    messages from a fresh server, blocked plus cached is at most total, total
    is the number of messages, and no counter is negative; each message
    raises at most one of blocked and cached. *)
Theorem counters_consistent (TypeToString : Z -> string) (cfg : config.Config)
    (e : filter.Engine) (start : Z) (reqs : list (dns.Conn * dns.Msg)) :
  Z.of_nat (length reqs) < 2 ^ 64 ->
  0 <= dns.BlockedQueries (dns.stats (dns.serve TypeToString (dns.NewServer cfg e start) reqs).1)
  /\ 0 <= dns.CachedResponses
            (dns.stats (dns.serve TypeToString (dns.NewServer cfg e start) reqs).1)
  /\ dns.BlockedQueries (dns.stats (dns.serve TypeToString (dns.NewServer cfg e start) reqs).1)
     + dns.CachedResponses
         (dns.stats (dns.serve TypeToString (dns.NewServer cfg e start) reqs).1)
     <= dns.TotalQueries (dns.stats (dns.serve TypeToString (dns.NewServer cfg e start) reqs).1)
  /\ dns.TotalQueries (dns.stats (dns.serve TypeToString (dns.NewServer cfg e start) reqs).1)
     = Z.of_nat (length reqs).
Proof.
  intros Hlt.
  destruct (serve_stats TypeToString reqs (dns.NewServer cfg e start))
    as (H1 & H2 & H3 & H4); cbn; try lia.
  cbn in H4. repeat split; first [assumption | lia].
Qed.

Lemma counters_consistent_witness :
  0 <= dns.BlockedQueries
         (dns.stats (dns.serve dns.commonTypes
                       (dns.NewServer examples.plain examples.doubleclick 0)
                       [(examples.client, examples.query "ads.doubleclick.net." dns.TypeA);
                        (examples.client, examples.query "example.com." dns.TypeA);
                        (examples.client, examples.query "example.com." dns.TypeA)]).1)
  /\ 0 <= dns.CachedResponses
            (dns.stats (dns.serve dns.commonTypes
                          (dns.NewServer examples.plain examples.doubleclick 0)
                          [(examples.client, examples.query "ads.doubleclick.net." dns.TypeA);
                           (examples.client, examples.query "example.com." dns.TypeA);
                           (examples.client, examples.query "example.com." dns.TypeA)]).1)
  /\ dns.BlockedQueries
       (dns.stats (dns.serve dns.commonTypes
                     (dns.NewServer examples.plain examples.doubleclick 0)
                     [(examples.client, examples.query "ads.doubleclick.net." dns.TypeA);
                      (examples.client, examples.query "example.com." dns.TypeA);
                      (examples.client, examples.query "example.com." dns.TypeA)]).1)
     + dns.CachedResponses
         (dns.stats (dns.serve dns.commonTypes
                       (dns.NewServer examples.plain examples.doubleclick 0)
                       [(examples.client, examples.query "ads.doubleclick.net." dns.TypeA);
                        (examples.client, examples.query "example.com." dns.TypeA);
                        (examples.client, examples.query "example.com." dns.TypeA)]).1)
     <= dns.TotalQueries
          (dns.stats (dns.serve dns.commonTypes
                        (dns.NewServer examples.plain examples.doubleclick 0)
                        [(examples.client, examples.query "ads.doubleclick.net." dns.TypeA);
                         (examples.client, examples.query "example.com." dns.TypeA);
                         (examples.client, examples.query "example.com." dns.TypeA)]).1)
  /\ dns.TotalQueries
       (dns.stats (dns.serve dns.commonTypes
                     (dns.NewServer examples.plain examples.doubleclick 0)
                     [(examples.client, examples.query "ads.doubleclick.net." dns.TypeA);
                      (examples.client, examples.query "example.com." dns.TypeA);
                      (examples.client, examples.query "example.com." dns.TypeA)]).1)
     = Z.of_nat 3.
Proof.
  apply (counters_consistent dns.commonTypes examples.plain examples.doubleclick 0
           [(examples.client, examples.query "ads.doubleclick.net." dns.TypeA);
            (examples.client, examples.query "example.com." dns.TypeA);
            (examples.client, examples.query "example.com." dns.TypeA)]).
  simpl. lia.
Defined.

Example counters_after_three :
  dns.GetStats (dns.serve dns.commonTypes (dns.NewServer examples.plain examples.doubleclick 0)
                  [(examples.client, examples.query "ads.doubleclick.net." dns.TypeA);
                   (examples.client, examples.query "example.com." dns.TypeA);
                   (examples.client, examples.query "example.com." dns.TypeA)]).1
  = (3, 1, 1).
Proof. vm_compute. reflexivity. Qed.

(** X24.  A request consults the upstream at most at one point, the server
    [Get] hands out: its whole outcome is the same under any two behaviours of
    the network that agree on that server's answer to this request.  Either
    the request is forwarded, being neither answered from the cache nor
    blocked: then the reply is that server's answer passed on unchanged (the
    server's own SERVFAIL if the exchange fails), the pool has moved on by one
    [Get], and neither the blocked nor the cached counter has moved.  Or the
    request has no question, is answered from the cache or is blocked: then
    its outcome does not depend on the network at all and the pool's
    round-robin counter is left alone. *)
Theorem upstream_contacted_only_on_forward (TypeToString : Z -> string) (s : dns.Server)
    (conn : dns.Conn) (r : dns.Msg) :
  (forall conn' : dns.Conn,
      dns.now conn' = dns.now conn ->
      dns.clientIP conn' = dns.clientIP conn ->
      dns.Exchange conn' r (dns.Get (dns.upstreamPool s)).1
      = dns.Exchange conn r (dns.Get (dns.upstreamPool s)).1 ->
      dns.handleDNSRequest TypeToString s conn' r = dns.handleDNSRequest TypeToString s conn r)
  /\ (((exists question rest,
           dns.Msg_Question r = question :: rest
           /\ dns.cacheGet TypeToString (dns.cache s) (time.nanos (dns.now conn))
                (dns.Name question) (dns.Qtype question) = None
           /\ (config.Filtering_Enabled (config.Filtering (dns.cfg s))
               && filter.ShouldBlock (dns.filter s) (dns.now conn) (dns.Name question)
                    (dns.clientIP conn))%bool = false)
       /\ (dns.handleDNSRequest TypeToString s conn r).1.2
          = spec.forwardedReply r (dns.Exchange conn r (dns.Get (dns.upstreamPool s)).1)
       /\ dns.upstreamPool (dns.handleDNSRequest TypeToString s conn r).1.1
          = (dns.Get (dns.upstreamPool s)).2
       /\ dns.BlockedQueries (dns.stats (dns.handleDNSRequest TypeToString s conn r).1.1)
          = dns.BlockedQueries (dns.stats s)
       /\ dns.CachedResponses (dns.stats (dns.handleDNSRequest TypeToString s conn r).1.1)
          = dns.CachedResponses (dns.stats s)
       /\ List.filter (fun ev => match ev with dns.EvExchange _ => true | _ => false end)
            (dns.handleDNSRequest TypeToString s conn r).2
          = [dns.EvExchange (dns.Get (dns.upstreamPool s)).1]
       /\ (forall domain,
              ~ In (dns.EvShouldBlock domain true) (dns.handleDNSRequest TypeToString s conn r).2)
       /\ (forall key,
              ~ In (dns.EvCacheGet key true) (dns.handleDNSRequest TypeToString s conn r).2))
      \/ ((dns.Msg_Question r = []
           \/ exists question rest,
                dns.Msg_Question r = question :: rest
                /\ (dns.cacheGet TypeToString (dns.cache s) (time.nanos (dns.now conn))
                      (dns.Name question) (dns.Qtype question) <> None
                    \/ (config.Filtering_Enabled (config.Filtering (dns.cfg s))
                        && filter.ShouldBlock (dns.filter s) (dns.now conn) (dns.Name question)
                             (dns.clientIP conn))%bool = true))
          /\ (forall conn' : dns.Conn,
                 dns.now conn' = dns.now conn ->
                 dns.clientIP conn' = dns.clientIP conn ->
                 dns.handleDNSRequest TypeToString s conn' r
                 = dns.handleDNSRequest TypeToString s conn r)
          /\ dns.upstreamPool (dns.handleDNSRequest TypeToString s conn r).1.1
             = dns.upstreamPool s
          /\ (forall upstream,
                 ~ In (dns.EvExchange upstream)
                      (dns.handleDNSRequest TypeToString s conn r).2))).
Proof.
  split; [intros conn'; apply handle_one_answer|].
  assert (Hcase :
    (exists question rest,
        dns.Msg_Question r = question :: rest
        /\ dns.cacheGet TypeToString (dns.cache s) (time.nanos (dns.now conn))
             (dns.Name question) (dns.Qtype question) = None
        /\ (config.Filtering_Enabled (config.Filtering (dns.cfg s))
            && filter.ShouldBlock (dns.filter s) (dns.now conn) (dns.Name question)
                 (dns.clientIP conn))%bool = false)
    \/ (dns.Msg_Question r = []
        \/ exists question rest,
             dns.Msg_Question r = question :: rest
             /\ (dns.cacheGet TypeToString (dns.cache s) (time.nanos (dns.now conn))
                   (dns.Name question) (dns.Qtype question) <> None
                 \/ (config.Filtering_Enabled (config.Filtering (dns.cfg s))
                     && filter.ShouldBlock (dns.filter s) (dns.now conn) (dns.Name question)
                          (dns.clientIP conn))%bool = true))).
  { destruct (dns.Msg_Question r) as [|question rest]; [right; left; reflexivity|].
    destruct (dns.cacheGet TypeToString (dns.cache s) (time.nanos (dns.now conn))
                (dns.Name question) (dns.Qtype question)) as [m|] eqn:Hget.
    - right. right. exists question, rest. split; [reflexivity|]. left. rewrite Hget. discriminate.
    - destruct (config.Filtering_Enabled (config.Filtering (dns.cfg s))
                && filter.ShouldBlock (dns.filter s) (dns.now conn) (dns.Name question)
                     (dns.clientIP conn))%bool eqn:Hblock.
      + right. right. exists question, rest. split; [reflexivity|]. right. exact Hblock.
      + left. exists question, rest. repeat split; assumption. }
  destruct Hcase as [Hfwd | Hnone].
  - left. split; [exact Hfwd|]. destruct Hfwd as (question & rest & Hq & Hget & Hpass).
    destruct (handle_forward TypeToString s conn r question rest Hq Hget Hpass)
      as (Hreply & Hpool & Hstats & _ & Hev).
    split; [exact Hreply|]. split; [exact Hpool|]. rewrite Hstats. cbn [dns.incTotal
      dns.BlockedQueries dns.CachedResponses]. split; [reflexivity|]. split; [reflexivity|].
    split; [exact Hev|].
    destruct (handle_exchange TypeToString s conn r) as [[_ Hno] | (_ & _ & Hrest)].
    + exfalso. apply (Hno (dns.Get (dns.upstreamPool s)).1).
      assert (Hin : In (dns.EvExchange (dns.Get (dns.upstreamPool s)).1)
                      (List.filter (fun ev => match ev with
                                              | dns.EvExchange _ => true
                                              | _ => false
                                              end)
                         (dns.handleDNSRequest TypeToString s conn r).2)).
      { rewrite Hev. left. reflexivity. }
      apply List.filter_In in Hin. exact (proj1 Hin).
    + split.
      * intros domain. exact (proj1 (Hrest domain)).
      * intros key. exact (proj2 (Hrest key) key).
  - right. split; [exact Hnone|].
    split; [intros conn' Hnow Hip;
            exact (proj1 (handle_without_upstream TypeToString s conn conn' r Hnone Hnow Hip))|].
    exact (proj2 (handle_without_upstream TypeToString s conn conn r Hnone eq_refl eq_refl)).
Qed.

(** Two networks that differ only at a server the pool does not hand out give
    the same reply. *)
Example other_upstreams_not_consulted :
  dns.handleDNSRequest dns.commonTypes examples.freshServer
    {| dns.now := examples.monday_noon; dns.clientIP := "192.168.1.10";
       dns.Exchange := fun r upstream =>
         if String.eqb upstream "1.1.1.1:53" then inl (examples.upstreamAnswer r)
         else inr (errorString "unreachable") |}
    (examples.query "example.com." dns.TypeA)
  = dns.handleDNSRequest dns.commonTypes examples.freshServer examples.client
      (examples.query "example.com." dns.TypeA).
Proof. vm_compute. reflexivity. Qed.

(** ** Blocking end to end *)


(** X25.  The blocked answer.  When filtering is on, nothing fresh is
    cached and the engine blocks the name, the reply carries the request's
    id, is authoritative and echoes the first question; under [nxdomain] it
    has rcode NXDOMAIN and no answer; under [redirect] and [block_page] it
    has rcode NOERROR and, for an A question only, one A record for the
    queried name with TTL 300 pointing at the redirect address or at
    127.0.0.1; under any other action it is an empty NOERROR reply.  The
    blocked counter goes up by one, the block is logged once, and neither the
    cache nor the upstream pool is touched. *)
Theorem blocked_reply (TypeToString : Z -> string) (s : dns.Server) (conn : dns.Conn)
    (r : dns.Msg) (question : dns.Question) (rest : list dns.Question) :
  dns.Msg_Question r = question :: rest ->
  dns.cacheGet TypeToString (dns.cache s) (time.nanos (dns.now conn))
    (dns.Name question) (dns.Qtype question) = None ->
  config.Filtering_Enabled (config.Filtering (dns.cfg s)) = true ->
  filter.ShouldBlock (dns.filter s) (dns.now conn) (dns.Name question) (dns.clientIP conn)
  = true ->
  let action := config.BlockAction (config.Filtering (dns.cfg s)) in
  let record address :=
    if Z.eqb (dns.Qtype question) dns.TypeA
    then [{| dns.Hdr := {| dns.Hdr_Name := dns.Name question; dns.Rrtype := dns.TypeA;
                           dns.Class := dns.ClassINET; dns.Ttl := 300 |};
             dns.Rdata := address |}]
    else [] in
  let out := dns.handleDNSRequest TypeToString s conn r in
  dns.Id out.1.2 = dns.Id r
  /\ dns.Authoritative out.1.2 = true
  /\ dns.Msg_Question out.1.2 = [question]
  /\ dns.Rcode out.1.2
     = (if String.eqb action "nxdomain" then dns.RcodeNameError else dns.RcodeSuccess)
  /\ dns.Answer out.1.2
     = (if String.eqb action "nxdomain" then []
        else if String.eqb action "redirect"
             then record (config.RedirectIP (config.Filtering (dns.cfg s)))
             else if String.eqb action "block_page" then record "127.0.0.1"
                  else [])
  /\ dns.BlockedQueries (dns.stats out.1.1)
     = dns.uint64 (dns.BlockedQueries (dns.stats s) + 1)
  /\ dns.CachedResponses (dns.stats out.1.1) = dns.CachedResponses (dns.stats s)
  /\ dns.cache out.1.1 = dns.cache s
  /\ dns.upstreamPool out.1.1 = dns.upstreamPool s
  /\ out.2 = [dns.EvCacheGet (dns.makeKey TypeToString (dns.Name question) (dns.Qtype question))
                false;
              dns.EvShouldBlock (dns.Name question) true;
              dns.EvLogBlockedQuery (dns.Name question) (dns.clientIP conn)].
Proof.
  intros Hq Hget Hen Hb. cbv zeta.
  rewrite (handle_block_path TypeToString s conn r question rest Hq Hget Hen Hb).
  cbn [fst snd]. unfold dns.handleBlockedDomain. cbv zeta.
  cbn [fst snd dns.cfg dns.withStats dns.stats dns.cache dns.upstreamPool
       dns.incBlocked dns.incTotal dns.BlockedQueries dns.CachedResponses].
  destruct (base_reply r question rest Hq) as (Hid & _ & Hauth & Hrc & Hqs & Hans).
  unfold dns.blockRecord. rewrite Hq.
  destruct (String.eqb _ "nxdomain").
  { unfold dns.SetRcode, dns.withRcode, dns.SetReply. cbn. rewrite Hq. repeat split. }
  destruct (String.eqb _ "redirect").
  { destruct (Z.eqb _ dns.TypeA); cbn -[dns.withAuthoritative dns.SetReply];
      rewrite ?Hid, ?Hauth, ?Hrc, ?Hqs, ?Hans; repeat split. }
  destruct (String.eqb _ "block_page").
  { destruct (Z.eqb _ dns.TypeA); cbn -[dns.withAuthoritative dns.SetReply];
      rewrite ?Hid, ?Hauth, ?Hrc, ?Hqs, ?Hans; repeat split. }
  rewrite ?Hid, ?Hauth, ?Hrc, ?Hqs, ?Hans. repeat split.
Qed.

Lemma blocked_reply_witness :
  let s := examples.blockingServer in
  let conn := examples.client in
  let r := examples.query "ads.doubleclick.net." dns.TypeAAAA in
  let question := {| dns.Name := "ads.doubleclick.net."; dns.Qtype := dns.TypeAAAA;
                     dns.Qclass := dns.ClassINET |} in
  let action := config.BlockAction (config.Filtering (dns.cfg s)) in
  let record address :=
    if Z.eqb (dns.Qtype question) dns.TypeA
    then [{| dns.Hdr := {| dns.Hdr_Name := dns.Name question; dns.Rrtype := dns.TypeA;
                           dns.Class := dns.ClassINET; dns.Ttl := 300 |};
             dns.Rdata := address |}]
    else [] in
  let out := dns.handleDNSRequest dns.commonTypes s conn r in
  dns.Id out.1.2 = dns.Id r
  /\ dns.Authoritative out.1.2 = true
  /\ dns.Msg_Question out.1.2 = [question]
  /\ dns.Rcode out.1.2
     = (if String.eqb action "nxdomain" then dns.RcodeNameError else dns.RcodeSuccess)
  /\ dns.Answer out.1.2
     = (if String.eqb action "nxdomain" then []
        else if String.eqb action "redirect"
             then record (config.RedirectIP (config.Filtering (dns.cfg s)))
             else if String.eqb action "block_page" then record "127.0.0.1"
                  else [])
  /\ dns.BlockedQueries (dns.stats out.1.1)
     = dns.uint64 (dns.BlockedQueries (dns.stats s) + 1)
  /\ dns.CachedResponses (dns.stats out.1.1) = dns.CachedResponses (dns.stats s)
  /\ dns.cache out.1.1 = dns.cache s
  /\ dns.upstreamPool out.1.1 = dns.upstreamPool s
  /\ out.2 = [dns.EvCacheGet (dns.makeKey dns.commonTypes (dns.Name question) (dns.Qtype question))
                false;
              dns.EvShouldBlock (dns.Name question) true;
              dns.EvLogBlockedQuery (dns.Name question) (dns.clientIP conn)].
Proof.
  apply (blocked_reply dns.commonTypes examples.blockingServer examples.client
           (examples.query "ads.doubleclick.net." dns.TypeAAAA)
           {| dns.Name := "ads.doubleclick.net."; dns.Qtype := dns.TypeAAAA;
              dns.Qclass := dns.ClassINET |} []).
  - reflexivity.
  - vm_compute. reflexivity.
  - reflexivity.
  - vm_compute. reflexivity.
Defined.

(** X26.  Adding a domain through the API does not clear the cache: a
    request whose answer is cached and still fresh is answered from the cache
    after [addToCustomBlocklist] exactly as before, whatever was added, and
    is not counted as blocked; the block takes effect for that name only once
    the entry has expired or the cache has been cleared. *)
Theorem cached_answer_survives_add (TypeToString : Z -> string) (s : dns.Server)
    (conn : dns.Conn) (r : dns.Msg) (question : dns.Question) (rest : list dns.Question)
    (m : dns.Msg) (body : option string) :
  dns.Msg_Question r = question :: rest ->
  dns.cacheGet TypeToString (dns.cache s) (time.nanos (dns.now conn))
    (dns.Name question) (dns.Qtype question) = Some m ->
  let out := dns.handleDNSRequest TypeToString (api.addToCustomBlocklist s body).1 conn r in
  out.1.2 = dns.SetReply m r
  /\ out.2 = [dns.EvCacheGet (dns.makeKey TypeToString (dns.Name question) (dns.Qtype question))
                true]
  /\ dns.BlockedQueries (dns.stats out.1.1) = dns.BlockedQueries (dns.stats s)
  /\ dns.CachedResponses (dns.stats out.1.1)
     = dns.uint64 (dns.CachedResponses (dns.stats s) + 1).
Proof.
  intros Hq Hget. cbv zeta.
  assert (Hc : dns.cache (api.addToCustomBlocklist s body).1 = dns.cache s
               /\ dns.stats (api.addToCustomBlocklist s body).1 = dns.stats s).
  { unfold api.addToCustomBlocklist. destruct (api.boundDomain body); split; reflexivity. }
  destruct Hc as [Hc Hs].
  rewrite (handle_hit TypeToString _ conn r question rest m Hq); [|rewrite Hc; exact Hget].
  cbn [fst snd dns.stats dns.withStats dns.incCached dns.incTotal
       dns.BlockedQueries dns.CachedResponses].
  rewrite Hs. repeat split.
Qed.

Lemma cached_answer_survives_add_witness :
  let out := dns.handleDNSRequest dns.commonTypes
               (api.addToCustomBlocklist examples.warmServer (Some "example.com")).1
               examples.client (examples.query "example.com." dns.TypeA) in
  out.1.2 = dns.SetReply (examples.upstreamAnswer (examples.query "example.com." dns.TypeA))
              (examples.query "example.com." dns.TypeA)
  /\ out.2 = [dns.EvCacheGet (dns.makeKey dns.commonTypes "example.com." dns.TypeA) true]
  /\ dns.BlockedQueries (dns.stats out.1.1)
     = dns.BlockedQueries (dns.stats examples.warmServer)
  /\ dns.CachedResponses (dns.stats out.1.1)
     = dns.uint64 (dns.CachedResponses (dns.stats examples.warmServer) + 1).
Proof.
  apply (cached_answer_survives_add dns.commonTypes examples.warmServer examples.client
           (examples.query "example.com." dns.TypeA)
           {| dns.Name := "example.com."; dns.Qtype := dns.TypeA; dns.Qclass := dns.ClassINET |}
           [] (examples.upstreamAnswer (examples.query "example.com." dns.TypeA))
           (Some "example.com")).
  - reflexivity.
  - vm_compute. reflexivity.
Defined.






(** The root name: the add is accepted, the empty key is stored, and the
    query for ["."] is passed to the upstream all the same. *)
Example add_root_then_query_root :
  (api.addToCustomBlocklist examples.freshServer (Some ".")).2 = api.StatusOK
  /\ mget (filter.customBlocked
             (dns.filter (api.addToCustomBlocklist examples.freshServer (Some ".")).1)) ""
     = true
  /\ (dns.handleDNSRequest dns.commonTypes
        (api.clearCache (api.addToCustomBlocklist examples.freshServer (Some ".")).1).1
        examples.client (examples.query "." dns.TypeA)).1.2
     = examples.upstreamAnswer (examples.query "." dns.TypeA)
  /\ dns.BlockedQueries
       (dns.stats (dns.handleDNSRequest dns.commonTypes
                     (api.clearCache
                        (api.addToCustomBlocklist examples.freshServer (Some ".")).1).1
                     examples.client (examples.query "." dns.TypeA)).1.1) = 0.
Proof. repeat split; vm_compute; reflexivity. Qed.



(** ** Listing the sets *)

(** X29.  [GetCustomBlocklist] and [GetWhitelist] list every key of their
    set exactly once: a domain is listed when and only when the set has it,
    the list has no repeats and as many items as the set has entries; a
    domain just added is listed in its normalized form and a domain just
    removed is not. *)
Theorem listings_match_sets (e : filter.Engine) (d : string) :
  (forall x, In x (filter.GetCustomBlocklist e) <-> is_Some (filter.customBlocked e !! x))
  /\ (forall x, In x (filter.GetWhitelist e) <-> is_Some (filter.whitelist e !! x))
  /\ List.NoDup (filter.GetCustomBlocklist e)
  /\ List.NoDup (filter.GetWhitelist e)
  /\ length (filter.GetCustomBlocklist e) = size (filter.customBlocked e)
  /\ In (filter.normalizeDomain d) (filter.GetCustomBlocklist (filter.AddToCustomBlocklist e d))
  /\ ~ In (filter.normalizeDomain d)
         (filter.GetCustomBlocklist (filter.RemoveFromCustomBlocklist e d))
  /\ In (filter.normalizeDomain d) (filter.GetWhitelist (filter.AddToWhitelist e d))
  /\ ~ In (filter.normalizeDomain d) (filter.GetWhitelist (filter.RemoveFromWhitelist e d)).
Proof.
  assert (Hin : forall (m : gmap string bool) x, In x (filter.keys m) <-> is_Some (m !! x)).
  { intros m x. rewrite <- list_elem_of_In, elem_of_keys, elem_of_dom. reflexivity. }
  assert (Hnd : forall m : gmap string bool, List.NoDup (filter.keys m)).
  { intros m. apply NoDup_ListNoDup. apply NoDup_fst_map_to_list. }
  unfold filter.GetCustomBlocklist, filter.GetWhitelist.
  repeat split; try apply Hin; try apply Hnd.
  - unfold filter.keys. rewrite length_fmap. apply length_map_to_list.
  - unfold filter.AddToCustomBlocklist, mset. cbn [filter.customBlocked].
    rewrite lookup_insert_eq. eauto.
  - rewrite Hin. unfold filter.RemoveFromCustomBlocklist. cbn [filter.customBlocked].
    rewrite lookup_delete_eq. intros [? H]. discriminate.
  - unfold filter.AddToWhitelist, mset. cbn [filter.whitelist].
    rewrite lookup_insert_eq. eauto.
  - rewrite Hin. unfold filter.RemoveFromWhitelist. cbn [filter.whitelist].
    rewrite lookup_delete_eq. intros [? H]. discriminate.
Qed.

(** X30.  A removal through the API lasts only until the next reload when the
    custom file still lists the domain: after
    [removeFromCustomBlocklist] followed by [reloadCustomBlocklists], every
    enabled entry of the custom files is in the custom set again, the removed
    one included. *)
Theorem reload_restores_removed (s : dns.Server) (w : filter.World) (param d : string) :
  spec.customEntryOf (dns.filter s) w d ->
  spec.inSet
    (filter.customBlocked
       (dns.filter (api.reloadCustomBlocklists (api.removeFromCustomBlocklist s param).1 w).1.1))
    d.
Proof.
  intros Hentry. unfold api.reloadCustomBlocklists, api.removeFromCustomBlocklist.
  cbn [fst]. rewrite ReloadCustomBlocklists_eq.
  cbn [fst snd dns.filter dns.ClearCache dns.withCache api.withEngine filter.customBlocked].
  unfold spec.inSet. apply mget_mergeKeys_loaded. left.
  apply In_customDomains. exact Hentry.
Qed.

Lemma reload_restores_removed_witness :
  spec.inSet
    (filter.customBlocked
       (dns.filter (api.reloadCustomBlocklists
                      (api.removeFromCustomBlocklist examples.warmServer "new.example").1
                      (examples.world (Some examples.yamlAfter) None)).1.1))
    "new.example".
Proof.
  apply (reload_restores_removed examples.warmServer
           (examples.world (Some examples.yamlAfter) None) "new.example" "new.example").
  apply In_customDomains. vm_compute. left. reflexivity.
Defined.
